(** * Sandbox Session Manager

    A shallow embedding of [SandboxManager] (backend/src/services/sandbox-manager.ts)
    and the properties of its session lifecycle, command dispatch, file
    operations, limit updates, health probe and idle-session sweep.

    The manager is a TypeScript class whose methods are [async] functions
    over one mutable [Map] of sessions.  They are embedded as computations
    in a state-and-exception monad [M]: the state carries the registry, the
    events published so far and the log of the calls made to the container
    runtime; an exception is a JavaScript value that was thrown.  The
    container runtime, the wall clock and the random source are not part of
    the program: they are the fields of an environment [Env] over which the
    theorems quantify.

    What the embedding takes for granted: the runtime answers every call
    (a promise of [execAsync] settles, or [exec] throws at once); a
    listener, where one is attached, returns normally; times and exit codes
    are integers; strings hold code units below 256.  The [setInterval]
    that schedules the sweep is not modelled, only the sweep.  A call to
    the runtime is kept as the command and its interpolated parts;
    [command_line] is the command line that the code builds from them. *)

From Stdlib Require Import ZArith List String Ascii Bool Lia.
From Stdlib Require Import DecimalString.
From Stdlib Require DecimalPos DecimalZ.
Import ListNotations.

Open Scope string_scope.
Open Scope Z_scope.

(** ** JavaScript values that the manager inspects *)

(** The values of a property that the code tests for truthiness or compares
    with [===]: absent, [null], a number or a string.  Numbers here are
    integral (milliseconds, exit codes), so they are read as [Z]. *)
Inductive JsVal : Type :=
| VUndefined
| VNull
| VNum (n : Z)
| VStr (s : string).

(** [ToBoolean]: [0] and the empty string are falsy, like [undefined] and
    [null]. *)
Definition truthy (v : JsVal) : bool :=
  match v with
  | VUndefined | VNull => false
  | VNum n => negb (n =? 0)
  | VStr s => negb (s =? "")%string
  end.

(** [a || b] *)
Definition js_or (a b : JsVal) : JsVal := if truthy a then a else b.

(** [o || d] where [o] is an optional string and [d] a string. *)
Definition or_string (o : option string) (d : string) : string :=
  match o with
  | Some s => if (s =? "")%string then d else s
  | None => d
  end.

(** [o || d] where [o] is an optional number and [d] a number. *)
Definition or_number (o : option Z) (d : Z) : Z :=
  match o with
  | Some n => if n =? 0 then d else n
  | None => d
  end.

(** An error object as the code reads it: the [message] of an [Error], and
    the properties that [child_process.exec] adds to its [ExecException]
    ([code], [killed]) and that [promisify(exec)] adds to its rejection
    ([stdout], [stderr]).  [name] is the name under which the error
    prints: [Error] for an [Error], and for an error of Node's own its
    class and code, as in [TypeError [ERR_INVALID_ARG_VALUE]].  An object
    that is not an [Error] has no [message], and its [name] is not read. *)
Record JsError : Type := mkError {
  name : string;
  message : option string;
  code : JsVal;
  killed : option bool;
  e_stdout : option string;
  e_stderr : option string
}.

(** [new Error(msg)] *)
Definition new_Error (msg : string) : JsError :=
  {| name := "Error"; message := Some msg; code := VUndefined; killed := None;
     e_stdout := None; e_stderr := None |}.

(** The interpolation [`${error}`]: the name and the message of an error
    object, of which an empty one is left out with the colon;
    [Object.prototype.toString] for an object without a message. *)
Definition toString (e : JsError) : string :=
  match message e with
  | Some m =>
      if (name e =? "")%string then m
      else if (m =? "")%string then name e
      else name e ++ ": " ++ m
  | None => "[object Object]"
  end.

(** The rejection of [promisify(exec)]: the error, to which [stdout] and
    [stderr] have been added. *)
Definition promisified (e : JsError) (out err : string) : JsError :=
  {| name := name e; message := message e; code := code e; killed := killed e;
     e_stdout := Some out; e_stderr := Some err |}.

(** ** Data model *)

Record SandboxSession : Type := mkSession {
  sessionId : string;
  containerId : string;
  createdAt : Z;
  lastActivityAt : Z;
  memoryLimit : string;
  cpuLimit : string;
  diskLimit : string;
  timeoutMs : Z;
  isActive : bool
}.

Record ExecutionResult : Type := mkResult {
  exitCode : JsVal;
  stdout : string;
  stderr : string;
  durationMs : Z;
  timedOut : bool
}.

Inductive FileOperationType : Type := read | write | delete | list_files.

Record FileOperation : Type := mkFileOperation {
  type : FileOperationType;
  path : string;
  content : option string;
  recursive : option bool
}.

(** The argument of [updateSessionLimits]: every field is optional. *)
Record Limits : Type := mkLimits {
  new_memoryLimit : option string;
  new_cpuLimit : option string;
  new_timeoutMs : option Z
}.

(** The second argument of [executeCommand]. *)
Record ExecOptions : Type := mkOptions {
  cwd : option string;
  env_vars : list (string * string)
}.

(** What [fileOperation] resolves to: [string | string[] | null]. *)
Inductive FileResult : Type :=
| FContent (s : string)
| FList (l : list string)
| FNull.

(** The two object literals that [getSessionHealth] returns. *)
Inductive HealthStatus : Type :=
| Healthy (sid : string) (active : bool) (created lastActivity : Z)
          (memoryUsage cpuUsage containerStatus : JsVal)
| Degraded (sid : string) (active : bool) (error : string).

(** Assignments to the fields of a session object. *)
Definition set_lastActivityAt (t : Z) (x : SandboxSession) : SandboxSession :=
  {| sessionId := sessionId x; containerId := containerId x;
     createdAt := createdAt x; lastActivityAt := t;
     memoryLimit := memoryLimit x; cpuLimit := cpuLimit x;
     diskLimit := diskLimit x; timeoutMs := timeoutMs x;
     isActive := isActive x |}.

Definition set_memoryLimit (m : string) (x : SandboxSession) : SandboxSession :=
  {| sessionId := sessionId x; containerId := containerId x;
     createdAt := createdAt x; lastActivityAt := lastActivityAt x;
     memoryLimit := m; cpuLimit := cpuLimit x;
     diskLimit := diskLimit x; timeoutMs := timeoutMs x;
     isActive := isActive x |}.

Definition set_cpuLimit (c : string) (x : SandboxSession) : SandboxSession :=
  {| sessionId := sessionId x; containerId := containerId x;
     createdAt := createdAt x; lastActivityAt := lastActivityAt x;
     memoryLimit := memoryLimit x; cpuLimit := c;
     diskLimit := diskLimit x; timeoutMs := timeoutMs x;
     isActive := isActive x |}.

Definition set_timeoutMs (t : Z) (x : SandboxSession) : SandboxSession :=
  {| sessionId := sessionId x; containerId := containerId x;
     createdAt := createdAt x; lastActivityAt := lastActivityAt x;
     memoryLimit := memoryLimit x; cpuLimit := cpuLimit x;
     diskLimit := diskLimit x; timeoutMs := t;
     isActive := isActive x |}.

Definition set_isActive (b : bool) (x : SandboxSession) : SandboxSession :=
  {| sessionId := sessionId x; containerId := containerId x;
     createdAt := createdAt x; lastActivityAt := lastActivityAt x;
     memoryLimit := memoryLimit x; cpuLimit := cpuLimit x;
     diskLimit := diskLimit x; timeoutMs := timeoutMs x;
     isActive := b |}.

(** ** The registry: a JavaScript [Map]

    A [Map] iterates in insertion order, and the sweep iterates it, so it is
    an association list in insertion order.  [set] on a key that is present
    keeps its place; [delete] drops the key. *)
Module JsMap.

Definition t (V : Type) : Type := list (string * V).

Fixpoint get {V} (k : string) (m : t V) : option V :=
  match m with
  | [] => None
  | (k', v) :: rest => if (k =? k')%string then Some v else get k rest
  end.

Fixpoint set {V} (k : string) (v : V) (m : t V) : t V :=
  match m with
  | [] => [(k, v)]
  | (k', v') :: rest =>
      if (k =? k')%string then (k', v) :: rest else (k', v') :: set k v rest
  end.

Definition delete {V} (k : string) (m : t V) : t V :=
  filter (fun kv => negb (k =? fst kv)%string) m.

Definition keys {V} (m : t V) : list string := map fst m.

Definition values {V} (m : t V) : list V := map snd m.

(** Keys are unique in a [Map]. *)
Definition wf {V} (m : t V) : Prop := NoDup (keys m).

End JsMap.

Definition Registry : Type := JsMap.t SandboxSession.

(** ** Strings

    The few [String.prototype] methods the manager calls, on strings of
    code units below 256. *)

(** The white space and line terminators of ECMAScript below 256: TAB, LF,
    VT, FF, CR, SP and NBSP. *)
Definition is_whitespace (c : ascii) : bool :=
  let n := nat_of_ascii c in
  ((9 <=? n)%nat && (n <=? 13)%nat) || (n =? 32)%nat || (n =? 160)%nat.

Fixpoint trimStart (s : string) : string :=
  match s with
  | String c rest => if is_whitespace c then trimStart rest else s
  | EmptyString => EmptyString
  end.

Fixpoint rev_string (acc s : string) : string :=
  match s with
  | String c rest => rev_string (String c acc) rest
  | EmptyString => acc
  end.

(** [s.trim()] *)
Definition trim (s : string) : string :=
  rev_string "" (trimStart (rev_string "" (trimStart s))).

Definition newline : ascii := ascii_of_nat 10.

(** [s.split(sep)] for a one-character separator: the current piece [cur]
    is kept reversed. *)
Fixpoint split_aux (sep : ascii) (cur s : string) : list string :=
  match s with
  | EmptyString => [rev_string "" cur]
  | String c rest =>
      if Ascii.eqb c sep
      then rev_string "" cur :: split_aux sep "" rest
      else split_aux sep (String c cur) rest
  end.

Definition split (sep : ascii) (s : string) : list string := split_aux sep "" s.

(** [s.split('\n')] *)
Definition split_lines (s : string) : list string := split newline s.

(** [line.replace(/^\/sandbox/, '')] *)
Definition strip_sandbox_prefix (line : string) : string :=
  if prefix "/sandbox" line
  then substring 8 (String.length line - 8) line
  else line.

(** [String(n)] for an integer. *)
Definition string_of_Z (n : Z) : string := NilZero.string_of_int (Z.to_int n).

(** ** The container runtime, the clock and the random source *)

(** One constructor per command line that the manager hands to
    [child_process.exec]; the arguments are the interpolated parts. *)
Inductive Call : Type :=
| docker_run (memory cpus image : string)
    (* docker run -d --memory M --cpus C --network none --read-only ... IMAGE *)
| docker_stop (cid : string)                        (* docker stop -t 5 CID *)
| docker_rm (cid : string)                          (* docker rm -f CID *)
| docker_exec (cid command : string)                (* docker exec CID bash -c 'COMMAND' *)
| docker_exec_cat (cid file : string)               (* docker exec CID cat "FILE" *)
| docker_exec_write (cid file text : string)        (* docker exec CID bash -c 'cat > "FILE" << EOF ...' *)
| docker_exec_rm (cid flags file : string)          (* docker exec CID rm FLAGS "FILE" *)
| docker_exec_find (cid dir : string)               (* docker exec CID find "DIR" -type f *)
| docker_stats (cid : string)                       (* docker stats CID --no-stream --format ... *)
| docker_update_memory (memory cid : string).       (* docker update --memory M CID *)

(** How a call ends: [exec]'s callback receives [(null, stdout, stderr)] or
    [(error, stdout, stderr)]; or [exec] starts nothing and throws at once,
    as it does for a command line that holds a NUL character. *)
Inductive Reply : Type :=
| Resolved (out err : string)
| Rejected (e : JsError) (out err : string)
| Refused (reason : string).

(** The [TypeError] that [exec] throws when it refuses a command line. *)
Definition refusal (reason : string) : JsError :=
  {| name := "TypeError [ERR_INVALID_ARG_VALUE]"; message := Some reason;
     code := VStr "ERR_INVALID_ARG_VALUE";
     killed := None; e_stdout := None; e_stderr := None |}.

(** [JSON.parse] of the statistics line, as far as the three properties
    read from it: [null], or a value with these (possibly absent)
    properties. *)
Inductive Json : Type :=
| JNull
| JObject (MemUsage CPUPercentage State : JsVal).

(** The outcome of a computation: a value, or a thrown object. *)
Inductive Outcome (A : Type) : Type :=
| Ok (a : A)
| Throw (e : JsError).
Arguments Ok {A} a.
Arguments Throw {A} e.

(** ** Events *)

Inductive Event : Type :=
| session_created (sid cid : string)
| session_destroyed (sid : string)
| session_cleanup (sid : string)
| session_limits_updated (sid : string) (limits : Limits)
| execution_completed (sid : string) (result : ExecutionResult)
| execution_error (sid : string) (result : ExecutionResult)
| file_operation_error (sid : string) (operation : FileOperation) (error : JsError)
| error_event (sid : string) (operation : option string) (error : JsError).

(** Everything the manager does not decide.  Every query carries the number
    of queries made before it ([ticks]), so the answers may change over
    time.  [timer_first n c ms] tells whether the [setTimeout] of [ms]
    milliseconds fires before [exec] calls back.  [error_listener] tells
    whether a subscriber has attached a listener for the event ['error'];
    the manager attaches none itself.  [inspect] is [util.inspect] of the
    payload of an event. *)
Record Env : Type := mkEnv {
  exec : nat -> Call -> Reply;
  timer_first : nat -> Call -> Z -> bool;
  Date_now : nat -> Z;
  Math_random : nat -> string;
  JSON_parse : string -> Outcome Json;
  error_listener : bool;
  inspect : Event -> string
}.

(** The same environment, with no listener for ['error']. *)
Definition without_error_listener (env : Env) : Env :=
  {| exec := exec env; timer_first := timer_first env;
     Date_now := Date_now env; Math_random := Math_random env;
     JSON_parse := JSON_parse env; error_listener := false;
     inspect := inspect env |}.

(** ** The state of a manager and its monad *)

(** [calls] logs every call made to [exec] together with the
    registry as it was when the call was issued: the method is suspended
    there, and that registry is what any other operation would find. *)
Record State : Type := mkState {
  sessions : Registry;
  events : list Event;
  calls : list (Call * Registry);
  console : list string;
  ticks : nat
}.

Definition M (A : Type) : Type := Env -> State -> Outcome A * State.

Definition ret {A} (a : A) : M A := fun _ s => (Ok a, s).

Definition throw {A} (e : JsError) : M A := fun _ s => (Throw e, s).

Definition bind {A B} (m : M A) (k : A -> M B) : M B :=
  fun env s =>
    match m env s with
    | (Ok a, s') => k a env s'
    | (Throw e, s') => (Throw e, s')
    end.

(** [try { m } catch (error) { h error }]: the state changes made before
    the throw stay. *)
Definition try_catch {A} (m : M A) (h : JsError -> M A) : M A :=
  fun env s =>
    match m env s with
    | (Ok a, s') => (Ok a, s')
    | (Throw e, s') => h e env s'
    end.

Declare Scope js_scope.
Delimit Scope js_scope with js.
Notation "x <- m ;; k" := (bind m (fun x => k))
  (at level 100, m at next level, right associativity) : js_scope.
Notation "m ;; k" := (bind m (fun _ => k))
  (at level 100, right associativity) : js_scope.
Notation "'try' m 'catch' h" := (try_catch m h)
  (at level 100, m at next level) : js_scope.
Open Scope js_scope.

Definition tick (s : State) : State :=
  {| sessions := sessions s; events := events s; calls := calls s;
     console := console s; ticks := S (ticks s) |}.

Definition with_sessions (r : Registry) (s : State) : State :=
  {| sessions := r; events := events s; calls := calls s;
     console := console s; ticks := ticks s |}.

(** [this.sessions.get(sessionId)] *)
Definition sessions_get (sid : string) : M (option SandboxSession) :=
  fun _ s => (Ok (JsMap.get sid (sessions s)), s).

(** [this.sessions.set(sessionId, session)] *)
Definition sessions_set (sid : string) (x : SandboxSession) : M unit :=
  fun _ s => (Ok tt, with_sessions (JsMap.set sid x (sessions s)) s).

(** [this.sessions.delete(sessionId)] *)
Definition sessions_delete (sid : string) : M unit :=
  fun _ s => (Ok tt, with_sessions (JsMap.delete sid (sessions s)) s).

(** An assignment [session.f = v] through the reference that
    [this.sessions.get(sid)] returned: the object is the one the registry
    holds under [sid], so the registry sees the new field. *)
Definition assign (sid : string) (f : SandboxSession -> SandboxSession) : M unit :=
  fun _ s =>
    match JsMap.get sid (sessions s) with
    | Some x => (Ok tt, with_sessions (JsMap.set sid (f x) (sessions s)) s)
    | None => (Ok tt, s)
    end.

(** The error that Node's [EventEmitter] throws when ['error'] is emitted
    with no listener for it and a payload that is not an [Error]. *)
Definition unhandled (env : Env) (ev : Event) : JsError :=
  {| name := "Error [ERR_UNHANDLED_ERROR]";
     message := Some ("Unhandled error. (" ++ inspect env ev ++ ")");
     code := VStr "ERR_UNHANDLED_ERROR"; killed := None;
     e_stdout := None; e_stderr := None |}.

Definition deliver (ev : Event) (s : State) : State :=
  {| sessions := sessions s; events := events s ++ [ev];
     calls := calls s; console := console s; ticks := ticks s |}.

(** [this.emit(name, payload)].  Subscribers are outside the manager.  The
    name ['error'] is special: with no listener attached for it, [emit]
    delivers nothing and throws; the payloads published under that name
    are object literals, so what is thrown is the [ERR_UNHANDLED_ERROR]. *)
Definition emit (ev : Event) : M unit :=
  fun env s =>
    match ev with
    | error_event _ _ _ =>
        if error_listener env then (Ok tt, deliver ev s)
        else (Throw (unhandled env ev), s)
    | _ => (Ok tt, deliver ev s)
    end.

Definition console_warn (msg : string) : M unit :=
  fun _ s =>
    (Ok tt, {| sessions := sessions s; events := events s; calls := calls s;
               console := console s ++ [msg]; ticks := ticks s |}).

(** [Date.now()] and [new Date()] *)
Definition now : M Z := fun env s => (Ok (Date_now env (ticks s)), tick s).

(** [Math.random().toString(36).substr(2, 9)] *)
Definition random_suffix : M string :=
  fun env s => (Ok (Math_random env (ticks s)), tick s).

Definition issue (c : Call) (s : State) : State :=
  {| sessions := sessions s; events := events s;
     calls := calls s ++ [(c, sessions s)];
     console := console s; ticks := S (ticks s) |}.

(** [await execAsync(cmd)] with [execAsync = promisify(exec)]: resolves to
    [{stdout, stderr}], or rejects with the error, to which [promisify]
    has added [stdout] and [stderr]; what [exec] throws at once is thrown
    as it is. *)
Definition execAsync (c : Call) : M (string * string) :=
  fun env s =>
    match exec env (ticks s) c with
    | Resolved out err => (Ok (out, err), issue c s)
    | Rejected e out err => (Throw (promisified e out err), issue c s)
    | Refused reason => (Throw (refusal reason), issue c s)
    end.

(** [for (const x of l) { body x }] *)
Fixpoint for_of {A} (l : list A) (body : A -> M unit) : M unit :=
  match l with
  | [] => ret tt
  | x :: rest => body x ;; for_of rest body
  end.

(** ** The manager *)

Definition dockerImageName : string := "claude-agent-sandbox:latest".
Definition baseMemoryLimit : string := "512m".
Definition baseCpuLimit : string := "1".
Definition baseTimeoutMs : Z := 5 * 60 * 1000.
Definition diskLimitGb : Z := 1.
Definition cleanupIntervalMs : Z := 60 * 1000.
Definition maxSessionAge : Z := 30 * 60 * 1000.

(** *** Private helpers *)

Definition validateSession (sid : string) : M SandboxSession :=
  session <- sessions_get sid ;;
  match session with
  | None => throw (new_Error ("Session not found: " ++ sid))
  | Some session =>
      if negb (isActive session)
      then throw (new_Error ("Session is not active: " ++ sid))
      else ret session
  end.

Definition generateSessionId : M string :=
  t <- now ;;
  r <- random_suffix ;;
  ret ("sandbox_" ++ string_of_Z t ++ "_" ++ r).

Definition createContainer : M string :=
  try (out <- execAsync (docker_run baseMemoryLimit baseCpuLimit dockerImageName) ;;
       ret (trim (fst out)))
  catch (fun error => throw (new_Error ("Failed to create container: " ++ toString error))).

Definition stopContainer (cid : string) : M unit :=
  try (execAsync (docker_stop cid) ;; ret tt)
  catch (fun error =>
    (* Container might already be stopped *)
    console_warn ("Failed to stop container: " ++ toString error)).

Definition removeContainer (cid : string) : M unit :=
  try (execAsync (docker_rm cid) ;; ret tt)
  catch (fun error => throw (new_Error ("Failed to remove container: " ++ toString error))).

(** The promise settles with whichever comes first: the timer's
    [reject(new Error(...))], or [exec]'s callback, which rejects with
    [{...error, stdout, stderr}] (the spread copies the own enumerable
    properties of the error, so [code] and [killed] but not [message]) or
    resolves.  Nothing is done to the [exec] when the timer wins.  When
    [exec] throws at once, inside the executor of the promise, the promise
    is rejected with what it threw before the timer can fire. *)
Definition executeInContainer (cid command : string) (timeout : Z)
    (options : ExecOptions) : M (string * string) :=
  fun env s =>
    let c := docker_exec cid command in
    let raced (settled : Outcome (string * string)) :=
      if timer_first env (ticks s) c timeout
      then Throw (new_Error "Execution timeout exceeded")
      else settled in
    match exec env (ticks s) c with
    | Resolved out err => (raced (Ok (out, err)), issue c s)
    | Rejected e out err =>
        (raced (Throw {| name := ""; message := None;
                         code := code e; killed := killed e;
                         e_stdout := Some out; e_stderr := Some err |}),
         issue c s)
    | Refused reason => (Throw (refusal reason), issue c s)
    end.

Definition readFileInContainer (cid filePath : string) : M string :=
  out <- execAsync (docker_exec_cat cid filePath) ;;
  ret (fst out).

Definition writeFileInContainer (cid filePath text : string) : M unit :=
  execAsync (docker_exec_write cid filePath text) ;;
  ret tt.

Definition deleteFileInContainer (cid filePath : string) (rec : option bool) : M unit :=
  let rmFlags :=
    match rec with Some true => "-rf" | _ => "-f" end in
  execAsync (docker_exec_rm cid rmFlags filePath) ;;
  ret tt.

Definition listFilesInContainer (cid dirPath : string) : M (list string) :=
  try (out <- execAsync (docker_exec_find cid dirPath) ;;
       ret (map strip_sandbox_prefix
              (filter (fun line => negb (trim line =? "")%string)
                      (split_lines (fst out)))))
  catch (fun _ => ret []).

(** *** Public methods *)

Definition createSession : M string :=
  sessionId <- generateSessionId ;;
  containerId <- createContainer ;;
  created <- now ;;
  lastActivity <- now ;;
  let session :=
    {| sessionId := sessionId; containerId := containerId;
       createdAt := created; lastActivityAt := lastActivity;
       memoryLimit := baseMemoryLimit; cpuLimit := baseCpuLimit;
       diskLimit := string_of_Z diskLimitGb ++ "gb";
       timeoutMs := baseTimeoutMs; isActive := true |} in
  sessions_set sessionId session ;;
  emit (session_created sessionId containerId) ;;
  ret sessionId.

Definition destroySession (sid : string) : M unit :=
  session <- sessions_get sid ;;
  match session with
  | None => throw (new_Error ("Session not found: " ++ sid))
  | Some session =>
      try (stopContainer (containerId session) ;;
           removeContainer (containerId session) ;;
           assign sid (set_isActive false) ;;
           sessions_delete sid ;;
           emit (session_destroyed sid))
      catch (fun error =>
        emit (error_event sid (Some "destroy") error) ;;
        throw error)
  end.

(** [error.killed === true || error.code === 'ETIMEDOUT'] *)
Definition is_timeout (error : JsError) : bool :=
  match killed error with Some true => true | _ => false end
  || match code error with VStr c => (c =? "ETIMEDOUT")%string | _ => false end.

Definition executeCommand (sid command : string) (options : ExecOptions)
    : M ExecutionResult :=
  session <- validateSession sid ;;
  t <- now ;;
  assign sid (set_lastActivityAt t) ;;
  startTime <- now ;;
  let timeout := timeoutMs session in
  try (out <- executeInContainer (containerId session) command timeout options ;;
       finish <- now ;;
       let result :=
         {| exitCode := VNum 0; stdout := fst out; stderr := snd out;
            durationMs := finish - startTime; timedOut := false |} in
       emit (execution_completed sid result) ;;
       ret result)
  catch (fun error =>
       finish <- now ;;
       let result :=
         {| exitCode := js_or (code error) (VNum 1);
            stdout := or_string (e_stdout error) "";
            stderr := or_string (e_stderr error)
                        (or_string (message error) "Unknown error");
            durationMs := finish - startTime;
            timedOut := is_timeout error |} in
       emit (execution_error sid result) ;;
       ret result).

(** The [switch] has a [default] branch for a [type] outside the four of
    the [FileOperation] type; a well-typed call never reaches it. *)
Definition fileOperation (sid : string) (operation : FileOperation) : M FileResult :=
  session <- validateSession sid ;;
  t <- now ;;
  assign sid (set_lastActivityAt t) ;;
  let sandboxPath := "/sandbox" ++ path operation in
  try (match type operation with
       | read =>
           text <- readFileInContainer (containerId session) sandboxPath ;;
           ret (FContent text)
       | write =>
           match content operation with
           | Some text =>
               if negb (truthy (VStr text))
               then throw (new_Error "Content required for write operation")
               else
                 writeFileInContainer (containerId session) sandboxPath text ;;
                 ret FNull
           | None => throw (new_Error "Content required for write operation")
           end
       | delete =>
           deleteFileInContainer (containerId session) sandboxPath
             (recursive operation) ;;
           ret FNull
       | list_files =>
           l <- listFilesInContainer (containerId session) sandboxPath ;;
           ret (FList l)
       end)
  catch (fun error =>
       emit (file_operation_error sid operation error) ;;
       throw error).

Definition getSessionHealth (sid : string) : M HealthStatus :=
  session <- validateSession sid ;;
  try (out <- execAsync (docker_stats (containerId session)) ;;
       stats <- (fun env s => (JSON_parse env (fst out), s)) ;;
       match stats with
       | JNull =>
           throw (new_Error "Cannot read properties of null (reading 'MemUsage')")
       | JObject MemUsage CPUPercentage State =>
           ret (Healthy sid (isActive session) (createdAt session)
                  (lastActivityAt session)
                  (js_or MemUsage (VStr "N/A"))
                  (js_or CPUPercentage (VStr "N/A"))
                  (js_or State (VStr "running")))
       end)
  catch (fun _ =>
       ret (Degraded sid (isActive session) "Failed to retrieve health status")).

Definition updateSessionLimits (sid : string) (limits : Limits) : M unit :=
  session <- validateSession sid ;;
  match new_memoryLimit limits with
  | Some m => if truthy (VStr m) then assign sid (set_memoryLimit m) else ret tt
  | None => ret tt
  end ;;
  match new_cpuLimit limits with
  | Some c => if truthy (VStr c) then assign sid (set_cpuLimit c) else ret tt
  | None => ret tt
  end ;;
  match new_timeoutMs limits with
  | Some t => if truthy (VNum t) then assign sid (set_timeoutMs t) else ret tt
  | None => ret tt
  end ;;
  (* Update container memory limit *)
  match new_memoryLimit limits with
  | Some m =>
      if truthy (VStr m)
      then
        try (execAsync (docker_update_memory m (containerId session)) ;; ret tt)
        catch (fun error =>
          throw (new_Error ("Failed to update memory limit: " ++ toString error)))
      else ret tt
  | None => ret tt
  end ;;
  emit (session_limits_updated sid limits).

Definition listSessions (s : State) : list SandboxSession :=
  filter isActive (JsMap.values (sessions s)).

(** The body of the [setInterval] callback: one sweep. *)
Definition cleanupInactiveSessions : M unit :=
  n <- now ;;
  entries <- (fun _ s => (Ok (sessions s), s)) ;;
  let sessionsToClean :=
    map fst
      (filter (fun kv => maxSessionAge <? n - lastActivityAt (snd kv)) entries) in
  for_of sessionsToClean (fun sid =>
    try (destroySession sid ;;
         emit (session_cleanup sid))
    catch (fun error =>
         emit (error_event sid (Some "cleanup") error))).

(** [destroy()]: the manager's own shutdown. *)
Definition destroy : M unit :=
  sessionIds <- (fun _ s => (Ok (JsMap.keys (sessions s)), s)) ;;
  for_of sessionIds (fun sid =>
    try (destroySession sid)
    catch (fun error => emit (error_event sid None error))).

(** ** Observations on a run *)

(** The calls handed to the runtime between two states of one run, each
    with the registry at the time of the call. *)
Definition issued (before after : State) : list (Call * Registry) :=
  skipn (List.length (calls before)) (calls after).

(** The same calls, without the registries. *)
Definition issued_calls (before after : State) : list Call :=
  map fst (issued before after).

(** The events published between two states of one run. *)
Definition published (before after : State) : list Event :=
  skipn (List.length (events before)) (events after).

(** What [execAsync] throws on a reply, if it throws. *)
Definition rejection (r : Reply) : option JsError :=
  match r with
  | Resolved _ _ => None
  | Rejected e out err => Some (promisified e out err)
  | Refused reason => Some (refusal reason)
  end.

(** What [removeContainer] throws when [docker rm] is rejected with [e]. *)
Definition removal_failure (e : JsError) : JsError :=
  new_Error ("Failed to remove container: " ++ toString e).

(** What leaves a [catch] block that publishes [ev] under ['error'] and
    then throws [e]: [e] when the event is heard, and otherwise what
    [emit] throws. *)
Definition heard_or_unhandled (env : Env) (ev : Event) (e : JsError) : JsError :=
  if error_listener env then e else unhandled env ev.

(** The result that [executeCommand] builds on an active session, from the
    time the command took, whether the timer fired first, and the reply
    of the runtime: the result of the [try] block when the command ran,
    and the result of the [catch] block otherwise. *)
Definition command_result (elapsed : Z) (timer_fired : bool) (reply : Reply)
    : ExecutionResult :=
  let expired :=
    {| exitCode := VNum 1; stdout := ""; stderr := "Execution timeout exceeded";
       durationMs := elapsed; timedOut := false |} in
  match reply with
  | Resolved out err =>
      if timer_fired then expired
      else {| exitCode := VNum 0; stdout := out; stderr := err;
              durationMs := elapsed; timedOut := false |}
  | Rejected e out err =>
      if timer_fired then expired
      else {| exitCode := js_or (code e) (VNum 1); stdout := out;
              stderr := or_string (Some err) "Unknown error";
              durationMs := elapsed; timedOut := is_timeout e |}
  | Refused reason =>
      {| exitCode := VStr "ERR_INVALID_ARG_VALUE"; stdout := "";
         stderr := or_string (Some reason) "Unknown error";
         durationMs := elapsed; timedOut := false |}
  end.

(** The idle duration that a sweep reading the clock at [n] computes. *)
Definition idle (n : Z) (x : SandboxSession) : Z := n - lastActivityAt x.

(** The runtime accepts the call [c] whenever it is made. *)
Definition accepts (env : Env) (c : Call) : Prop :=
  forall n, exists out err, exec env n c = Resolved out err.

(** ** Where a path leads

    The specification speaks of a path that resolves outside the sandbox
    root.  The manager has no such notion; this is the usual resolution of
    an absolute path: [.] and empty segments are skipped, [..] drops the
    last directory (the root is its own parent), and the path is inside
    the root [/sandbox] when its first directory is [sandbox]. *)
Fixpoint resolve (stack : list string) (segments : list string) : list string :=
  match segments with
  | [] => rev stack
  | seg :: rest =>
      if (seg =? "")%string || (seg =? ".")%string then resolve stack rest
      else if (seg =? "..")%string then resolve (tl stack) rest
      else resolve (seg :: stack) rest
  end.

Definition spec_resolves_outside_root (sandboxPath : string) : bool :=
  match resolve [] (split "/"%char sandboxPath) with
  | first :: _ => negb (first =? "sandbox")%string
  | [] => true
  end.

(** The file or directory that a call to the runtime names, if any. *)
Definition file_of (c : Call) : option string :=
  match c with
  | docker_exec_cat _ f | docker_exec_write _ f _ | docker_exec_rm _ _ f
  | docker_exec_find _ f => Some f
  | _ => None
  end.

(** [!operation.content], the test that the [write] case makes; the other
    cases do not read the content. *)
Definition lacks_content (operation : FileOperation) : bool :=
  match type operation with
  | write =>
      match content operation with
      | Some text => negb (truthy (VStr text))
      | None => true
      end
  | _ => false
  end.

(** The operation without its [content] property. *)
Definition without_content (operation : FileOperation) : FileOperation :=
  {| type := type operation; path := path operation; content := None;
     recursive := recursive operation |}.

(** The session after the assignments of [updateSessionLimits]: each limit
    is [limits.f || session.f], the other fields are those of [x]. *)
Definition with_limits (limits : Limits) (x : SandboxSession) : SandboxSession :=
  {| sessionId := sessionId x; containerId := containerId x;
     createdAt := createdAt x; lastActivityAt := lastActivityAt x;
     memoryLimit := or_string (new_memoryLimit limits) (memoryLimit x);
     cpuLimit := or_string (new_cpuLimit limits) (cpuLimit x);
     diskLimit := diskLimit x;
     timeoutMs := or_number (new_timeoutMs limits) (timeoutMs x);
     isActive := isActive x |}.

(** The two calls of the teardown of a session. *)
Definition teardown (x : SandboxSession) : list Call :=
  [docker_stop (containerId x); docker_rm (containerId x)].

(** The body of the loop of [cleanupInactiveSessions]. *)
Definition sweep_body (sid : string) : M unit :=
  try (destroySession sid ;;
       emit (session_cleanup sid))
  catch (fun error =>
       emit (error_event sid (Some "cleanup") error)).

(** The log of calls only grows from [s] to [s']. *)
Definition extends (s s' : State) : Prop :=
  exists l, calls s' = (calls s ++ l)%list.

(** A computation keeps the keys of the registry unique. *)
Definition preserves_wf {A} (m : M A) : Prop :=
  forall env s, JsMap.wf (sessions s) -> JsMap.wf (sessions (snd (m env s))).

(** ** Scenarios: concrete runtimes and managers *)
Module Scenario.

(** What [util.inspect] prints for the payload of an ['error'] event, in
    short. *)
Definition inspected (ev : Event) : string :=
  match ev with
  | error_event sid (Some operation) e =>
      "{ sessionId: '" ++ sid ++ "', operation: '" ++ operation ++
      "', error: [" ++ toString e ++ "] }"
  | error_event sid None e =>
      "{ sessionId: '" ++ sid ++ "', error: [" ++ toString e ++ "] }"
  | _ => "[Object]"
  end.

Definition session1 : SandboxSession :=
  {| sessionId := "s1"; containerId := "c1"; createdAt := 0;
     lastActivityAt := 0; memoryLimit := "512m"; cpuLimit := "1";
     diskLimit := "1gb"; timeoutMs := 300000; isActive := true |}.

Definition session2 : SandboxSession :=
  {| sessionId := "s2"; containerId := "c2"; createdAt := 1000;
     lastActivityAt := 1900000; memoryLimit := "512m"; cpuLimit := "1";
     diskLimit := "1gb"; timeoutMs := 300000; isActive := true |}.

Definition session3 : SandboxSession :=
  {| sessionId := "s3"; containerId := "c3"; createdAt := 2000;
     lastActivityAt := 2000; memoryLimit := "512m"; cpuLimit := "1";
     diskLimit := "1gb"; timeoutMs := 300000; isActive := true |}.

(** A new manager. *)
Definition fresh : State :=
  {| sessions := []; events := []; calls := []; console := []; ticks := 0 |}.

(** A manager with one session. *)
Definition one : State :=
  {| sessions := [("s1", session1)]; events := []; calls := [];
     console := []; ticks := 0 |}.

(** A manager with three sessions; at time 2000000 the first and the third
    have been idle for more than thirty minutes. *)
Definition three : State :=
  {| sessions := [("s1", session1); ("s2", session2); ("s3", session3)];
     events := []; calls := []; console := []; ticks := 0 |}.

(** The error of a command that exited with status 1. *)
Definition failure : JsError :=
  {| name := "Error"; message := Some "Command failed"; code := VNum 1;
     killed := Some false; e_stdout := None; e_stderr := None |}.

(** A runtime that accepts every call, at time 2000000. *)
Definition healthy : Env :=
  {| exec := fun _ _ => Resolved "" "";
     timer_first := fun _ _ _ => false;
     Date_now := fun _ => 2000000;
     Math_random := fun _ => "k3j9x0q1z";
     JSON_parse := fun _ => Ok (JObject VUndefined VUndefined VUndefined);
     error_listener := true;
     inspect := inspected |}.

(** A runtime that names its containers [c1] and on which [docker rm] of
    the container [c1] fails. *)
Definition rm_c1_fails : Env :=
  {| exec := fun _ c =>
       match c with
       | docker_run _ _ _ => Resolved (String "c" (String "1" (String newline ""))) ""
       | docker_rm "c1" => Rejected failure "" "No such container"
       | _ => Resolved "" ""
       end;
     timer_first := fun _ _ _ => false;
     Date_now := fun _ => 2000000;
     Math_random := fun _ => "k3j9x0q1z";
     JSON_parse := fun _ => Ok (JObject VUndefined VUndefined VUndefined);
     error_listener := true;
     inspect := inspected |}.

(** A runtime on which every command outlives the timer; the clock
    advances by five minutes at every reading. *)
Definition slow : Env :=
  {| exec := fun _ _ => Resolved "partial output" "";
     timer_first := fun _ _ _ => true;
     Date_now := fun n => 2000000 + 300000 * Z.of_nat n;
     Math_random := fun _ => "k3j9x0q1z";
     JSON_parse := fun _ => Ok (JObject VUndefined VUndefined VUndefined);
     error_listener := true;
     inspect := inspected |}.

(** A runtime that refuses [docker update] and [docker stats]. *)
Definition unreachable : Env :=
  {| exec := fun _ c =>
       match c with
       | docker_update_memory _ _ | docker_stats _ =>
           Rejected failure "" "Cannot connect to the Docker daemon"
       | _ => Resolved "" ""
       end;
     timer_first := fun _ _ _ => false;
     Date_now := fun _ => 2000000;
     Math_random := fun _ => "k3j9x0q1z";
     JSON_parse := fun _ => Ok (JObject VUndefined VUndefined VUndefined);
     error_listener := true;
     inspect := inspected |}.

(** A runtime in whose containers [/etc/passwd] can be read. *)
Definition with_passwd : Env :=
  {| exec := fun _ c =>
       match c with
       | docker_exec_cat _ "/sandbox/../../etc/passwd" =>
           Resolved "root:x:0:0:root:/root:/bin/bash" ""
       | docker_exec_cat _ _ =>
           Rejected failure "" "cat: No such file or directory"
       | _ => Resolved "" ""
       end;
     timer_first := fun _ _ _ => false;
     Date_now := fun _ => 2000000;
     Math_random := fun _ => "k3j9x0q1z";
     JSON_parse := fun _ => Ok (JObject VUndefined VUndefined VUndefined);
     error_listener := true;
     inspect := inspected |}.

Definition no_options : ExecOptions := {| cwd := None; env_vars := [] |}.

Definition lower_everything : Limits :=
  {| new_memoryLimit := Some "256m"; new_cpuLimit := Some "2";
     new_timeoutMs := Some 1000 |}.

Definition timeout_zero : Limits :=
  {| new_memoryLimit := None; new_cpuLimit := None; new_timeoutMs := Some 0 |}.

Definition read_passwd : FileOperation :=
  {| type := read; path := "/../../etc/passwd"; content := None;
     recursive := None |}.

Definition write_nothing : FileOperation :=
  {| type := write; path := "/empty.txt"; content := Some "";
     recursive := None |}.

End Scenario.

(** ** Further observations and invariants *)

(** The lines written to the console between two states of one run. *)
Definition warned (before after : State) : list string :=
  skipn (List.length (console before)) (console after).

(** The body of the loop of [destroy]. *)
Definition destroy_body (sid : string) : M unit :=
  try (destroySession sid)
  catch (fun error => emit (error_event sid None error)).

(** A computation takes the registry along the relation [P], whatever the
    runtime answers. *)
Definition steps (P : Registry -> Registry -> Prop) {A} (m : M A) : Prop :=
  forall env s, P (sessions s) (sessions (snd (m env s))).

(** The registry has the same keys, in the same order. *)
Definition same_keys (m m' : Registry) : Prop := JsMap.keys m' = JsMap.keys m.

(** What identifies a session and its container; no method assigns these
    fields. *)
Definition same_identity (x x' : SandboxSession) : Prop :=
  sessionId x' = sessionId x /\ containerId x' = containerId x /\
  createdAt x' = createdAt x /\ diskLimit x' = diskLimit x.

(** No identifier is registered from [m] to [m'], and a session that stays
    registered keeps its identity. *)
Definition keeps_identity (m m' : Registry) : Prop :=
  forall k,
    match JsMap.get k m' with
    | None => True
    | Some x' =>
        match JsMap.get k m with
        | Some x => same_identity x x'
        | None => False
        end
    end.

(** Every session is registered under its own [sessionId]. *)
Definition keyed (m : Registry) : Prop :=
  forall k x, In (k, x) m -> sessionId x = k.

(** [keyed] is kept from [m] to [m']. *)
Definition keeps_keyed (m m' : Registry) : Prop := keyed m -> keyed m'.

(** The output of [find]: one line per path. *)
Definition unlines (lines : list string) : string :=
  fold_right (fun line rest => line ++ String newline rest) "" lines.

(** The characters of a string. *)
Fixpoint chars (s : string) : list ascii :=
  match s with
  | EmptyString => []
  | String c rest => c :: chars rest
  end.

(** [exitCode === 0] *)
Definition is_zero (v : JsVal) : bool :=
  match v with VNum 0 => true | _ => false end.

(** More concrete runtimes and managers. *)
Module Cases.

(** A manager whose only session has been marked inactive. *)
Definition inactive1 : SandboxSession :=
  {| sessionId := "s1"; containerId := "c1"; createdAt := 0;
     lastActivityAt := 0; memoryLimit := "512m"; cpuLimit := "1";
     diskLimit := "1gb"; timeoutMs := 300000; isActive := false |}.

Definition parked : State :=
  {| sessions := [("s1", inactive1)]; events := []; calls := [];
     console := []; ticks := 0 |}.

(** A runtime on which [docker stop] fails and everything else works. *)
Definition stop_fails : Env :=
  {| exec := fun _ c =>
       match c with
       | docker_stop _ => Rejected Scenario.failure "" "No such container"
       | _ => Resolved "" ""
       end;
     timer_first := fun _ _ _ => false;
     Date_now := fun _ => 2000000;
     Math_random := fun _ => "k3j9x0q1z";
     JSON_parse := fun _ => Ok (JObject VUndefined VUndefined VUndefined);
     error_listener := true;
     inspect := Scenario.inspected |}.

(** A runtime that cannot start a container. *)
Definition no_docker : Env :=
  {| exec := fun _ _ => Rejected Scenario.failure "" "Cannot connect to the Docker daemon";
     timer_first := fun _ _ _ => false;
     Date_now := fun _ => 2000000;
     Math_random := fun _ => "k3j9x0q1z";
     JSON_parse := fun _ => Throw (new_Error "Unexpected end of JSON input");
     error_listener := true;
     inspect := Scenario.inspected |}.

(** A runtime that kills the command itself and says so. *)
Definition killer : Env :=
  {| exec := fun _ c =>
       match c with
       | docker_exec _ _ =>
           Rejected {| name := "Error"; message := Some "Command failed";
                       code := VNull; killed := Some true;
                       e_stdout := None; e_stderr := None |}
                    "partial output" ""
       | _ => Resolved "" ""
       end;
     timer_first := fun _ _ _ => false;
     Date_now := fun n => 2000000 + Z.of_nat n;
     Math_random := fun _ => "k3j9x0q1z";
     JSON_parse := fun _ => Ok (JObject VUndefined VUndefined VUndefined);
     error_listener := true;
     inspect := Scenario.inspected |}.

(** A runtime whose [find] prints two files. *)
Definition two_files : Env :=
  {| exec := fun _ c =>
       match c with
       | docker_exec_find _ _ => Resolved (unlines ["/sandbox/a.txt"; "/sandbox/dir/b.py"]) ""
       | _ => Resolved "" ""
       end;
     timer_first := fun _ _ _ => false;
     Date_now := fun _ => 2000000;
     Math_random := fun _ => "k3j9x0q1z";
     JSON_parse := fun _ => Ok (JObject VUndefined VUndefined VUndefined);
     error_listener := true;
     inspect := Scenario.inspected |}.

(** A runtime at a time when no session of [Scenario.three] is idle. *)
Definition early : Env :=
  {| exec := fun _ _ => Resolved "" "";
     timer_first := fun _ _ _ => false;
     Date_now := fun _ => 1800000;
     Math_random := fun _ => "k3j9x0q1z";
     JSON_parse := fun _ => Ok (JObject VUndefined VUndefined VUndefined);
     error_listener := true;
     inspect := Scenario.inspected |}.

Definition list_root : FileOperation :=
  {| type := list_files; path := "/"; content := None; recursive := None |}.

Definition cpu_only : Limits :=
  {| new_memoryLimit := None; new_cpuLimit := Some "2"; new_timeoutMs := None |}.

(** A write whose content is the one line [EOF]. *)
Definition write_EOF : FileOperation :=
  {| type := write; path := "/empty.txt"; content := Some "EOF";
     recursive := None |}.

(** A runtime in which the script of that write ends with the exit status
    127: after the here-document, [bash] takes the last line of the script
    for a command. *)
Definition eof_not_found : Env :=
  {| exec := fun _ c =>
       match c with
       | docker_exec_write _ _ "EOF" =>
           Rejected {| name := "Error"; message := Some "Command failed";
                       code := VNum 127; killed := Some false;
                       e_stdout := None; e_stderr := None |}
                    "" "bash: line 3: EOF: command not found"
       | _ => Resolved "" ""
       end;
     timer_first := fun _ _ _ => false;
     Date_now := fun _ => 2000000;
     Math_random := fun _ => "k3j9x0q1z";
     JSON_parse := fun _ => Ok (JObject VUndefined VUndefined VUndefined);
     error_listener := false;
     inspect := Scenario.inspected |}.

End Cases.

(** ** Command lines and the shell *)

Definition dquote : string := String (ascii_of_nat 34) "".

(** [text.replace(/'/g, "'\\''")]: every single quote becomes the four
    characters that close the quoted text, give one quote and open it
    again. *)
Fixpoint escape_quotes (text : string) : string :=
  match text with
  | EmptyString => EmptyString
  | String c rest =>
      if Ascii.eqb c "'" then "'\''" ++ escape_quotes rest
      else String c (escape_quotes rest)
  end.

(** The last word of the command line of [docker exec CID bash -c WORD], as
    [executeInContainer] and [writeFileInContainer] write it. *)
Definition bash_c_word (c : Call) : string :=
  match c with
  | docker_exec _ command => "'" ++ escape_quotes command ++ "'"
  | docker_exec_write _ file text =>
      "'cat > " ++ dquote ++ file ++ dquote ++ " << 'EOF'" ++
      String newline (escape_quotes text ++ String newline "EOF'")
  | _ => ""
  end.

(** The command line handed to [exec]: the template literal of the helper
    that makes the call. *)
Definition command_line (c : Call) : string :=
  match c with
  | docker_run memory cpus image =>
      "docker run -d --memory " ++ memory ++ " " ++
      "--cpus " ++ cpus ++ " " ++
      "--network none " ++
      "--read-only " ++
      "--tmpfs /tmp:size=1gb,noexec,nosuid " ++
      "--tmpfs /sandbox:size=1gb,noexec,nosuid " ++
      image
  | docker_stop cid => "docker stop -t 5 " ++ cid
  | docker_rm cid => "docker rm -f " ++ cid
  | docker_exec cid _ => "docker exec " ++ cid ++ " bash -c " ++ bash_c_word c ++ " "
  | docker_exec_cat cid file =>
      "docker exec " ++ cid ++ " cat " ++ dquote ++ file ++ dquote
  | docker_exec_write cid _ _ => "docker exec " ++ cid ++ " bash -c " ++ bash_c_word c
  | docker_exec_rm cid flags file =>
      "docker exec " ++ cid ++ " rm " ++ flags ++ " " ++ dquote ++ file ++ dquote
  | docker_exec_find cid dir =>
      "docker exec " ++ cid ++ " find " ++ dquote ++ dir ++ dquote ++ " -type f"
  | docker_stats cid =>
      "docker stats " ++ cid ++ " --no-stream --format " ++
      dquote ++ "{{json .}}" ++ dquote
  | docker_update_memory memory cid =>
      "docker update --memory " ++ memory ++ " " ++ cid
  end.

(** What [sh] makes of a word in which only single quotes, and a backslash
    outside them, are special: the text between single quotes stands for
    itself, a backslash outside them makes the next character stand for
    itself, and the quotes and that backslash go. *)
Fixpoint sh_word (quoted : bool) (text : string) : string :=
  match text with
  | EmptyString => EmptyString
  | String c rest =>
      if quoted then
        if Ascii.eqb c "'" then sh_word false rest
        else String c (sh_word true rest)
      else if Ascii.eqb c "'" then sh_word true rest
      else if Ascii.eqb c "\" then
        match rest with
        | String d rest' => String d (sh_word false rest')
        | EmptyString => EmptyString
        end
      else String c (sh_word false rest)
  end.

(** The script that [bash -c] receives from a call. *)
Definition bash_script (c : Call) : string := sh_word false (bash_c_word c).

(** The lines of a here-document whose delimiter is the unquoted word
    [EOF]: those before the first line that is [EOF]. *)
Fixpoint here_document_lines (lines : list string) : list string :=
  match lines with
  | [] => []
  | line :: rest =>
      if (line =? "EOF")%string then [] else line :: here_document_lines rest
  end.

(** What [cat] reads from the here-document of a script whose first line
    ends in [<< EOF], as far as the text holds nothing that [bash] expands:
    the lines that follow the first, up to the delimiter, each with its
    newline. *)
Definition here_document (script : string) : string :=
  match split_lines script with
  | _ :: body => unlines (here_document_lines body)
  | [] => ""
  end.

(** * Properties *)

(** ** The registry *)
Module JsMapFacts.

Section Facts.
Context {V : Type}.
Implicit Types (m : JsMap.t V) (k : string) (v : V).

Lemma get_delete_same k m : JsMap.get k (JsMap.delete k m) = None.
Proof.
  induction m as [|[k' v'] m IH]; simpl; [reflexivity|].
  destruct (String.eqb_spec k k') as [->|Hne]; simpl; [exact IH|].
  destruct (String.eqb_spec k k'); [contradiction|exact IH].
Qed.

Lemma get_delete_other k k' m :
  k <> k' -> JsMap.get k' (JsMap.delete k m) = JsMap.get k' m.
Proof.
  intros Hne. induction m as [|[k0 v0] m IH]; simpl; [reflexivity|].
  destruct (String.eqb_spec k k0) as [->|Hk]; simpl.
  - destruct (String.eqb_spec k' k0); [congruence|exact IH].
  - destruct (String.eqb_spec k' k0); [reflexivity|exact IH].
Qed.

Lemma get_set_other k k' v m :
  k <> k' -> JsMap.get k' (JsMap.set k v m) = JsMap.get k' m.
Proof.
  intros Hne. induction m as [|[k0 v0] m IH]; simpl.
  - destruct (String.eqb_spec k' k); [congruence|reflexivity].
  - destruct (String.eqb_spec k k0) as [->|Hk]; simpl.
    + destruct (String.eqb_spec k' k0); [congruence|reflexivity].
    + destruct (String.eqb_spec k' k0); [reflexivity|exact IH].
Qed.

Lemma get_set_same k v m : JsMap.get k (JsMap.set k v m) = Some v.
Proof.
  induction m as [|[k0 v0] m IH]; simpl.
  - now rewrite String.eqb_refl.
  - destruct (String.eqb_spec k k0) as [->|Hk]; simpl.
    + now rewrite String.eqb_refl.
    + destruct (String.eqb_spec k k0); [contradiction|exact IH].
Qed.

Lemma get_In k v m : JsMap.get k m = Some v -> In (k, v) m.
Proof.
  induction m as [|[k0 v0] m IH]; simpl; [discriminate|].
  destruct (String.eqb_spec k k0) as [->|Hk].
  - intros [= ->]. now left.
  - intros H. right. now apply IH.
Qed.

Lemma In_get k v m : JsMap.wf m -> In (k, v) m -> JsMap.get k m = Some v.
Proof.
  unfold JsMap.wf, JsMap.keys.
  induction m as [|[k0 v0] m IH]; simpl; [contradiction|].
  intros Hnd [[= -> ->]|Hin].
  - now rewrite String.eqb_refl.
  - inversion Hnd as [|? ? Hnotin Hnd']; subst.
    destruct (String.eqb_spec k k0) as [->|Hk]; [|now apply IH].
    exfalso. apply Hnotin. now apply (in_map fst) in Hin.
Qed.

Lemma set_get_same k v m : JsMap.get k m = Some v -> JsMap.set k v m = m.
Proof.
  induction m as [|[k0 v0] m IH]; simpl; [discriminate|].
  destruct (String.eqb_spec k k0) as [->|Hne].
  - now intros [= ->].
  - intros Hget. now rewrite IH.
Qed.

Lemma set_set_same k v v' m :
  JsMap.set k v' (JsMap.set k v m) = JsMap.set k v' m.
Proof.
  induction m as [|[k0 v0] m IH]; simpl.
  - now rewrite String.eqb_refl.
  - destruct (String.eqb_spec k k0) as [->|Hne]; simpl.
    + now rewrite String.eqb_refl.
    + destruct (String.eqb_spec k k0); [contradiction|now rewrite IH].
Qed.

Lemma keys_delete k m :
  JsMap.keys (JsMap.delete k m) =
    filter (fun k' => negb (k =? k')%string) (JsMap.keys m).
Proof.
  unfold JsMap.keys, JsMap.delete.
  induction m as [|[k0 v0] m IH]; simpl; [reflexivity|].
  destruct (k =? k0)%string; simpl; now rewrite IH.
Qed.

Lemma wf_delete k m : JsMap.wf m -> JsMap.wf (JsMap.delete k m).
Proof. unfold JsMap.wf. rewrite keys_delete. apply NoDup_filter. Qed.

(** A new key goes to the end; a key that is present keeps its place. *)
Lemma keys_set k v m :
  JsMap.keys (JsMap.set k v m) =
    if in_dec string_dec k (JsMap.keys m) then JsMap.keys m
    else (JsMap.keys m ++ [k])%list.
Proof.
  unfold JsMap.keys.
  induction m as [|[k0 v0] m IH]; simpl; [reflexivity|].
  destruct (String.eqb_spec k k0) as [->|Hne]; simpl.
  - destruct (string_dec k0 k0); [reflexivity|contradiction].
  - rewrite IH. destruct (string_dec k0 k); [congruence|].
    now destruct (in_dec string_dec k (map fst m)).
Qed.

Lemma wf_set k v m : JsMap.wf m -> JsMap.wf (JsMap.set k v m).
Proof.
  unfold JsMap.wf. rewrite keys_set.
  destruct (in_dec string_dec k (JsMap.keys m)) as [Hin|Hnot]; [auto|].
  intros Hnd. apply NoDup_rev in Hnd. rewrite <- (rev_involutive (_ ++ _)).
  apply NoDup_rev. rewrite rev_app_distr. simpl. constructor; [|exact Hnd].
  now rewrite <- in_rev.
Qed.

End Facts.

End JsMapFacts.

(** ** Reading the logs *)

Lemma skipn_length_app {A} (l l' : list A) : skipn (List.length l) (l ++ l') = l'.
Proof. induction l as [|a l IH]; simpl; [reflexivity|exact IH]. Qed.

Lemma issued_app (s s' : State) (l : list (Call * Registry)) :
  calls s' = (calls s ++ l)%list -> issued s s' = l.
Proof. unfold issued. intros ->. apply skipn_length_app. Qed.

Lemma published_app (s s' : State) (l : list Event) :
  events s' = (events s ++ l)%list -> published s s' = l.
Proof. unfold published. intros ->. apply skipn_length_app. Qed.

Lemma toString_promisified (e : JsError) (out err : string) :
  toString (promisified e out err) = toString e.
Proof. reflexivity. Qed.

(** Unfolds the monad down to the state transformers. *)
Ltac run :=
  unfold bind, try_catch, ret, throw, sessions_get, sessions_set,
    sessions_delete, assign, emit, deliver, console_warn, now, random_suffix,
    execAsync in *;
  cbn [fst snd sessions events calls console ticks issue tick with_sessions
       rejection] in *.

(** ** destroySession *)

Lemma destroySession_absent (env : Env) (s : State) (sid : string) :
  JsMap.get sid (sessions s) = None ->
  destroySession sid env s = (Throw (new_Error ("Session not found: " ++ sid)), s).
Proof. intros H. unfold destroySession. run. now rewrite H. Qed.

(** The run of [destroySession] on a registered session: the two calls it
    makes, and what becomes of the registry, by the reply to [docker rm]. *)
Lemma destroySession_present (env : Env) (s : State) (sid : string)
    (sess : SandboxSession) :
  JsMap.get sid (sessions s) = Some sess ->
  let out := destroySession sid env s in
  calls (snd out) =
    (calls s ++ [(docker_stop (containerId sess), sessions s);
                 (docker_rm (containerId sess), sessions s)])%list /\
  match rejection (exec env (S (ticks s)) (docker_rm (containerId sess))) with
  | None =>
      fst out = Ok tt /\
      sessions (snd out) =
        JsMap.delete sid (JsMap.set sid (set_isActive false sess) (sessions s))
  | Some e =>
      fst out =
        Throw (heard_or_unhandled env
                 (error_event sid (Some "destroy") (removal_failure e))
                 (removal_failure e)) /\
      sessions (snd out) = sessions s
  end.
Proof.
  intros H. unfold destroySession, stopContainer, removeContainer,
    heard_or_unhandled. run.
  rewrite H.
  destruct (exec env (ticks s) (docker_stop (containerId sess))); run;
    destruct (exec env (S (ticks s)) (docker_rm (containerId sess))); run;
    rewrite ?H; run; destruct (error_listener env); run;
    rewrite <- ?app_assoc; auto.
Qed.

(** C1 (as amended).  For every session present in the registry,
    [destroySession] removes the registry entry exactly when removing the
    backing container succeeds; whether stopping it succeeded plays no
    part and is not reported.  When [docker rm] fails, the call throws and
    the registry is what it was: the entry stays.  What is thrown is the
    removal error when a listener for ['error'] is attached to the manager,
    and otherwise the [ERR_UNHANDLED_ERROR] of the ['error'] event that
    carries it. *)
Theorem destroySession_entry_removed_iff_container_removed
    (env : Env) (s : State) (sid : string) (sess : SandboxSession) :
  JsMap.get sid (sessions s) = Some sess ->
  let out := destroySession sid env s in
  match rejection (exec env (S (ticks s)) (docker_rm (containerId sess))) with
  | None =>
      fst out = Ok tt /\ JsMap.get sid (sessions (snd out)) = None
  | Some e =>
      let failure := new_Error ("Failed to remove container: " ++ toString e) in
      fst out =
        Throw (if error_listener env then failure
               else unhandled env (error_event sid (Some "destroy") failure)) /\
      sessions (snd out) = sessions s /\
      JsMap.get sid (sessions (snd out)) = Some sess
  end.
Proof.
  intros H out.
  destruct (destroySession_present env s sid sess H) as [_ Hrm].
  fold out in Hrm.
  destruct (rejection (exec env (S (ticks s)) (docker_rm (containerId sess))))
    as [e|].
  - destruct Hrm as [Hthrow Hreg]. cbv zeta.
    split; [|split; [exact Hreg|now rewrite Hreg]].
    rewrite Hthrow. unfold heard_or_unhandled, removal_failure.
    now destruct (error_listener env).
  - destruct Hrm as [Hok Hreg]. split; [exact Hok|].
    rewrite Hreg. apply JsMapFacts.get_delete_same.
Qed.

Lemma one_session_destroyed_on_healthy_runtime :
  JsMap.get "s1" (sessions Scenario.one) = Some Scenario.session1 /\
  fst (destroySession "s1" Scenario.healthy Scenario.one) = Ok tt /\
  JsMap.get "s1" (sessions (snd (destroySession "s1" Scenario.healthy Scenario.one)))
    = None.
Proof.
  split; [reflexivity|].
  exact (destroySession_entry_removed_iff_container_removed
           Scenario.healthy Scenario.one "s1" Scenario.session1 eq_refl).
Defined.

(** C1 fails as stated: with a runtime on which [docker rm] fails, the
    session [s1] is registered, [destroySession] throws, and the registry
    entry of [s1] is still there afterwards.  On a manager with no listener
    for ['error'], which is how it is constructed, what is thrown is the
    unhandled ['error'] event; with a listener it is the removal error. *)
Lemma destroySession_keeps_entry_when_rm_fails :
  let unheard := without_error_listener Scenario.rm_c1_fails in
  let out := destroySession "s1" unheard Scenario.one in
  let heard := destroySession "s1" Scenario.rm_c1_fails Scenario.one in
  let failure :=
    new_Error "Failed to remove container: Error: Command failed" in
  JsMap.get "s1" (sessions Scenario.one) = Some Scenario.session1 /\
  fst out = Throw (unhandled unheard (error_event "s1" (Some "destroy") failure)) /\
  JsMap.get "s1" (sessions (snd out)) = Some Scenario.session1 /\
  fst heard = Throw failure /\
  JsMap.get "s1" (sessions (snd heard)) = Some Scenario.session1.
Proof. repeat split. Qed.

(** [createSession] followed at once by [destroySession], on a runtime that
    cannot remove the container: the session stays registered. *)
Example createSession_then_destroySession_rm_fails :
  let created := createSession Scenario.rm_c1_fails Scenario.fresh in
  let destroyed :=
    destroySession "sandbox_2000000_k3j9x0q1z" Scenario.rm_c1_fails (snd created) in
  fst created = Ok "sandbox_2000000_k3j9x0q1z" /\
  option_map containerId
    (JsMap.get "sandbox_2000000_k3j9x0q1z" (sessions (snd created))) = Some "c1" /\
  fst destroyed =
    Throw (new_Error "Failed to remove container: Error: Command failed") /\
  JsMap.keys (sessions (snd destroyed)) = ["sandbox_2000000_k3j9x0q1z"].
Proof. repeat split. Qed.

(** The same on a runtime that accepts every call: the registry is empty
    again. *)
Example createSession_then_destroySession_healthy :
  let created := createSession Scenario.healthy Scenario.fresh in
  let destroyed :=
    destroySession "sandbox_2000000_k3j9x0q1z" Scenario.healthy (snd created) in
  fst created = Ok "sandbox_2000000_k3j9x0q1z" /\
  fst destroyed = Ok tt /\
  sessions (snd destroyed) = [].
Proof. repeat split. Qed.

(** C6 (as amended).  [destroySession] stops and then removes the
    container, and both calls are made while the registry is exactly the
    one it found: the session is still registered with its [isActive] flag
    untouched.  The flag is cleared only after both calls have returned, in
    the step that deletes the entry, so afterwards the entry is either
    unchanged or gone. *)
Theorem destroySession_tears_down_before_deactivating
    (env : Env) (s : State) (sid : string) (sess : SandboxSession) :
  JsMap.get sid (sessions s) = Some sess ->
  let out := destroySession sid env s in
  issued s (snd out) =
    [(docker_stop (containerId sess), sessions s);
     (docker_rm (containerId sess), sessions s)] /\
  (forall c reg, In (c, reg) (issued s (snd out)) -> JsMap.get sid reg = Some sess) /\
  (JsMap.get sid (sessions (snd out)) = Some sess \/
   JsMap.get sid (sessions (snd out)) = None).
Proof.
  intros H out.
  destruct (destroySession_present env s sid sess H) as [Hcalls Hrm].
  fold out in Hcalls, Hrm.
  apply issued_app in Hcalls. rewrite Hcalls.
  split; [reflexivity|]. split.
  - intros c reg [[= <- <-]|[[= <- <-]|[]]]; exact H.
  - destruct (rejection (exec env (S (ticks s)) (docker_rm (containerId sess))));
      destruct Hrm as [_ Hreg]; rewrite Hreg.
    + now left.
    + right. apply JsMapFacts.get_delete_same.
Qed.

Lemma one_session_teardown_order :
  let out := destroySession "s1" Scenario.healthy Scenario.one in
  JsMap.get "s1" (sessions Scenario.one) = Some Scenario.session1 /\
  issued Scenario.one (snd out) =
    [(docker_stop "c1", [("s1", Scenario.session1)]);
     (docker_rm "c1", [("s1", Scenario.session1)])] /\
  (forall c reg, In (c, reg) (issued Scenario.one (snd out)) ->
     JsMap.get "s1" reg = Some Scenario.session1) /\
  (JsMap.get "s1" (sessions (snd out)) = Some Scenario.session1 \/
   JsMap.get "s1" (sessions (snd out)) = None).
Proof.
  split; [reflexivity|].
  exact (destroySession_tears_down_before_deactivating
           Scenario.healthy Scenario.one "s1" Scenario.session1 eq_refl).
Defined.

(** C6 fails as stated: the first thing [destroySession] does is to call
    [docker stop], and at that point the registry still holds [s1] with
    [isActive = true], so an operation arriving then passes validation. *)
Lemma destroySession_stops_container_while_session_active :
  let out := destroySession "s1" Scenario.healthy Scenario.one in
  exists reg,
    nth_error (issued Scenario.one (snd out)) 0 = Some (docker_stop "c1", reg) /\
    option_map isActive (JsMap.get "s1" reg) = Some true /\
    fst (validateSession "s1" Scenario.healthy (with_sessions reg Scenario.one))
      = Ok Scenario.session1.
Proof. exists [("s1", Scenario.session1)]. repeat split. Qed.

(** ** validateSession *)

Lemma validateSession_run (env : Env) (s : State) (sid : string) :
  validateSession sid env s =
    match JsMap.get sid (sessions s) with
    | None => (Throw (new_Error ("Session not found: " ++ sid)), s)
    | Some sess =>
        if isActive sess then (Ok sess, s)
        else (Throw (new_Error ("Session is not active: " ++ sid)), s)
    end.
Proof.
  unfold validateSession. run.
  destruct (JsMap.get sid (sessions s)) as [sess|]; [|reflexivity].
  now destruct (isActive sess).
Qed.

(** ** executeCommand *)

(** The result of [executeCommand] on an active session, by what the
    runtime does with the command: the clock is read at [ticks s] (the
    activity stamp) and [ticks s + 1] (the start), the command is handed
    over at [ticks s + 2], and the clock is read again at [ticks s + 3]. *)
Lemma executeCommand_active (env : Env) (s : State) (sid command : string)
    (options : ExecOptions) (sess : SandboxSession) :
  JsMap.get sid (sessions s) = Some sess ->
  isActive sess = true ->
  let c := docker_exec (containerId sess) command in
  let n := S (S (ticks s)) in
  let elapsed := Date_now env (S n) - Date_now env (S (ticks s)) in
  fst (executeCommand sid command options env s) =
    Ok (command_result elapsed (timer_first env n c (timeoutMs sess)) (exec env n c)).
Proof.
  intros H Hact c n elapsed.
  unfold executeCommand. unfold bind at 1. rewrite validateSession_run, H, Hact.
  unfold executeInContainer, command_result. run. rewrite H. run.
  fold c n.
  destruct (exec env n c) as [out err|e out err|reason];
    [destruct (timer_first env n c (timeoutMs sess))
    |destruct (timer_first env n c (timeoutMs sess))|]; run; try reflexivity.
  unfold or_string at 1. cbn [e_stdout e_stderr message code].
  destruct (String.eqb_spec out ""); subst; reflexivity.
Qed.

(** Whoever wins, the timer or the command, the only call made is the
    [docker exec] itself: nothing is sent to the container to end a command
    that outlived the timer. *)
Lemma executeCommand_issues_one_call (env : Env) (s : State) (sid command : string)
    (options : ExecOptions) (sess : SandboxSession) :
  JsMap.get sid (sessions s) = Some sess ->
  isActive sess = true ->
  exists reg,
    issued s (snd (executeCommand sid command options env s)) =
      [(docker_exec (containerId sess) command, reg)].
Proof.
  intros H Hact.
  unfold executeCommand. unfold bind at 1. rewrite validateSession_run, H, Hact.
  unfold executeInContainer. run. rewrite H. run.
  eexists.
  destruct (exec env _ _); [destruct (timer_first env _ _ _)
                           |destruct (timer_first env _ _ _)|]; run;
    apply issued_app; reflexivity.
Qed.

(** Whenever the timer wins on an active session, on a command that
    [exec] took, the result says [timedOut = false]. *)
Lemma executeCommand_timer_expiry (env : Env) (s : State) (sid command : string)
    (options : ExecOptions) (sess : SandboxSession) :
  JsMap.get sid (sessions s) = Some sess ->
  isActive sess = true ->
  timer_first env (S (S (ticks s))) (docker_exec (containerId sess) command)
    (timeoutMs sess) = true ->
  (forall reason,
     exec env (S (S (ticks s))) (docker_exec (containerId sess) command)
       <> Refused reason) ->
  exists elapsed,
    fst (executeCommand sid command options env s) =
      Ok {| exitCode := VNum 1; stdout := "";
            stderr := "Execution timeout exceeded";
            durationMs := elapsed; timedOut := false |}.
Proof.
  intros H Hact Htimer Htaken.
  rewrite (executeCommand_active env s sid command options sess H Hact), Htimer.
  unfold command_result.
  destruct (exec env _ _) as [| |reason]; [| |now destruct (Htaken reason)];
    eexists; reflexivity.
Qed.

(** C2 (what the code does when its timer fires).  The session [s1] has a
    timeout of 300000 ms and the command is still running when the timer
    fires.
    [executeCommand] returns a result with [timedOut = false], exit code 1
    and an empty [stdout]; the only call made to the runtime is the
    [docker exec] of the command, so nothing ends the command inside the
    container. *)
Theorem executeCommand_timer_expiry_reports_timedOut_false :
  let out := executeCommand "s1" "sleep 600" Scenario.no_options
               Scenario.slow Scenario.one in
  fst out =
    Ok {| exitCode := VNum 1; stdout := "";
          stderr := "Execution timeout exceeded";
          durationMs := 600000; timedOut := false |} /\
  map fst (issued Scenario.one (snd out)) = [docker_exec "c1" "sleep 600"].
Proof. split; reflexivity. Qed.

(** C4.  [executeCommand] throws only what validation throws: on an
    identifier that is not registered, and on a session that is not active.
    On an active session it makes one call to the runtime and always
    returns a result, which is determined by what became of the command:
    exit code 0 with the output of the command when the command ran to its
    end before the timer; the timeout result, with exit code 1, when the
    timer fired first; when the runtime reported a failure first, a result
    whose exit code is the error's code, or 1 when it has none, with the
    captured output, the captured [stderr] or else a failure message, and
    [timedOut] as the error tells; and when [exec] refused the command
    line, a result with the code of that error and its message. *)
Theorem executeCommand_throws_only_validation_errors
    (env : Env) (s : State) (sid command : string) (options : ExecOptions) :
  let out := executeCommand sid command options env s in
  match JsMap.get sid (sessions s) with
  | None => fst out = Throw (new_Error ("Session not found: " ++ sid))
  | Some sess =>
      if isActive sess
      then
        let c := docker_exec (containerId sess) command in
        let n := S (S (ticks s)) in
        let elapsed := Date_now env (S n) - Date_now env (S (ticks s)) in
        let expired :=
          {| exitCode := VNum 1; stdout := "";
             stderr := "Execution timeout exceeded";
             durationMs := elapsed; timedOut := false |} in
        issued_calls s (snd out) = [c] /\
        fst out =
          Ok match exec env n c with
             | Resolved o e =>
                 if timer_first env n c (timeoutMs sess) then expired
                 else {| exitCode := VNum 0; stdout := o; stderr := e;
                         durationMs := elapsed; timedOut := false |}
             | Rejected error o e =>
                 if timer_first env n c (timeoutMs sess) then expired
                 else {| exitCode := js_or (code error) (VNum 1);
                         stdout := o;
                         stderr := or_string (Some e) "Unknown error";
                         durationMs := elapsed;
                         timedOut := is_timeout error |}
             | Refused reason =>
                 {| exitCode := VStr "ERR_INVALID_ARG_VALUE"; stdout := "";
                    stderr := or_string (Some reason) "Unknown error";
                    durationMs := elapsed; timedOut := false |}
             end
      else fst out = Throw (new_Error ("Session is not active: " ++ sid))
  end.
Proof.
  intros out.
  destruct (JsMap.get sid (sessions s)) as [sess|] eqn:H.
  - destruct (isActive sess) eqn:Hact.
    + subst out. cbv zeta. split.
      * destruct (executeCommand_issues_one_call env s sid command options sess
                    H Hact) as [reg Hreg].
        unfold issued_calls. now rewrite Hreg.
      * rewrite (executeCommand_active env s sid command options sess H Hact).
        reflexivity.
    + subst out. unfold executeCommand. unfold bind at 1.
      now rewrite validateSession_run, H, Hact.
  - subst out. unfold executeCommand. unfold bind at 1.
    now rewrite validateSession_run, H.
Qed.

(** ** fileOperation *)

(** On an active session [fileOperation] stamps the activity and runs the
    [switch] under its handler. *)
Lemma fileOperation_active (env : Env) (s : State) (sid : string)
    (op : FileOperation) (sess : SandboxSession) :
  JsMap.get sid (sessions s) = Some sess ->
  isActive sess = true ->
  exists s1,
    calls s1 = calls s /\ ticks s1 = S (ticks s) /\
    sessions s1 =
      JsMap.set sid (set_lastActivityAt (Date_now env (ticks s)) sess) (sessions s) /\
    fileOperation sid op env s =
      (try (match type op with
            | read =>
                text <- readFileInContainer (containerId sess) ("/sandbox" ++ path op) ;;
                ret (FContent text)
            | write =>
                match content op with
                | Some text =>
                    if negb (truthy (VStr text))
                    then throw (new_Error "Content required for write operation")
                    else
                      writeFileInContainer (containerId sess)
                        ("/sandbox" ++ path op) text ;;
                      ret FNull
                | None => throw (new_Error "Content required for write operation")
                end
            | delete =>
                deleteFileInContainer (containerId sess) ("/sandbox" ++ path op)
                  (recursive op) ;;
                ret FNull
            | list_files =>
                l <- listFilesInContainer (containerId sess) ("/sandbox" ++ path op) ;;
                ret (FList l)
            end)
       catch (fun error =>
            emit (file_operation_error sid op error) ;;
            throw error)) env s1.
Proof.
  intros H Hact. eexists. split; [|split; [|split]]; cycle 3.
  - unfold fileOperation. unfold bind at 1. rewrite validateSession_run, H, Hact.
    unfold bind at 1. unfold now at 1. unfold bind at 1. unfold assign at 1.
    cbn [sessions tick]. rewrite H. reflexivity.
  - reflexivity.
  - reflexivity.
  - reflexivity.
Qed.

Lemma append_assoc (a b c : string) : ((a ++ b) ++ c = a ++ b ++ c)%string.
Proof. induction a as [|x a IH]; cbn; [reflexivity|now rewrite IH]. Qed.

Lemma append_nil_r (a : string) : (a ++ "" = a)%string.
Proof. induction a as [|x a IH]; cbn; [reflexivity|now rewrite IH]. Qed.

(** C3 (as amended).  [fileOperation] never inspects the path.  On an
    active session, a write without content makes no call to the runtime
    and throws the missing-content error.  Every other operation hands
    exactly one command line to the runtime, in which [/sandbox] followed
    by the path as given stands between double quotes, character for
    character, whatever segments or characters the path has.  It fails
    only if the runtime rejects that call, with the runtime's own error
    (and a rejected listing is an empty listing). *)
Theorem fileOperation_passes_path_unchecked
    (env : Env) (s : State) (sid : string) (op : FileOperation)
    (sess : SandboxSession) :
  JsMap.get sid (sessions s) = Some sess ->
  isActive sess = true ->
  let out := fileOperation sid op env s in
  let target := "/sandbox" ++ path op in
  if lacks_content op
  then
    issued s (snd out) = [] /\
    fst out = Throw (new_Error "Content required for write operation")
  else
    exists c reg,
      issued s (snd out) = [(c, reg)] /\
      file_of c = Some target /\
      (exists before after,
         command_line c = before ++ dquote ++ target ++ dquote ++ after) /\
      match rejection (exec env (S (ticks s)) c) with
      | None => exists r, fst out = Ok r
      | Some e =>
          if match type op with list_files => true | _ => false end
          then fst out = Ok (FList [])
          else fst out = Throw e
      end.
Proof.
  intros H Hact out target.
  destruct (fileOperation_active env s sid op sess H Hact)
    as (s1 & Hc & Ht & _ & Hrun).
  subst out. rewrite Hrun. clear Hrun.
  unfold lacks_content.
  destruct (type op) eqn:Hty.
  - exists (docker_exec_cat (containerId sess) target), (sessions s1).
    unfold readFileInContainer. run. rewrite Ht.
    split; [|split; [reflexivity|split]].
    + destruct (exec env (S (ticks s)) _); run;
        apply issued_app; cbn; now rewrite Hc.
    + exists ("docker exec " ++ containerId sess ++ " cat "), "".
      cbn [command_line]. now rewrite !append_assoc, append_nil_r.
    + destruct (exec env (S (ticks s)) _); run;
        first [reflexivity | eexists; reflexivity].
  - destruct (content op) as [text|]; cbn [truthy].
    + destruct (String.eqb_spec text ""); cbn [negb].
      * run. split; [|reflexivity].
        apply issued_app. cbn. now rewrite Hc, app_nil_r.
      * exists (docker_exec_write (containerId sess) target text), (sessions s1).
        unfold writeFileInContainer. run. rewrite Ht.
        split; [|split; [reflexivity|split]].
        -- destruct (exec env (S (ticks s)) _); run;
             apply issued_app; cbn; now rewrite Hc.
        -- exists ("docker exec " ++ containerId sess ++ " bash -c 'cat > "),
             (" << 'EOF'" ++
              String newline (escape_quotes text ++ String newline "EOF'")).
           cbn [command_line bash_c_word]. now rewrite !append_assoc.
        -- destruct (exec env (S (ticks s)) _); run;
             first [reflexivity | eexists; reflexivity].
    + run. split; [|reflexivity].
      apply issued_app. cbn. now rewrite Hc, app_nil_r.
  - exists (docker_exec_rm (containerId sess)
              match recursive op with Some true => "-rf" | _ => "-f" end
              target), (sessions s1).
    unfold deleteFileInContainer. run. rewrite Ht.
    split; [|split; [reflexivity|split]].
    + destruct (exec env (S (ticks s)) _); run;
        apply issued_app; cbn; now rewrite Hc.
    + exists ("docker exec " ++ containerId sess ++ " rm " ++
              match recursive op with Some true => "-rf" | _ => "-f" end ++ " "), "".
      cbn [command_line]. now rewrite !append_assoc, append_nil_r.
    + destruct (exec env (S (ticks s)) _); run;
        first [reflexivity | eexists; reflexivity].
  - exists (docker_exec_find (containerId sess) target), (sessions s1).
    unfold listFilesInContainer. run. rewrite Ht.
    split; [|split; [reflexivity|split]].
    + destruct (exec env (S (ticks s)) _); run;
        apply issued_app; cbn; now rewrite Hc.
    + exists ("docker exec " ++ containerId sess ++ " find "), " -type f".
      cbn [command_line]. now rewrite !append_assoc.
    + destruct (exec env (S (ticks s)) _); run;
        first [reflexivity | eexists; reflexivity].
Qed.

Lemma read_passwd_reaches_runtime :
  let out := fileOperation "s1" Scenario.read_passwd Scenario.healthy Scenario.one in
  JsMap.get "s1" (sessions Scenario.one) = Some Scenario.session1 /\
  isActive Scenario.session1 = true /\
  exists c reg,
    issued Scenario.one (snd out) = [(c, reg)] /\
    file_of c = Some "/sandbox/../../etc/passwd" /\
    (exists before after,
       command_line c =
         before ++ dquote ++ "/sandbox/../../etc/passwd" ++ dquote ++ after) /\
    exists r, fst out = Ok r.
Proof.
  split; [reflexivity|]. split; [reflexivity|].
  exact (fileOperation_passes_path_unchecked Scenario.healthy Scenario.one "s1"
           Scenario.read_passwd Scenario.session1 eq_refl eq_refl).
Defined.

(** A path that holds a double quote closes the quotes around it: the
    command line of this delete names two files. *)
Example fileOperation_path_closes_its_quotes :
  let op := {| type := delete; path := "/a" ++ dquote ++ " " ++ dquote ++ "/tmp/b";
               content := None; recursive := None |} in
  let out := fileOperation "s1" op Scenario.healthy Scenario.one in
  map command_line (issued_calls Scenario.one (snd out)) =
    ["docker exec c1 rm -f " ++ dquote ++ "/sandbox/a" ++ dquote ++ " " ++
     dquote ++ "/tmp/b" ++ dquote].
Proof. reflexivity. Qed.

(** C3 fails as stated: the path [/../../etc/passwd] leads out of the
    sandbox root, and yet [fileOperation] hands the read to the runtime
    and returns what the runtime read. *)
Lemma fileOperation_reads_outside_sandbox_root :
  let out := fileOperation "s1" Scenario.read_passwd Scenario.with_passwd
               Scenario.one in
  spec_resolves_outside_root ("/sandbox" ++ path Scenario.read_passwd) = true /\
  fst out = Ok (FContent "root:x:0:0:root:/root:/bin/bash") /\
  map fst (issued Scenario.one (snd out)) =
    [docker_exec_cat "c1" "/sandbox/../../etc/passwd"].
Proof. repeat split. Qed.

(** C10 (as amended).  On an active session, a write whose content is the
    empty string throws the missing-content error, the same outcome as the
    write without a content property, and makes no call to the runtime.
    And whatever the content, a write call that reaches the runtime
    carries a non-empty content. *)
Theorem fileOperation_write_empty_content_is_missing_content
    (env : Env) (s : State) (sid : string) (op : FileOperation)
    (sess : SandboxSession) :
  JsMap.get sid (sessions s) = Some sess ->
  isActive sess = true ->
  type op = write ->
  let out := fileOperation sid op env s in
  let absent := fileOperation sid (without_content op) env s in
  (content op = Some "" ->
     fst out = Throw (new_Error "Content required for write operation") /\
     fst out = fst absent /\
     sessions (snd out) = sessions (snd absent) /\
     issued s (snd out) = [] /\
     issued s (snd absent) = []) /\
  (forall cid file text reg,
     In (docker_exec_write cid file text, reg) (issued s (snd out)) -> text <> "").
Proof.
  intros H Hact Hty out absent.
  destruct (fileOperation_active env s sid op sess H Hact)
    as (s1 & Hc & Ht & Hs & Hrun).
  destruct (fileOperation_active env s sid (without_content op) sess H Hact)
    as (s2 & Hc2 & Ht2 & Hs2 & Hrun2).
  subst out absent. rewrite Hrun, Hrun2. clear Hrun Hrun2.
  cbn [without_content type content]. rewrite Hty. split.
  - intros ->. cbn. split; [reflexivity|]. split; [reflexivity|].
    split; [now rewrite Hs, Hs2|].
    split; apply issued_app; cbn; rewrite ?Hc, ?Hc2; now rewrite app_nil_r.
  - intros cid file text reg.
    destruct (content op) as [t|]; run.
    + cbn [truthy]. destruct (String.eqb_spec t "") as [->|Hne]; cbn [negb]; run.
      * rewrite (issued_app s _ []) by now rewrite Hc, app_nil_r. intros [].
      * unfold writeFileInContainer. run.
        destruct (exec env (ticks s1) _); run;
          (rewrite (issued_app s _ [_]) by (cbn; now rewrite Hc));
          intros [[= _ _ <- _]|[]]; exact Hne.
    + rewrite (issued_app s _ []) by now rewrite Hc, app_nil_r. intros [].
Qed.

Lemma write_nothing_rejected :
  let out := fileOperation "s1" Scenario.write_nothing Scenario.healthy
               Scenario.one in
  let absent := fileOperation "s1" (without_content Scenario.write_nothing)
                  Scenario.healthy Scenario.one in
  JsMap.get "s1" (sessions Scenario.one) = Some Scenario.session1 /\
  isActive Scenario.session1 = true /\
  type Scenario.write_nothing = write /\
  (content Scenario.write_nothing = Some "" ->
     fst out = Throw (new_Error "Content required for write operation") /\
     fst out = fst absent /\
     sessions (snd out) = sessions (snd absent) /\
     issued Scenario.one (snd out) = [] /\
     issued Scenario.one (snd absent) = []) /\
  (forall cid file text reg,
     In (docker_exec_write cid file text, reg) (issued Scenario.one (snd out)) ->
     text <> "").
Proof.
  split; [reflexivity|]. split; [reflexivity|]. split; [reflexivity|].
  exact (fileOperation_write_empty_content_is_missing_content Scenario.healthy
           Scenario.one "s1" Scenario.write_nothing Scenario.session1
           eq_refl eq_refl eq_refl).
Defined.

(** C10 fails as stated: the content [EOF] is not empty, so the write
    reaches the runtime; the quotes around the delimiter of the
    here-document close and open the quoted word of the command line, so
    [bash] receives the delimiter unquoted, the first line [EOF] ends the
    here-document at once, and [cat] writes an empty file. *)
Lemma fileOperation_write_EOF_leaves_an_empty_file :
  let out := fileOperation "s1" Cases.write_EOF Cases.eof_not_found Scenario.one in
  let c := docker_exec_write "c1" "/sandbox/empty.txt" "EOF" in
  content Cases.write_EOF = Some "EOF" /\
  issued_calls Scenario.one (snd out) = [c] /\
  command_line c =
    "docker exec c1 bash -c 'cat > " ++ dquote ++ "/sandbox/empty.txt" ++ dquote ++
    " << 'EOF'" ++ String newline ("EOF" ++ String newline "EOF'") /\
  split_lines (bash_script c) =
    ["cat > " ++ dquote ++ "/sandbox/empty.txt" ++ dquote ++ " << EOF";
     "EOF"; "EOF"] /\
  here_document (bash_script c) = "".
Proof. repeat split. Qed.

(** A write of one ordinary line: the escaped quote is a quote again in
    the script, and the here-document is the line with its newline. *)
Example fileOperation_write_one_line :
  let c := docker_exec_write "c1" "/sandbox/a.txt" "it's" in
  split_lines (bash_script c) =
    ["cat > " ++ dquote ++ "/sandbox/a.txt" ++ dquote ++ " << EOF"; "it's"; "EOF"] /\
  here_document (bash_script c) = String.append "it's" (String newline "").
Proof. repeat split. Qed.

(** ** updateSessionLimits *)

(** The three conditional assignments, taken together. *)
Lemma with_limits_assignments (limits : Limits) (x : SandboxSession) :
  with_limits limits x =
    (let x1 := match new_memoryLimit limits with
               | Some m => if truthy (VStr m) then set_memoryLimit m x else x
               | None => x
               end in
     let x2 := match new_cpuLimit limits with
               | Some c => if truthy (VStr c) then set_cpuLimit c x1 else x1
               | None => x1
               end in
     match new_timeoutMs limits with
     | Some t => if truthy (VNum t) then set_timeoutMs t x2 else x2
     | None => x2
     end).
Proof.
  destruct x, limits as [[m|] [c|] [t|]]; unfold with_limits, or_number, or_string;
    cbn [new_memoryLimit new_cpuLimit new_timeoutMs truthy];
    try destruct (String.eqb m ""); try destruct (String.eqb c "");
    try destruct (Z.eqb t 0); reflexivity.
Qed.

Lemma assign_run (env : Env) (s : State) (sid : string)
    (f : SandboxSession -> SandboxSession) (x : SandboxSession) :
  JsMap.get sid (sessions s) = Some x ->
  assign sid f env s = (Ok tt, with_sessions (JsMap.set sid (f x) (sessions s)) s).
Proof. intros H. unfold assign. now rewrite H. Qed.

(** The three conditional assignments leave the registry with
    [with_limits limits sess] under [sid], and go on. *)
Lemma updateSessionLimits_assignments (env : Env) (s : State) (sid : string)
    (limits : Limits) (sess : SandboxSession) (rest : M unit) :
  JsMap.get sid (sessions s) = Some sess ->
  (match new_memoryLimit limits with
   | Some m => if truthy (VStr m) then assign sid (set_memoryLimit m) else ret tt
   | None => ret tt
   end ;;
   match new_cpuLimit limits with
   | Some c => if truthy (VStr c) then assign sid (set_cpuLimit c) else ret tt
   | None => ret tt
   end ;;
   match new_timeoutMs limits with
   | Some t => if truthy (VNum t) then assign sid (set_timeoutMs t) else ret tt
   | None => ret tt
   end ;;
   rest) env s =
  rest env (with_sessions (JsMap.set sid (with_limits limits sess) (sessions s)) s).
Proof.
  intros H. rewrite with_limits_assignments.
  assert (Hid : forall x, JsMap.get sid (sessions s) = Some x ->
            with_sessions (JsMap.set sid x (sessions s)) s = s).
  { intros x Hx. rewrite (JsMapFacts.set_get_same _ _ _ Hx). now destruct s. }
  assert (Hstep : forall (s0 : State) x f (k : M unit),
            JsMap.get sid (sessions s0) = Some x ->
            (assign sid f ;; k) env s0 =
              k env (with_sessions (JsMap.set sid (f x) (sessions s0)) s0)).
  { intros s0 x f k Hx. unfold bind. now rewrite (assign_run env s0 sid f x Hx). }
  assert (Hskip : forall (s0 : State) (k : M unit), (ret tt ;; k) env s0 = k env s0)
    by reflexivity.
  assert (Hget : forall (x : SandboxSession) reg,
            JsMap.get sid (JsMap.set sid x reg) = Some x)
    by (intros; apply JsMapFacts.get_set_same).
  destruct (new_memoryLimit limits) as [m|], (new_cpuLimit limits) as [c|],
    (new_timeoutMs limits) as [t|];
    cbv zeta;
    repeat match goal with
           | |- context [truthy ?v] => destruct (truthy v)
           end;
    repeat first
      [ rewrite Hskip
      | erewrite Hstep by (first [exact H | cbn [sessions with_sessions]; apply Hget]) ];
    cbn [sessions with_sessions];
    rewrite ?JsMapFacts.set_set_same;
    try reflexivity;
    now rewrite (Hid _ H).
Qed.

Lemma updateSessionLimits_run (env : Env) (s : State) (sid : string)
    (limits : Limits) (sess : SandboxSession) :
  JsMap.get sid (sessions s) = Some sess ->
  isActive sess = true ->
  updateSessionLimits sid limits env s =
    (match new_memoryLimit limits with
     | Some m =>
         if truthy (VStr m)
         then
           try (execAsync (docker_update_memory m (containerId sess)) ;; ret tt)
           catch (fun error =>
             throw (new_Error ("Failed to update memory limit: " ++ toString error)))
         else ret tt
     | None => ret tt
     end ;;
     emit (session_limits_updated sid limits)) env
      (with_sessions (JsMap.set sid (with_limits limits sess) (sessions s)) s).
Proof.
  intros H Hact.
  unfold updateSessionLimits. unfold bind at 1. rewrite validateSession_run, H, Hact.
  apply (updateSessionLimits_assignments env s sid limits sess _ H).
Qed.

(** The run of [updateSessionLimits] on an active session: the registry is
    updated first, then the runtime is asked (at [ticks s]) when there is a
    new memory limit. *)
Lemma updateSessionLimits_active (env : Env) (s : State) (sid : string)
    (limits : Limits) (sess : SandboxSession) :
  JsMap.get sid (sessions s) = Some sess ->
  isActive sess = true ->
  let out := updateSessionLimits sid limits env s in
  sessions (snd out) = JsMap.set sid (with_limits limits sess) (sessions s) /\
  match new_memoryLimit limits with
  | Some m =>
      if truthy (VStr m)
      then
        match
          rejection (exec env (ticks s) (docker_update_memory m (containerId sess)))
        with
        | None =>
            fst out = Ok tt /\
            published s (snd out) = [session_limits_updated sid limits]
        | Some e =>
            fst out =
              Throw (new_Error ("Failed to update memory limit: " ++ toString e)) /\
            published s (snd out) = []
        end
      else fst out = Ok tt /\
           published s (snd out) = [session_limits_updated sid limits]
  | None => fst out = Ok tt /\
            published s (snd out) = [session_limits_updated sid limits]
  end.
Proof.
  intros H Hact out. subst out.
  rewrite (updateSessionLimits_run env s sid limits sess H Hact).
  destruct (new_memoryLimit limits) as [m|]; [destruct (truthy (VStr m))|]; run;
    try (split; [reflexivity|split; [reflexivity|apply published_app; reflexivity]]).
  destruct (exec env (ticks s) (docker_update_memory m (containerId sess))); run;
    (split; [reflexivity|split; [reflexivity|apply published_app; cbn]]);
    [reflexivity|now rewrite app_nil_r|now rewrite app_nil_r].
Qed.

(** C5 (as amended).  When [updateSessionLimits] is given a new memory
    limit and the runtime rejects [docker update], the call throws the
    limit-update error, and the session in the registry keeps the limits
    that the call assigned before asking the runtime: nothing is rolled
    back, and no [session:limits-updated] event is published. *)
Theorem updateSessionLimits_failure_keeps_new_limits
    (env : Env) (s : State) (sid : string) (limits : Limits)
    (sess : SandboxSession) (m : string) (e : JsError) (o err : string) :
  JsMap.get sid (sessions s) = Some sess ->
  isActive sess = true ->
  new_memoryLimit limits = Some m ->
  m <> "" ->
  exec env (ticks s) (docker_update_memory m (containerId sess)) = Rejected e o err ->
  let out := updateSessionLimits sid limits env s in
  fst out = Throw (new_Error ("Failed to update memory limit: " ++ toString e)) /\
  JsMap.get sid (sessions (snd out)) = Some (with_limits limits sess) /\
  memoryLimit (with_limits limits sess) = m /\
  published s (snd out) = [].
Proof.
  intros H Hact Hm Hne Hexec out.
  destruct (updateSessionLimits_active env s sid limits sess H Hact) as [Hreg Hres].
  fold out in Hreg, Hres. rewrite Hm in Hres. cbn [truthy] in Hres.
  destruct (String.eqb_spec m ""); [contradiction|]. cbn [negb] in Hres.
  rewrite Hexec in Hres. cbn [rejection] in Hres.
  rewrite toString_promisified in Hres. destruct Hres as [Hthrow Hpub].
  repeat split; [exact Hthrow| |  |exact Hpub].
  - rewrite Hreg. apply JsMapFacts.get_set_same.
  - unfold with_limits, or_string. cbn [memoryLimit]. rewrite Hm.
    destruct (String.eqb_spec m ""); [contradiction|reflexivity].
Qed.

Lemma lower_everything_kept_when_unreachable :
  let out := updateSessionLimits "s1" Scenario.lower_everything
               Scenario.unreachable Scenario.one in
  JsMap.get "s1" (sessions Scenario.one) = Some Scenario.session1 /\
  isActive Scenario.session1 = true /\
  new_memoryLimit Scenario.lower_everything = Some "256m" /\
  "256m" <> "" /\
  exec Scenario.unreachable 0 (docker_update_memory "256m" "c1") =
    Rejected Scenario.failure "" "Cannot connect to the Docker daemon" /\
  fst out = Throw (new_Error "Failed to update memory limit: Error: Command failed") /\
  JsMap.get "s1" (sessions (snd out)) =
    Some (with_limits Scenario.lower_everything Scenario.session1) /\
  memoryLimit (with_limits Scenario.lower_everything Scenario.session1) = "256m" /\
  published Scenario.one (snd out) = [].
Proof.
  assert (Hne : "256m" <> "") by discriminate.
  split; [reflexivity|]. split; [reflexivity|]. split; [reflexivity|].
  split; [exact Hne|]. split; [reflexivity|].
  exact (updateSessionLimits_failure_keeps_new_limits Scenario.unreachable
           Scenario.one "s1" Scenario.lower_everything Scenario.session1
           "256m" Scenario.failure "" "Cannot connect to the Docker daemon"
           eq_refl eq_refl eq_refl Hne eq_refl).
Defined.

(** C5 fails as stated: the runtime rejects the new memory limit, the call
    throws, and the session is left with the new memory limit, CPU limit
    and timeout instead of the ones it had. *)
Lemma updateSessionLimits_does_not_roll_back :
  let out := updateSessionLimits "s1" Scenario.lower_everything
               Scenario.unreachable Scenario.one in
  JsMap.get "s1" (sessions Scenario.one) = Some Scenario.session1 /\
  fst out = Throw (new_Error "Failed to update memory limit: Error: Command failed") /\
  exists after,
    JsMap.get "s1" (sessions (snd out)) = Some after /\
    (memoryLimit Scenario.session1, memoryLimit after) = ("512m", "256m") /\
    (cpuLimit Scenario.session1, cpuLimit after) = ("1", "2") /\
    (timeoutMs Scenario.session1, timeoutMs after) = (300000, 1000).
Proof.
  split; [reflexivity|]. split; [reflexivity|].
  eexists. split; [reflexivity|]. repeat split.
Qed.

(** C8 (as amended).  On an active session, [updateSessionLimits] assigns
    exactly the limits that are given with a truthy value: a memory or CPU
    limit that is a non-empty string, a timeout that is not [0].  A limit
    that is absent, empty or [0] stays as it was, and so does every other
    field of the session and every other session; this is so whether or
    not the runtime then accepts the new memory limit. *)
Theorem updateSessionLimits_assigns_truthy_fields_only
    (env : Env) (s : State) (sid : string) (limits : Limits)
    (sess : SandboxSession) :
  JsMap.get sid (sessions s) = Some sess ->
  isActive sess = true ->
  let out := updateSessionLimits sid limits env s in
  JsMap.get sid (sessions (snd out)) =
    Some {| sessionId := sessionId sess; containerId := containerId sess;
            createdAt := createdAt sess; lastActivityAt := lastActivityAt sess;
            memoryLimit :=
              match new_memoryLimit limits with
              | Some m => if (m =? "")%string then memoryLimit sess else m
              | None => memoryLimit sess
              end;
            cpuLimit :=
              match new_cpuLimit limits with
              | Some c => if (c =? "")%string then cpuLimit sess else c
              | None => cpuLimit sess
              end;
            diskLimit := diskLimit sess;
            timeoutMs :=
              match new_timeoutMs limits with
              | Some t => if t =? 0 then timeoutMs sess else t
              | None => timeoutMs sess
              end;
            isActive := isActive sess |} /\
  (forall other, sid <> other ->
     JsMap.get other (sessions (snd out)) = JsMap.get other (sessions s)).
Proof.
  intros H Hact out.
  destruct (updateSessionLimits_active env s sid limits sess H Hact) as [Hreg _].
  fold out in Hreg. rewrite Hreg. split.
  - apply JsMapFacts.get_set_same.
  - intros other Hne. now apply JsMapFacts.get_set_other.
Qed.

Lemma lower_everything_assigned :
  let out := updateSessionLimits "s1" Scenario.lower_everything
               Scenario.healthy Scenario.three in
  JsMap.get "s1" (sessions Scenario.three) = Some Scenario.session1 /\
  isActive Scenario.session1 = true /\
  JsMap.get "s1" (sessions (snd out)) =
    Some {| sessionId := "s1"; containerId := "c1"; createdAt := 0;
            lastActivityAt := 0; memoryLimit := "256m"; cpuLimit := "2";
            diskLimit := "1gb"; timeoutMs := 1000; isActive := true |} /\
  (forall other, "s1" <> other ->
     JsMap.get other (sessions (snd out)) = JsMap.get other (sessions Scenario.three)).
Proof.
  split; [reflexivity|]. split; [reflexivity|].
  exact (updateSessionLimits_assigns_truthy_fields_only Scenario.healthy
           Scenario.three "s1" Scenario.lower_everything Scenario.session1
           eq_refl eq_refl).
Defined.

(** C8 fails as stated: a call that provides only [timeoutMs: 0] succeeds
    and leaves the timeout of the session at 300000. *)
Lemma updateSessionLimits_ignores_timeout_zero :
  let out := updateSessionLimits "s1" Scenario.timeout_zero
               Scenario.healthy Scenario.one in
  new_timeoutMs Scenario.timeout_zero = Some 0 /\
  fst out = Ok tt /\
  option_map timeoutMs (JsMap.get "s1" (sessions (snd out))) = Some 300000.
Proof. repeat split. Qed.

(** ** getSessionHealth *)

Lemma getSessionHealth_run (env : Env) (s : State) (sid : string)
    (sess : SandboxSession) :
  JsMap.get sid (sessions s) = Some sess ->
  isActive sess = true ->
  fst (getSessionHealth sid env s) =
    Ok match exec env (ticks s) (docker_stats (containerId sess)) with
       | Resolved out _ =>
           match JSON_parse env out with
           | Ok (JObject MemUsage CPUPercentage State) =>
               Healthy sid (isActive sess) (createdAt sess) (lastActivityAt sess)
                 (js_or MemUsage (VStr "N/A")) (js_or CPUPercentage (VStr "N/A"))
                 (js_or State (VStr "running"))
           | _ => Degraded sid (isActive sess) "Failed to retrieve health status"
           end
       | Rejected _ _ _ | Refused _ =>
           Degraded sid (isActive sess) "Failed to retrieve health status"
       end.
Proof.
  intros H Hact.
  unfold getSessionHealth. unfold bind at 1. rewrite validateSession_run, H, Hact.
  run.
  destruct (exec env (ticks s) (docker_stats (containerId sess)))
    as [out err|e out err|reason];
    run; rewrite ?Hact; [|reflexivity|reflexivity].
  destruct (JSON_parse env out) as [[|mem cpu st]|e]; reflexivity.
Qed.

(** C9.  On an active session [getSessionHealth] always returns a status.
    When the statistics query is rejected by the runtime, the status is the
    degraded one: the session identifier, the [isActive] flag that the
    registry holds, and the error marker. *)
Theorem getSessionHealth_degraded_when_stats_query_fails
    (env : Env) (s : State) (sid : string) (sess : SandboxSession) :
  JsMap.get sid (sessions s) = Some sess ->
  isActive sess = true ->
  let out := getSessionHealth sid env s in
  (exists status, fst out = Ok status) /\
  (forall e o err,
     exec env (ticks s) (docker_stats (containerId sess)) = Rejected e o err ->
     fst out = Ok (Degraded sid (isActive sess) "Failed to retrieve health status")).
Proof.
  intros H Hact out. subst out.
  rewrite (getSessionHealth_run env s sid sess H Hact). split.
  - eexists. reflexivity.
  - intros e o err ->. reflexivity.
Qed.

Lemma one_session_health_degraded :
  let out := getSessionHealth "s1" Scenario.unreachable Scenario.one in
  JsMap.get "s1" (sessions Scenario.one) = Some Scenario.session1 /\
  isActive Scenario.session1 = true /\
  (exists status, fst out = Ok status) /\
  (forall e o err,
     exec Scenario.unreachable 0 (docker_stats "c1") = Rejected e o err ->
     fst out = Ok (Degraded "s1" true "Failed to retrieve health status")).
Proof.
  split; [reflexivity|]. split; [reflexivity|].
  exact (getSessionHealth_degraded_when_stats_query_fails Scenario.unreachable
           Scenario.one "s1" Scenario.session1 eq_refl eq_refl).
Defined.

(** ** The sweep *)

Lemma extends_refl (s : State) : extends s s.
Proof. exists []. now rewrite app_nil_r. Qed.

Lemma extends_trans (s1 s2 s3 : State) :
  extends s1 s2 -> extends s2 s3 -> extends s1 s3.
Proof.
  intros [l1 H1] [l2 H2]. exists (l1 ++ l2)%list.
  now rewrite H2, H1, app_assoc.
Qed.

Lemma issued_extends (s s1 s2 : State) (x : Call * Registry) :
  extends s s1 -> extends s1 s2 -> In x (issued s s1) -> In x (issued s s2).
Proof.
  intros [l1 H1] [l2 H2].
  rewrite (issued_app s s1 l1 H1).
  rewrite (issued_app s s2 (l1 ++ l2)) by now rewrite H2, H1, app_assoc.
  intros Hin. apply in_or_app. now left.
Qed.

(** What [destroySession sid] does to the registry: nothing to the other
    identifiers, and it never registers [sid]. *)
Lemma destroySession_registry (env : Env) (s : State) (sid : string) :
  let s' := snd (destroySession sid env s) in
  (forall other, other <> sid ->
     JsMap.get other (sessions s') = JsMap.get other (sessions s)) /\
  (JsMap.get sid (sessions s) = None -> JsMap.get sid (sessions s') = None) /\
  extends s s'.
Proof.
  destruct (JsMap.get sid (sessions s)) as [sess|] eqn:H.
  - destruct (destroySession_present env s sid sess H) as [Hcalls Hrm].
    cbv zeta in *. split; [|split].
    + intros other Hne.
      destruct (rejection (exec env (S (ticks s)) (docker_rm (containerId sess))));
        destruct Hrm as [_ Hreg]; rewrite Hreg; [reflexivity|].
      rewrite JsMapFacts.get_delete_other by congruence.
      apply JsMapFacts.get_set_other. congruence.
    + discriminate.
    + eexists. exact Hcalls.
  - rewrite (destroySession_absent env s sid H). cbn [snd].
    repeat split; auto using extends_refl.
Qed.

(** One turn of the sweep leaves the registry and the calls that
    [destroySession] leaves. *)
Lemma sweep_body_state (env : Env) (s : State) (sid : string) :
  sessions (snd (sweep_body sid env s)) = sessions (snd (destroySession sid env s)) /\
  calls (snd (sweep_body sid env s)) = calls (snd (destroySession sid env s)).
Proof.
  unfold sweep_body. run.
  destruct (destroySession sid env s) as [[[]|e] s']; run;
    [|destruct (error_listener env)]; split; reflexivity.
Qed.

(** When ['error'] is heard, one turn of the sweep never throws. *)
Lemma sweep_body_heard (env : Env) (s : State) (sid : string) :
  error_listener env = true -> fst (sweep_body sid env s) = Ok tt.
Proof.
  intros Hheard. unfold sweep_body. run.
  destruct (destroySession sid env s) as [[[]|e] s']; run;
    rewrite ?Hheard; reflexivity.
Qed.

Lemma issued_calls_app (s s1 s2 : State) (l1 l2 : list (Call * Registry)) :
  calls s1 = (calls s ++ l1)%list -> calls s2 = (calls s1 ++ l2)%list ->
  issued_calls s s2 = (map fst l1 ++ issued_calls s1 s2)%list.
Proof.
  intros H1 H2. unfold issued_calls.
  rewrite (issued_app s1 s2 l2 H2).
  rewrite (issued_app s s2 (l1 ++ l2)) by now rewrite H2, H1, app_assoc.
  apply map_app.
Qed.

(** A loop that runs [destroySession] on one identifier after the other:
    the loop of the sweep, and the loop of [destroy]. *)
Section TeardownLoop.

Variable env : Env.
Variable body : string -> M unit.

Hypothesis body_state :
  forall s sid,
    sessions (snd (body sid env s)) = sessions (snd (destroySession sid env s)) /\
    calls (snd (body sid env s)) = calls (snd (destroySession sid env s)).

(** Whether or not the loop runs to its end, it only touches the sessions
    it was given, and it registers nothing. *)
Lemma teardown_loop_registry (ids : list string) :
  forall s : State,
  let out := for_of ids body env s in
  extends s (snd out) /\
  (forall sid, ~ In sid ids ->
     JsMap.get sid (sessions (snd out)) = JsMap.get sid (sessions s)) /\
  (forall sid, JsMap.get sid (sessions s) = None ->
     JsMap.get sid (sessions (snd out)) = None).
Proof.
  induction ids as [|a rest IH]; intros s.
  - cbn. split; [apply extends_refl|]. split; auto.
  - cbn [for_of]. unfold bind.
    destruct (body_state s a) as [Hreg Hcalls].
    destruct (destroySession_registry env s a) as (Hother & Hnone & Hext).
    cbv zeta in Hother, Hnone.
    assert (Hext1 : extends s (snd (body a env s))).
    { destruct Hext as [l Hl]. exists l. now rewrite Hcalls. }
    assert (Hrest : forall sid, ~ In sid (a :: rest) ->
              JsMap.get sid (sessions (snd (body a env s))) = JsMap.get sid (sessions s)).
    { intros sid Hnot. rewrite Hreg. apply Hother. intros ->. apply Hnot. now left. }
    assert (Habs : forall sid, JsMap.get sid (sessions s) = None ->
              JsMap.get sid (sessions (snd (body a env s))) = None).
    { intros sid Hsid. rewrite Hreg.
      destruct (String.eqb_spec sid a) as [->|Hne]; [now apply Hnone|].
      now rewrite Hother. }
    destruct (body a env s) as [[[]|e] s1]; cbn [snd] in *.
    + destruct (IH s1) as (Hext2 & Hout & Habsent). cbv zeta.
      split; [eapply extends_trans; eassumption|]. split.
      * intros sid Hnot. rewrite Hout by (intros ?; apply Hnot; now right).
        now apply Hrest.
      * intros sid Hsid. apply Habsent. now apply Habs.
    + cbv zeta. cbn [snd]. split; [exact Hext1|]. split; assumption.
Qed.

Hypothesis body_returns : forall s sid, fst (body sid env s) = Ok tt.

(** A loop whose turns never throw asks for the removal of every container
    it was given, whatever happened to the sessions before. *)
Lemma teardown_loop (ids : list string) :
  forall s : State,
  let out := for_of ids body env s in
  fst out = Ok tt /\
  (forall sid sess, In sid ids -> JsMap.get sid (sessions s) = Some sess ->
     In (docker_rm (containerId sess)) (issued_calls s (snd out)) /\
     (accepts env (docker_rm (containerId sess)) ->
      JsMap.get sid (sessions (snd out)) = None)).
Proof.
  induction ids as [|a rest IH]; intros s.
  - cbn. split; [reflexivity|]. intros sid sess [].
  - destruct (teardown_loop_registry rest (snd (body a env s)))
      as (Hext2 & _ & Habsent).
    cbn [for_of]. unfold bind.
    destruct (body_state s a) as [Hreg Hcalls].
    specialize (body_returns s a).
    destruct (destroySession_registry env s a) as (Hother & Hnone & Hext).
    cbv zeta in Hother, Hnone, Hext2, Habsent.
    destruct (body a env s) as [[[]|e] s1]; cbn [fst snd] in *; [|discriminate].
    assert (Hext1 : extends s s1).
    { destruct Hext as [l Hl]. exists l. now rewrite Hcalls. }
    destruct (IH s1) as (Hok & Hin).
    cbv zeta. split; [exact Hok|].
    intros sid sess Hmem Hsid.
    destruct (String.eqb_spec sid a) as [->|Hne].
    + destruct (destroySession_present env s a sess Hsid) as [Hc Hrm].
      cbv zeta in Hc, Hrm. split.
      * apply in_map_iff. exists (docker_rm (containerId sess), sessions s).
        split; [reflexivity|].
        apply (issued_extends s s1 _ _ Hext1 Hext2).
        rewrite (issued_app s s1 _ (eq_trans Hcalls Hc)). right. now left.
      * intros Hacc. apply Habsent. rewrite Hreg.
        destruct (Hacc (S (ticks s))) as (o & e & Hrep). rewrite Hrep in Hrm.
        cbn [rejection] in Hrm.
        destruct Hrm as [_ ->]. apply JsMapFacts.get_delete_same.
    + destruct Hmem as [->|Hmem]; [contradiction|].
      assert (Hsid1 : JsMap.get sid (sessions s1) = Some sess)
        by (rewrite Hreg, Hother; assumption).
      destruct (Hin sid sess Hmem Hsid1) as [Hcall Hgone]. split; [|exact Hgone].
      destruct Hext1 as [l1 Hl1], Hext2 as [l2 Hl2].
      rewrite (issued_calls_app s s1 _ l1 l2 Hl1 Hl2).
      apply in_or_app. now right.
Qed.

(** The calls of such a loop over distinct registered sessions: the two
    calls of each teardown, in the order of the loop, and no other. *)
Lemma teardown_loop_calls (l : list (string * SandboxSession)) :
  forall s : State,
  NoDup (map fst l) ->
  (forall k x, In (k, x) l -> JsMap.get k (sessions s) = Some x) ->
  issued_calls s (snd (for_of (map fst l) body env s)) =
    flat_map (fun kv => teardown (snd kv)) l.
Proof.
  induction l as [|[a x] rest IH]; intros s Hnodup Hreg.
  - cbn. unfold issued_calls. now rewrite (issued_app s s []) by now rewrite app_nil_r.
  - cbn [map fst for_of flat_map snd]. unfold bind.
    destruct (body_state s a) as [Hsess Hcalls].
    specialize (body_returns s a).
    destruct (destroySession_registry env s a) as (Hother & _ & _).
    destruct (destroySession_present env s a x (Hreg a x (or_introl eq_refl)))
      as [Hc _].
    cbv zeta in Hother, Hc.
    destruct (body a env s) as [[[]|e] s1]; cbn [fst snd] in *; [|discriminate].
    inversion Hnodup as [|? ? Hnot Hnodup']; subst.
    assert (Hreg1 : forall k y, In (k, y) rest -> JsMap.get k (sessions s1) = Some y).
    { intros k y Hin. rewrite Hsess, Hother; [apply Hreg; now right|].
      intros ->. apply Hnot. now apply (in_map fst) in Hin. }
    destruct (teardown_loop_registry (map fst rest) s1) as ([l2 Hl2] & _).
    rewrite (issued_calls_app s s1 _ _ l2 (eq_trans Hcalls Hc) Hl2).
    now rewrite (IH s1 Hnodup' Hreg1).
Qed.

End TeardownLoop.

Lemma cleanupInactiveSessions_run (env : Env) (s : State) :
  cleanupInactiveSessions env s =
    for_of
      (map fst
         (filter (fun kv => maxSessionAge <? idle (Date_now env (ticks s)) (snd kv))
                 (sessions s)))
      sweep_body env (tick s).
Proof. reflexivity. Qed.

(** The sessions that a sweep selects have distinct identifiers. *)
Lemma wf_filter (old : string * SandboxSession -> bool) (m : Registry) :
  JsMap.wf m -> JsMap.wf (filter old m).
Proof.
  unfold JsMap.wf, JsMap.keys.
  induction m as [|[k x] m IH]; intros Hwf; [exact Hwf|].
  cbn [map fst] in Hwf. apply NoDup_cons_iff in Hwf. destruct Hwf as [Hk Hm].
  cbn [filter]. destruct (old (k, x)); [|exact (IH Hm)].
  cbn [map fst]. apply NoDup_cons; [|exact (IH Hm)].
  intros Hin. apply Hk.
  apply in_map_iff in Hin. destruct Hin as ([k' x'] & Heq & Hin).
  apply filter_In in Hin. apply in_map_iff. exists (k', x'). tauto.
Qed.

(** X24.  One sweep on a manager with a listener for ['error'], on a
    registry with unique keys, reading the clock once at its start.  The
    sweep never throws.  The calls it makes are the two calls of the
    teardown of every session idle for longer than the maximum age, in the
    order of the registry, and no other call.  A session idle for at most
    the maximum age is left as it is.  A session idle for longer is gone
    from the registry after the sweep if the runtime accepts the removal
    of its container, whatever happened to the sessions before it. *)
Theorem cleanupInactiveSessions_destroys_exactly_idle_sessions
    (env : Env) (s : State) :
  JsMap.wf (sessions s) ->
  error_listener env = true ->
  let out := cleanupInactiveSessions env s in
  let clock := Date_now env (ticks s) in
  fst out = Ok tt /\
  issued_calls s (snd out) =
    flat_map (fun kv => teardown (snd kv))
      (filter (fun kv => maxSessionAge <? idle clock (snd kv)) (sessions s)) /\
  forall sid sess, JsMap.get sid (sessions s) = Some sess ->
    (idle clock sess <= maxSessionAge ->
       JsMap.get sid (sessions (snd out)) = Some sess) /\
    (idle clock sess > maxSessionAge ->
       accepts env (docker_rm (containerId sess)) ->
       JsMap.get sid (sessions (snd out)) = None).
Proof.
  intros Hwf Hheard out clock. subst out. rewrite cleanupInactiveSessions_run.
  fold clock.
  set (old := filter _ (sessions s)).
  pose proof (fun s sid => sweep_body_heard env s sid Hheard) as Hreturns.
  destruct (teardown_loop env sweep_body (sweep_body_state env) Hreturns
              (map fst old) (tick s)) as (Hok & Hin).
  destruct (teardown_loop_registry env sweep_body (sweep_body_state env)
              (map fst old) (tick s)) as (_ & Hout & _).
  cbv zeta in Hok, Hin, Hout. split; [exact Hok|]. split.
  - apply (teardown_loop_calls env sweep_body (sweep_body_state env) Hreturns
             old (tick s)).
    + now apply wf_filter.
    + intros k x Hkx. apply filter_In in Hkx.
      now apply JsMapFacts.In_get.
  - intros sid sess Hget. split.
    + intros Hrecent. rewrite Hout; [exact Hget|].
      intros Hmem. apply in_map_iff in Hmem. destruct Hmem as ([k x] & Hk & Hkx).
      cbn [fst] in Hk. subst k. apply filter_In in Hkx. destruct Hkx as [Hkx Hold].
      cbn [snd] in Hold. apply Z.ltb_lt in Hold.
      rewrite (JsMapFacts.In_get sid x (sessions s) Hwf Hkx) in Hget.
      injection Hget as ->. lia.
    + intros Hold.
      assert (Hmem : In sid (map fst old)).
      { apply in_map_iff. exists (sid, sess). split; [reflexivity|].
        apply filter_In. split; [now apply JsMapFacts.get_In|].
        cbn [snd]. apply Z.ltb_lt. lia. }
      exact (proj2 (Hin sid sess Hmem Hget)).
Qed.

Lemma three_sessions_swept :
  let out := cleanupInactiveSessions Scenario.rm_c1_fails Scenario.three in
  JsMap.wf (sessions Scenario.three) /\
  error_listener Scenario.rm_c1_fails = true /\
  fst out = Ok tt /\
  issued_calls Scenario.three (snd out) =
    [docker_stop "c1"; docker_rm "c1"; docker_stop "c3"; docker_rm "c3"] /\
  forall sid sess, JsMap.get sid (sessions Scenario.three) = Some sess ->
    (idle 2000000 sess <= maxSessionAge ->
       JsMap.get sid (sessions (snd out)) = Some sess) /\
    (idle 2000000 sess > maxSessionAge ->
       accepts Scenario.rm_c1_fails (docker_rm (containerId sess)) ->
       JsMap.get sid (sessions (snd out)) = None).
Proof.
  assert (Hwf : JsMap.wf (sessions Scenario.three)).
  { unfold JsMap.wf. cbn. repeat constructor; cbn; intuition discriminate. }
  split; [exact Hwf|]. split; [reflexivity|].
  exact (cleanupInactiveSessions_destroys_exactly_idle_sessions
           Scenario.rm_c1_fails Scenario.three Hwf eq_refl).
Defined.

(** C7 (what the code does when a teardown fails on a manager as it is
    constructed, with no listener for ['error']).  The sessions [s1] and
    [s3] have both been idle for longer than the maximum age, the runtime
    cannot remove the container of [s1] and would remove that of [s3].
    Publishing the failure of [s1] throws, first in [destroySession] and
    again in the handler of the sweep, so the sweep throws at [s1]: no
    call is made for [s3], which stays registered, and nothing is
    published. *)
Theorem cleanupInactiveSessions_stops_at_first_failed_teardown :
  let env := without_error_listener Scenario.rm_c1_fails in
  let out := cleanupInactiveSessions env Scenario.three in
  let failure :=
    new_Error "Failed to remove container: Error: Command failed" in
  idle 2000000 Scenario.session1 > maxSessionAge /\
  idle 2000000 Scenario.session3 > maxSessionAge /\
  accepts env (docker_rm "c3") /\
  fst out =
    Throw (unhandled env
             (error_event "s1" (Some "cleanup")
                (unhandled env (error_event "s1" (Some "destroy") failure)))) /\
  issued_calls Scenario.three (snd out) = [docker_stop "c1"; docker_rm "c1"] /\
  JsMap.get "s3" (sessions (snd out)) = Some Scenario.session3 /\
  JsMap.keys (sessions (snd out)) = ["s1"; "s2"; "s3"] /\
  published Scenario.three (snd out) = [].
Proof.
  split; [reflexivity|]. split; [reflexivity|].
  split; [intros n; exists "", ""; reflexivity|].
  repeat split.
Qed.

(** The sweep at work: [s1] and [s3] are idle and [s2] is not; the
    container of [s1] cannot be removed.  The sweep asks for both
    teardowns, [s3] is gone, [s1] and [s2] are still registered, and the
    failure and the cleanup are published: this runtime has a listener
    for ['error']. *)
Example cleanupInactiveSessions_isolates_failure :
  let out := cleanupInactiveSessions Scenario.rm_c1_fails Scenario.three in
  fst out = Ok tt /\
  JsMap.keys (sessions (snd out)) = ["s1"; "s2"] /\
  map fst (issued Scenario.three (snd out)) =
    [docker_stop "c1"; docker_rm "c1"; docker_stop "c3"; docker_rm "c3"] /\
  published Scenario.three (snd out) =
    [error_event "s1" (Some "destroy")
       (new_Error "Failed to remove container: Error: Command failed");
     error_event "s1" (Some "cleanup")
       (new_Error "Failed to remove container: Error: Command failed");
     session_destroyed "s3";
     session_cleanup "s3"].
Proof. repeat split. Qed.

(** ** The keys of the registry stay unique *)

Create HintDb wf.

Lemma preserves_ret {A} (a : A) : preserves_wf (ret a).
Proof. intros env s H. exact H. Qed.

Lemma preserves_throw {A} (e : JsError) : preserves_wf (@throw A e).
Proof. intros env s H. exact H. Qed.

Lemma preserves_bind {A B} (m : M A) (k : A -> M B) :
  preserves_wf m -> (forall a, preserves_wf (k a)) -> preserves_wf (bind m k).
Proof.
  intros Hm Hk env s H. unfold bind. specialize (Hm env s H).
  destruct (m env s) as [[a|e] s']; [now apply Hk|exact Hm].
Qed.

Lemma preserves_try_catch {A} (m : M A) (h : JsError -> M A) :
  preserves_wf m -> (forall e, preserves_wf (h e)) -> preserves_wf (try_catch m h).
Proof.
  intros Hm Hh env s H. unfold try_catch. specialize (Hm env s H).
  destruct (m env s) as [[a|e] s']; [exact Hm|now apply Hh].
Qed.

Lemma preserves_sessions_get (sid : string) : preserves_wf (sessions_get sid).
Proof. intros env s H. exact H. Qed.

Lemma preserves_sessions_set (sid : string) (x : SandboxSession) :
  preserves_wf (sessions_set sid x).
Proof. intros env s H. now apply JsMapFacts.wf_set. Qed.

Lemma preserves_sessions_delete (sid : string) : preserves_wf (sessions_delete sid).
Proof. intros env s H. now apply JsMapFacts.wf_delete. Qed.

Lemma preserves_assign (sid : string) (f : SandboxSession -> SandboxSession) :
  preserves_wf (assign sid f).
Proof.
  intros env s H. unfold assign.
  destruct (JsMap.get sid (sessions s)); [now apply JsMapFacts.wf_set|exact H].
Qed.

Lemma preserves_emit (ev : Event) : preserves_wf (emit ev).
Proof.
  intros env s H. unfold emit.
  destruct ev; try exact H. now destruct (error_listener env).
Qed.

Lemma preserves_console_warn (msg : string) : preserves_wf (console_warn msg).
Proof. intros env s H. exact H. Qed.

Lemma preserves_now : preserves_wf now.
Proof. intros env s H. exact H. Qed.

Lemma preserves_random_suffix : preserves_wf random_suffix.
Proof. intros env s H. exact H. Qed.

Lemma preserves_execAsync (c : Call) : preserves_wf (execAsync c).
Proof. intros env s H. unfold execAsync. now destruct (exec env (ticks s) c). Qed.

Lemma preserves_executeInContainer (cid command : string) (timeout : Z)
    (options : ExecOptions) :
  preserves_wf (executeInContainer cid command timeout options).
Proof.
  intros env s H. unfold executeInContainer.
  destruct (exec env _ _); try destruct (timer_first env _ _ _); exact H.
Qed.

Lemma preserves_for_of {A} (l : list A) (body : A -> M unit) :
  (forall x, preserves_wf (body x)) -> preserves_wf (for_of l body).
Proof.
  intros Hbody. induction l as [|x l IH]; simpl.
  - apply preserves_ret.
  - apply preserves_bind; auto.
Qed.

#[local] Hint Resolve preserves_ret preserves_throw preserves_bind
  preserves_try_catch preserves_sessions_get preserves_sessions_set
  preserves_sessions_delete preserves_assign preserves_emit
  preserves_console_warn preserves_now preserves_random_suffix
  preserves_execAsync preserves_executeInContainer preserves_for_of : wf.

(** Splits a computation along its binds, handlers and branches. *)
Ltac wf_step :=
  match goal with
  | |- preserves_wf (bind _ _) => apply preserves_bind; [|intros ?]
  | |- preserves_wf (try_catch _ _) => apply preserves_try_catch; [|intros ?]
  | |- preserves_wf (for_of _ _) => apply preserves_for_of; intros ?
  | |- preserves_wf (match ?x with _ => _ end) => destruct x
  | |- preserves_wf (fun _ s => (_, s)) => intros ? ? ?; assumption
  | |- preserves_wf _ => solve [auto with wf]
  end.

Lemma preserves_validateSession (sid : string) : preserves_wf (validateSession sid).
Proof. unfold validateSession. repeat wf_step. Qed.

Lemma preserves_destroySession (sid : string) : preserves_wf (destroySession sid).
Proof.
  unfold destroySession, stopContainer, removeContainer. repeat wf_step.
Qed.

#[local] Hint Resolve preserves_validateSession preserves_destroySession : wf.

(** Every method of the manager keeps the keys of the registry unique; the
    registry of a new manager is empty, so its keys always are. *)
Theorem registry_keys_stay_unique :
  preserves_wf createSession /\
  (forall sid, preserves_wf (destroySession sid)) /\
  (forall sid command options, preserves_wf (executeCommand sid command options)) /\
  (forall sid operation, preserves_wf (fileOperation sid operation)) /\
  (forall sid, preserves_wf (getSessionHealth sid)) /\
  (forall sid limits, preserves_wf (updateSessionLimits sid limits)) /\
  preserves_wf cleanupInactiveSessions /\
  preserves_wf destroy.
Proof.
  repeat split; intros.
  - unfold createSession, generateSessionId, createContainer. repeat wf_step.
  - auto with wf.
  - unfold executeCommand. repeat wf_step.
  - unfold fileOperation, readFileInContainer, writeFileInContainer,
      deleteFileInContainer, listFilesInContainer. repeat wf_step.
  - unfold getSessionHealth. repeat wf_step.
  - unfold updateSessionLimits. repeat wf_step.
  - unfold cleanupInactiveSessions. repeat wf_step.
  - unfold destroy. repeat wf_step.
Qed.

(** * Further properties of the manager *)

(** ** Following the registry through a computation *)

Section Steps.

Variable P : Registry -> Registry -> Prop.
Hypothesis P_refl : forall m, P m m.
Hypothesis P_trans : forall m1 m2 m3, P m1 m2 -> P m2 m3 -> P m1 m3.

Lemma steps_neutral {A} (m : M A) :
  (forall env s, sessions (snd (m env s)) = sessions s) -> steps P m.
Proof. intros H env s. rewrite H. apply P_refl. Qed.

Lemma steps_bind {A B} (m : M A) (k : A -> M B) :
  steps P m -> (forall a, steps P (k a)) -> steps P (bind m k).
Proof.
  intros Hm Hk env s. unfold bind. specialize (Hm env s).
  destruct (m env s) as [[a|e] s1]; cbn [snd] in *; [|exact Hm].
  eapply P_trans; [exact Hm|apply Hk].
Qed.

Lemma steps_try_catch {A} (m : M A) (h : JsError -> M A) :
  steps P m -> (forall e, steps P (h e)) -> steps P (try_catch m h).
Proof.
  intros Hm Hh env s. unfold try_catch. specialize (Hm env s).
  destruct (m env s) as [[a|e] s1]; cbn [snd] in *; [exact Hm|].
  eapply P_trans; [exact Hm|apply Hh].
Qed.

Lemma steps_for_of {A} (l : list A) (body : A -> M unit) :
  (forall x, steps P (body x)) -> steps P (for_of l body).
Proof.
  intros Hbody. induction l as [|x l IH]; cbn [for_of].
  - apply steps_neutral. reflexivity.
  - apply steps_bind; auto.
Qed.

End Steps.

(** A computation that does not write to the registry. *)
Ltac neutral :=
  intros ? ?;
  unfold ret, throw, sessions_get, emit, console_warn, now, random_suffix,
    execAsync, executeInContainer;
  repeat match goal with
         | |- context [match ?x with _ => _ end] => destruct x
         | |- context [if ?x then _ else _] => destruct x
         end;
  reflexivity.

(** Splits a computation along its binds, handlers, loops and branches;
    [writes] deals with the writes to the registry. *)
Ltac follow Hrefl Htrans writes :=
  repeat match goal with
         | |- steps _ (bind _ _) => apply (steps_bind _ Htrans); [|intros ?]
         | |- steps _ (try_catch _ _) => apply (steps_try_catch _ Htrans); [|intros ?]
         | |- steps _ (for_of _ _) => apply (steps_for_of _ Hrefl Htrans); intros ?
         | |- steps _ (match ?x with _ => _ end) => destruct x
         | |- steps _ _ =>
             first [ assumption | writes | apply (steps_neutral _ Hrefl); neutral ]
         end.

(** ** The methods that only use a session keep the keys *)

Lemma keys_set_present (sid : string) (x y : SandboxSession) (m : Registry) :
  JsMap.get sid m = Some x -> JsMap.keys (JsMap.set sid y m) = JsMap.keys m.
Proof.
  unfold JsMap.keys. induction m as [|[k v] m IH]; simpl; [discriminate|].
  destruct (String.eqb_spec sid k) as [->|Hne]; simpl; [reflexivity|].
  intros H. now rewrite IH.
Qed.

Lemma same_keys_refl (m : Registry) : same_keys m m.
Proof. reflexivity. Qed.

Lemma same_keys_trans (m1 m2 m3 : Registry) :
  same_keys m1 m2 -> same_keys m2 m3 -> same_keys m1 m3.
Proof. unfold same_keys. congruence. Qed.

Lemma same_keys_assign (sid : string) (f : SandboxSession -> SandboxSession) :
  steps same_keys (assign sid f).
Proof.
  intros env s. unfold assign.
  destruct (JsMap.get sid (sessions s)) as [x|] eqn:H; cbn; [|reflexivity].
  exact (keys_set_present sid x (f x) (sessions s) H).
Qed.

Ltac follow_keys :=
  follow same_keys_refl same_keys_trans ltac:(apply same_keys_assign).

(** X1.  No method other than [createSession] and the destroying ones adds or
    removes a session: the keys of the registry, and their order, are the
    same after [executeCommand], [fileOperation], [getSessionHealth] and
    [updateSessionLimits], whatever the session, the arguments and the
    runtime. *)
Theorem using_a_session_keeps_the_keys (env : Env) (s : State) (sid : string) :
  (forall command options,
     JsMap.keys (sessions (snd (executeCommand sid command options env s)))
       = JsMap.keys (sessions s)) /\
  (forall operation,
     JsMap.keys (sessions (snd (fileOperation sid operation env s)))
       = JsMap.keys (sessions s)) /\
  JsMap.keys (sessions (snd (getSessionHealth sid env s))) = JsMap.keys (sessions s) /\
  (forall limits,
     JsMap.keys (sessions (snd (updateSessionLimits sid limits env s)))
       = JsMap.keys (sessions s)).
Proof.
  assert (Hv : steps same_keys (validateSession sid))
    by (unfold validateSession; follow_keys).
  repeat split; intros.
  - assert (H : steps same_keys (executeCommand sid command options))
      by (unfold executeCommand; follow_keys).
    exact (H env s).
  - assert (H : steps same_keys (fileOperation sid operation))
      by (unfold fileOperation, readFileInContainer, writeFileInContainer,
            deleteFileInContainer, listFilesInContainer; follow_keys).
    exact (H env s).
  - assert (H : steps same_keys (getSessionHealth sid))
      by (unfold getSessionHealth; follow_keys).
    exact (H env s).
  - assert (H : steps same_keys (updateSessionLimits sid limits))
      by (unfold updateSessionLimits; follow_keys).
    exact (H env s).
Qed.

(** ** A session keeps its identity *)

Lemma keeps_identity_refl (m : Registry) : keeps_identity m m.
Proof.
  intros k. destruct (JsMap.get k m); [|exact I]. repeat split.
Qed.

Lemma keeps_identity_trans (m1 m2 m3 : Registry) :
  keeps_identity m1 m2 -> keeps_identity m2 m3 -> keeps_identity m1 m3.
Proof.
  intros H12 H23 k. specialize (H12 k). specialize (H23 k).
  destruct (JsMap.get k m3) as [x3|]; [|exact I].
  destruct (JsMap.get k m2) as [x2|]; [|contradiction].
  destruct (JsMap.get k m1) as [x1|]; [|contradiction].
  unfold same_identity in *. intuition congruence.
Qed.

Lemma keeps_identity_assign (sid : string) (f : SandboxSession -> SandboxSession) :
  (forall x, same_identity x (f x)) -> steps keeps_identity (assign sid f).
Proof.
  intros Hf env s. unfold assign.
  destruct (JsMap.get sid (sessions s)) as [x|] eqn:H; cbn;
    [|apply keeps_identity_refl].
  intros k. destruct (String.eqb_spec sid k) as [<-|Hne].
  - rewrite JsMapFacts.get_set_same, H. apply Hf.
  - rewrite (JsMapFacts.get_set_other sid k _ _ Hne).
    apply keeps_identity_refl.
Qed.

Lemma keeps_identity_delete (sid : string) :
  steps keeps_identity (sessions_delete sid).
Proof.
  intros env s k. cbn.
  destruct (String.eqb_spec sid k) as [<-|Hne].
  - now rewrite JsMapFacts.get_delete_same.
  - rewrite (JsMapFacts.get_delete_other sid k _ Hne).
    apply keeps_identity_refl.
Qed.

Ltac follow_identity :=
  follow keeps_identity_refl keeps_identity_trans
    ltac:(first [ apply keeps_identity_delete
                | apply keeps_identity_assign; intros ?; repeat split ]).

Lemma keeps_identity_destroySession (sid : string) :
  steps keeps_identity (destroySession sid).
Proof.
  unfold destroySession, stopContainer, removeContainer. follow_identity.
Qed.

(** X2.  From the day it is registered to the day it is removed, a session has
    the same identifier, container, creation time and disk limit: after
    any method other than [createSession], every registered identifier
    was registered before, with the same identity.  In particular no such
    method registers an identifier. *)
Theorem sessions_keep_their_identity (env : Env) (s : State) :
  (forall sid, keeps_identity (sessions s) (sessions (snd (destroySession sid env s)))) /\
  (forall sid command options,
     keeps_identity (sessions s)
       (sessions (snd (executeCommand sid command options env s)))) /\
  (forall sid operation,
     keeps_identity (sessions s) (sessions (snd (fileOperation sid operation env s)))) /\
  (forall sid,
     keeps_identity (sessions s) (sessions (snd (getSessionHealth sid env s)))) /\
  (forall sid limits,
     keeps_identity (sessions s)
       (sessions (snd (updateSessionLimits sid limits env s)))) /\
  keeps_identity (sessions s) (sessions (snd (cleanupInactiveSessions env s))) /\
  keeps_identity (sessions s) (sessions (snd (destroy env s))).
Proof.
  pose proof keeps_identity_destroySession as Hd.
  assert (Hv : forall sid, steps keeps_identity (validateSession sid))
    by (intros; unfold validateSession; follow_identity).
  repeat split; intros.
  - exact (Hd sid env s).
  - pose proof (Hv sid) as Hvs.
    assert (H : steps keeps_identity (executeCommand sid command options))
      by (unfold executeCommand; follow_identity).
    exact (H env s).
  - pose proof (Hv sid) as Hvs.
    assert (H : steps keeps_identity (fileOperation sid operation))
      by (unfold fileOperation, readFileInContainer, writeFileInContainer,
            deleteFileInContainer, listFilesInContainer; follow_identity).
    exact (H env s).
  - pose proof (Hv sid) as Hvs.
    assert (H : steps keeps_identity (getSessionHealth sid))
      by (unfold getSessionHealth; follow_identity).
    exact (H env s).
  - pose proof (Hv sid) as Hvs.
    assert (H : steps keeps_identity (updateSessionLimits sid limits))
      by (unfold updateSessionLimits; follow_identity).
    exact (H env s).
  - assert (H : steps keeps_identity cleanupInactiveSessions).
    { unfold cleanupInactiveSessions. follow_identity. all: apply Hd. }
    exact (H env s).
  - assert (H : steps keeps_identity destroy).
    { unfold destroy. follow_identity. all: apply Hd. }
    exact (H env s).
Qed.

(** ** Every session is registered under its own identifier *)

Lemma In_set (k k0 : string) (v v0 : SandboxSession) (m : Registry) :
  In (k, v) (JsMap.set k0 v0 m) -> In (k, v) m \/ (k = k0 /\ v = v0).
Proof.
  induction m as [|[k1 v1] m IH]; simpl.
  - intros [[= <- <-]|[]]. now right.
  - destruct (String.eqb_spec k0 k1) as [->|Hne]; simpl.
    + intros [[= <- <-]|Hin]; [now right|left; now right].
    + intros [Heq|Hin]; [left; now left|].
      destruct (IH Hin) as [Hm|Hnew]; [left; now right|now right].
Qed.

Lemma In_delete (kv : string * SandboxSession) (k0 : string) (m : Registry) :
  In kv (JsMap.delete k0 m) -> In kv m.
Proof. unfold JsMap.delete. intros H. now apply filter_In in H. Qed.

Lemma keeps_keyed_refl (m : Registry) : keeps_keyed m m.
Proof. intros H. exact H. Qed.

Lemma keeps_keyed_trans (m1 m2 m3 : Registry) :
  keeps_keyed m1 m2 -> keeps_keyed m2 m3 -> keeps_keyed m1 m3.
Proof. unfold keeps_keyed. auto. Qed.

Lemma keeps_keyed_set (sid : string) (x : SandboxSession) :
  sessionId x = sid -> steps keeps_keyed (sessions_set sid x).
Proof.
  intros Hx env s Hk k v Hin. cbn in Hin.
  destruct (In_set _ _ _ _ _ Hin) as [Hm|[-> ->]]; [now apply Hk|exact Hx].
Qed.

Lemma keeps_keyed_assign (sid : string) (f : SandboxSession -> SandboxSession) :
  (forall x, sessionId (f x) = sessionId x) -> steps keeps_keyed (assign sid f).
Proof.
  intros Hf env s Hk. unfold assign.
  destruct (JsMap.get sid (sessions s)) as [x|] eqn:H; cbn; [|exact Hk].
  intros k v Hin.
  destruct (In_set _ _ _ _ _ Hin) as [Hm|[-> ->]]; [now apply Hk|].
  rewrite Hf. apply Hk. now apply JsMapFacts.get_In.
Qed.

Lemma keeps_keyed_delete (sid : string) : steps keeps_keyed (sessions_delete sid).
Proof.
  intros env s Hk k v Hin. cbn in Hin. apply Hk. exact (In_delete _ _ _ Hin).
Qed.

Ltac follow_keyed :=
  follow keeps_keyed_refl keeps_keyed_trans
    ltac:(first [ apply keeps_keyed_delete
                | apply keeps_keyed_assign; intros ?; reflexivity
                | apply keeps_keyed_set; reflexivity ]).

Lemma keeps_keyed_destroySession (sid : string) :
  steps keeps_keyed (destroySession sid).
Proof.
  unfold destroySession, stopContainer, removeContainer. follow_keyed.
Qed.

(** X3.  The [sessionId] field of a session is the key it is registered under:
    [createSession] registers it so, and every method keeps it so. *)
Theorem sessions_stay_registered_under_their_sessionId (env : Env) (s : State) :
  keyed (sessions s) ->
  keyed (sessions (snd (createSession env s))) /\
  (forall sid, keyed (sessions (snd (destroySession sid env s)))) /\
  (forall sid command options,
     keyed (sessions (snd (executeCommand sid command options env s)))) /\
  (forall sid operation, keyed (sessions (snd (fileOperation sid operation env s)))) /\
  (forall sid, keyed (sessions (snd (getSessionHealth sid env s)))) /\
  (forall sid limits, keyed (sessions (snd (updateSessionLimits sid limits env s)))) /\
  keyed (sessions (snd (cleanupInactiveSessions env s))) /\
  keyed (sessions (snd (destroy env s))).
Proof.
  intros Hk.
  pose proof keeps_keyed_destroySession as Hd.
  assert (Hv : forall sid, steps keeps_keyed (validateSession sid))
    by (intros; unfold validateSession; follow_keyed).
  repeat split; intros.
  - assert (H : steps keeps_keyed createSession)
      by (unfold createSession, generateSessionId, createContainer; follow_keyed).
    exact (H env s Hk).
  - exact (Hd sid env s Hk).
  - pose proof (Hv sid) as Hvs.
    assert (H : steps keeps_keyed (executeCommand sid command options))
      by (unfold executeCommand; follow_keyed).
    exact (H env s Hk).
  - pose proof (Hv sid) as Hvs.
    assert (H : steps keeps_keyed (fileOperation sid operation))
      by (unfold fileOperation, readFileInContainer, writeFileInContainer,
            deleteFileInContainer, listFilesInContainer; follow_keyed).
    exact (H env s Hk).
  - pose proof (Hv sid) as Hvs.
    assert (H : steps keeps_keyed (getSessionHealth sid))
      by (unfold getSessionHealth; follow_keyed).
    exact (H env s Hk).
  - pose proof (Hv sid) as Hvs.
    assert (H : steps keeps_keyed (updateSessionLimits sid limits))
      by (unfold updateSessionLimits; follow_keyed).
    exact (H env s Hk).
  - assert (H : steps keeps_keyed cleanupInactiveSessions).
    { unfold cleanupInactiveSessions. follow_keyed. all: apply Hd. }
    exact (H env s Hk).
  - assert (H : steps keeps_keyed destroy).
    { unfold destroy. follow_keyed. all: apply Hd. }
    exact (H env s Hk).
Qed.

Lemma three_sessions_stay_keyed :
  keyed (sessions Scenario.three) /\
  keyed (sessions (snd (createSession Scenario.healthy Scenario.three))) /\
  (forall sid, keyed (sessions (snd (destroySession sid Scenario.healthy Scenario.three)))) /\
  (forall sid command options,
     keyed (sessions (snd (executeCommand sid command options
                             Scenario.healthy Scenario.three)))) /\
  (forall sid operation,
     keyed (sessions (snd (fileOperation sid operation Scenario.healthy Scenario.three)))) /\
  (forall sid, keyed (sessions (snd (getSessionHealth sid Scenario.healthy Scenario.three)))) /\
  (forall sid limits,
     keyed (sessions (snd (updateSessionLimits sid limits
                             Scenario.healthy Scenario.three)))) /\
  keyed (sessions (snd (cleanupInactiveSessions Scenario.healthy Scenario.three))) /\
  keyed (sessions (snd (destroy Scenario.healthy Scenario.three))).
Proof.
  assert (Hk : keyed (sessions Scenario.three)).
  { intros k x [[= <- <-]|[[= <- <-]|[[= <- <-]|[]]]]; reflexivity. }
  split; [exact Hk|].
  exact (sessions_stay_registered_under_their_sessionId
           Scenario.healthy Scenario.three Hk).
Defined.

(** ** A session that cannot be used *)

(** X4.  When validation fails, [executeCommand], [fileOperation],
    [getSessionHealth] and [updateSessionLimits] throw the validation
    error and nothing else happens: the state is what it was, so no
    activity is stamped, no call reaches the runtime and no event is
    published.  The error is one of two. *)
Theorem validation_failure_stops_the_method
    (env : Env) (s : State) (sid : string) (e : JsError) :
  fst (validateSession sid env s) = Throw e ->
  (forall command options,
     executeCommand sid command options env s = (Throw e, s)) /\
  (forall operation, fileOperation sid operation env s = (Throw e, s)) /\
  getSessionHealth sid env s = (Throw e, s) /\
  (forall limits, updateSessionLimits sid limits env s = (Throw e, s)) /\
  (e = new_Error ("Session not found: " ++ sid) \/
   e = new_Error ("Session is not active: " ++ sid)).
Proof.
  intros H.
  assert (Hrun : validateSession sid env s = (Throw e, s)).
  { rewrite validateSession_run in *.
    destruct (JsMap.get sid (sessions s)) as [x|]; [destruct (isActive x)|];
      cbn [fst] in H; congruence. }
  repeat split; intros.
  - unfold executeCommand. unfold bind at 1. now rewrite Hrun.
  - unfold fileOperation. unfold bind at 1. now rewrite Hrun.
  - unfold getSessionHealth. unfold bind at 1. now rewrite Hrun.
  - unfold updateSessionLimits. unfold bind at 1. now rewrite Hrun.
  - rewrite validateSession_run in H.
    destruct (JsMap.get sid (sessions s)) as [x|]; [destruct (isActive x)|];
      cbn [fst] in H; [discriminate|right|left]; congruence.
Qed.

Lemma inactive_session_is_rejected :
  let e := new_Error "Session is not active: s1" in
  fst (validateSession "s1" Scenario.healthy Cases.parked) = Throw e /\
  (forall command options,
     executeCommand "s1" command options Scenario.healthy Cases.parked
       = (Throw e, Cases.parked)) /\
  (forall operation,
     fileOperation "s1" operation Scenario.healthy Cases.parked
       = (Throw e, Cases.parked)) /\
  getSessionHealth "s1" Scenario.healthy Cases.parked = (Throw e, Cases.parked) /\
  (forall limits,
     updateSessionLimits "s1" limits Scenario.healthy Cases.parked
       = (Throw e, Cases.parked)) /\
  (e = new_Error ("Session not found: " ++ "s1") \/
   e = new_Error ("Session is not active: " ++ "s1")).
Proof.
  split; [reflexivity|].
  exact (validation_failure_stops_the_method Scenario.healthy Cases.parked "s1"
           (new_Error "Session is not active: s1") eq_refl).
Defined.

(** ** createSession *)

Lemma set_absent (sid : string) (x : SandboxSession) (m : Registry) :
  JsMap.get sid m = None -> JsMap.set sid x m = (m ++ [(sid, x)])%list.
Proof.
  induction m as [|[k v] m IH]; simpl; [reflexivity|].
  destruct (String.eqb_spec sid k); [discriminate|].
  intros H. now rewrite IH.
Qed.

(** The run of [createSession]: the clock is read at [ticks s], the random
    source at [ticks s + 1], [docker run] is called at [ticks s + 2], and
    the clock is read at [ticks s + 3] and [ticks s + 4]. *)
Lemma createSession_run (env : Env) (s : State) :
  let id := "sandbox_" ++ string_of_Z (Date_now env (ticks s)) ++ "_"
              ++ Math_random env (S (ticks s)) in
  let c := docker_run baseMemoryLimit baseCpuLimit dockerImageName in
  let n := S (S (ticks s)) in
  createSession env s =
    match exec env n c with
    | Resolved out err =>
        (Ok id,
         {| sessions :=
              JsMap.set id
                {| sessionId := id; containerId := trim out;
                   createdAt := Date_now env (S n);
                   lastActivityAt := Date_now env (S (S n));
                   memoryLimit := "512m"; cpuLimit := "1"; diskLimit := "1gb";
                   timeoutMs := 300000; isActive := true |}
                (sessions s);
            events := events s ++ [session_created id (trim out)];
            calls := calls s ++ [(c, sessions s)];
            console := console s;
            ticks := S (S (S n)) |})
    | Rejected e out err =>
        (Throw (new_Error ("Failed to create container: " ++ toString e)),
         {| sessions := sessions s; events := events s;
            calls := calls s ++ [(c, sessions s)];
            console := console s; ticks := S n |})
    | Refused reason =>
        (Throw (new_Error ("Failed to create container: " ++
                           toString (refusal reason))),
         {| sessions := sessions s; events := events s;
            calls := calls s ++ [(c, sessions s)];
            console := console s; ticks := S n |})
    end.
Proof.
  intros id c n. unfold createSession, generateSessionId, createContainer. run.
  fold id c n. destruct (exec env n c); reflexivity.
Qed.

(** X5.  When the runtime starts the container, [createSession] returns the
    identifier [sandbox_<clock>_<random>] and registers under it an active
    session with the trimmed output of [docker run] as its container and
    the default limits; validation of the new identifier then succeeds.
    The other identifiers are untouched, a new key goes to the end of the
    registry, one [session:created] event is published and the only call
    made is [docker run]. *)
Theorem createSession_registers_an_active_session
    (env : Env) (s : State) (out err : string) :
  exec env (S (S (ticks s)))
    (docker_run "512m" "1" "claude-agent-sandbox:latest") = Resolved out err ->
  let id := "sandbox_" ++ string_of_Z (Date_now env (ticks s)) ++ "_"
              ++ Math_random env (S (ticks s)) in
  let session :=
    {| sessionId := id; containerId := trim out;
       createdAt := Date_now env (S (S (S (ticks s))));
       lastActivityAt := Date_now env (S (S (S (S (ticks s)))));
       memoryLimit := "512m"; cpuLimit := "1"; diskLimit := "1gb";
       timeoutMs := 300000; isActive := true |} in
  let r := createSession env s in
  fst r = Ok id /\
  JsMap.get id (sessions (snd r)) = Some session /\
  fst (validateSession id env (snd r)) = Ok session /\
  (forall other, other <> id ->
     JsMap.get other (sessions (snd r)) = JsMap.get other (sessions s)) /\
  JsMap.keys (sessions (snd r)) =
    (if in_dec string_dec id (JsMap.keys (sessions s)) then JsMap.keys (sessions s)
     else JsMap.keys (sessions s) ++ [id])%list /\
  published s (snd r) = [session_created id (trim out)] /\
  map fst (issued s (snd r)) = [docker_run "512m" "1" "claude-agent-sandbox:latest"].
Proof.
  intros Hexec id session r. subst r. rewrite createSession_run.
  change (docker_run baseMemoryLimit baseCpuLimit dockerImageName)
    with (docker_run "512m" "1" "claude-agent-sandbox:latest").
  rewrite Hexec. fold id session. cbn [fst snd sessions].
  split; [reflexivity|]. split; [apply JsMapFacts.get_set_same|].
  split; [rewrite validateSession_run; cbn [sessions];
          now rewrite JsMapFacts.get_set_same|].
  split; [intros other Hne; apply JsMapFacts.get_set_other; congruence|].
  split; [apply JsMapFacts.keys_set|].
  split; [apply published_app; reflexivity|].
  now rewrite (issued_app s _ [_]) by reflexivity.
Qed.

Lemma first_session_is_registered :
  let r := createSession Scenario.rm_c1_fails Scenario.fresh in
  let session :=
    {| sessionId := "sandbox_2000000_k3j9x0q1z"; containerId := "c1";
       createdAt := 2000000; lastActivityAt := 2000000;
       memoryLimit := "512m"; cpuLimit := "1"; diskLimit := "1gb";
       timeoutMs := 300000; isActive := true |} in
  exec Scenario.rm_c1_fails 2 (docker_run "512m" "1" "claude-agent-sandbox:latest")
    = Resolved (String "c" (String "1" (String newline ""))) "" /\
  fst r = Ok "sandbox_2000000_k3j9x0q1z" /\
  JsMap.get "sandbox_2000000_k3j9x0q1z" (sessions (snd r)) = Some session /\
  fst (validateSession "sandbox_2000000_k3j9x0q1z" Scenario.rm_c1_fails (snd r))
    = Ok session /\
  (forall other, other <> "sandbox_2000000_k3j9x0q1z" ->
     JsMap.get other (sessions (snd r)) = JsMap.get other (sessions Scenario.fresh)) /\
  JsMap.keys (sessions (snd r)) = ["sandbox_2000000_k3j9x0q1z"] /\
  published Scenario.fresh (snd r) =
    [session_created "sandbox_2000000_k3j9x0q1z" "c1"] /\
  map fst (issued Scenario.fresh (snd r)) =
    [docker_run "512m" "1" "claude-agent-sandbox:latest"].
Proof.
  split; [reflexivity|].
  exact (createSession_registers_an_active_session Scenario.rm_c1_fails
           Scenario.fresh (String "c" (String "1" (String newline ""))) "" eq_refl).
Defined.

(** X6.  When the runtime cannot start the container, [createSession] throws
    [Failed to create container: ...] with the runtime's error in it; no
    session is registered and no event is published. *)
Theorem createSession_failure_registers_nothing
    (env : Env) (s : State) (e : JsError) (out err : string) :
  exec env (S (S (ticks s)))
    (docker_run "512m" "1" "claude-agent-sandbox:latest") = Rejected e out err ->
  let r := createSession env s in
  fst r = Throw (new_Error ("Failed to create container: " ++ toString e)) /\
  sessions (snd r) = sessions s /\
  published s (snd r) = [].
Proof.
  intros Hexec r. subst r. rewrite createSession_run.
  change (docker_run baseMemoryLimit baseCpuLimit dockerImageName)
    with (docker_run "512m" "1" "claude-agent-sandbox:latest").
  rewrite Hexec. cbn [fst snd sessions].
  split; [reflexivity|]. split; [reflexivity|].
  apply published_app. cbn. now rewrite app_nil_r.
Qed.

Lemma no_docker_no_session :
  let r := createSession Cases.no_docker Scenario.three in
  exec Cases.no_docker 2 (docker_run "512m" "1" "claude-agent-sandbox:latest")
    = Rejected Scenario.failure "" "Cannot connect to the Docker daemon" /\
  fst r = Throw (new_Error "Failed to create container: Error: Command failed") /\
  sessions (snd r) = sessions Scenario.three /\
  published Scenario.three (snd r) = [].
Proof.
  split; [reflexivity|].
  exact (createSession_failure_registers_nothing Cases.no_docker Scenario.three
           Scenario.failure "" "Cannot connect to the Docker daemon" eq_refl).
Defined.

(** ** What destroySession reports *)

Lemma warned_app (s s' : State) (l : list string) :
  console s' = (console s ++ l)%list -> warned s s' = l.
Proof. unfold warned. intros ->. apply skipn_length_app. Qed.

(** X7.  [destroySession] on an identifier that is not registered throws and
    changes nothing.  On a registered one, it warns on the console if and
    only if [docker stop] failed.  When [docker rm] succeeds it returns
    and publishes [session:destroyed], and nothing else.  When [docker rm]
    fails and a listener for ['error'] is attached, it publishes one
    [error] event for the operation [destroy], which carries the removal
    error, and throws that error; with no such listener it publishes
    nothing and throws the [ERR_UNHANDLED_ERROR] of that event. *)
Theorem destroySession_reports_its_outcome (env : Env) (s : State) (sid : string) :
  let out := destroySession sid env s in
  match JsMap.get sid (sessions s) with
  | None => out = (Throw (new_Error ("Session not found: " ++ sid)), s)
  | Some sess =>
      warned s (snd out) =
        match rejection (exec env (ticks s) (docker_stop (containerId sess))) with
        | None => []
        | Some e => ["Failed to stop container: " ++ toString e]
        end /\
      match rejection (exec env (S (ticks s)) (docker_rm (containerId sess))) with
      | None =>
          fst out = Ok tt /\ published s (snd out) = [session_destroyed sid]
      | Some e =>
          let failure := new_Error ("Failed to remove container: " ++ toString e) in
          let report := error_event sid (Some "destroy") failure in
          if error_listener env
          then fst out = Throw failure /\ published s (snd out) = [report]
          else fst out = Throw (unhandled env report) /\ published s (snd out) = []
      end
  end.
Proof.
  intros out. subst out.
  destruct (JsMap.get sid (sessions s)) as [sess|] eqn:H;
    [|now apply destroySession_absent].
  unfold destroySession, stopContainer, removeContainer. run. rewrite H.
  destruct (exec env (ticks s) (docker_stop (containerId sess))); run;
    destruct (exec env (S (ticks s)) (docker_rm (containerId sess))); run;
    rewrite ?H; run; try destruct (error_listener env); run;
    (split; [apply warned_app|split; [|apply published_app]]); cbn;
    rewrite ?app_nil_r; reflexivity.
Qed.

(** The same on a manager as it is constructed, with no listener for
    ['error'], and a runtime that cannot remove the container. *)
Example destroySession_unheard_failure :
  let env := without_error_listener Scenario.rm_c1_fails in
  let out := destroySession "s1" env Scenario.one in
  let failure :=
    new_Error "Failed to remove container: Error: Command failed" in
  fst out = Throw (unhandled env (error_event "s1" (Some "destroy") failure)) /\
  message (unhandled env (error_event "s1" (Some "destroy") failure)) =
    Some ("Unhandled error. ({ sessionId: 's1', operation: 'destroy', " ++
          "error: [Error: Failed to remove container: Error: Command failed] })") /\
  published Scenario.one (snd out) = [] /\
  JsMap.keys (sessions (snd out)) = ["s1"].
Proof. repeat split. Qed.

(** ** Shutting the manager down *)

(** One turn of the loop of [destroy] leaves the registry and the calls
    that [destroySession] leaves. *)
Lemma destroy_body_state (env : Env) (s : State) (sid : string) :
  sessions (snd (destroy_body sid env s)) = sessions (snd (destroySession sid env s)) /\
  calls (snd (destroy_body sid env s)) = calls (snd (destroySession sid env s)).
Proof.
  unfold destroy_body. run.
  destruct (destroySession sid env s) as [[[]|e] s']; run;
    [|destruct (error_listener env)]; split; reflexivity.
Qed.

(** When ['error'] is heard, one turn of the loop of [destroy] never
    throws. *)
Lemma destroy_body_heard (env : Env) (s : State) (sid : string) :
  error_listener env = true -> fst (destroy_body sid env s) = Ok tt.
Proof.
  intros Hheard. unfold destroy_body. run.
  destruct (destroySession sid env s) as [[[]|e] s']; run;
    rewrite ?Hheard; reflexivity.
Qed.

Lemma get_nowhere_nil (m : Registry) : (forall k, JsMap.get k m = None) -> m = [].
Proof.
  destruct m as [|[k v] m]; [reflexivity|].
  intros H. specialize (H k). simpl in H. now rewrite String.eqb_refl in H.
Qed.

(** X8.  On a manager with a listener for ['error'], [destroy] never throws.
    It asks for the removal of the container of every registered session,
    whatever happened to the sessions before it, and a session whose
    removal the runtime accepts is gone afterwards; if the runtime accepts
    them all, the registry is empty.  On a registry with unique keys, the
    calls it makes are the two calls of the teardown of each session, in
    the order of the registry, and no other. *)
Theorem destroy_tears_down_every_session (env : Env) (s : State) :
  error_listener env = true ->
  let out := destroy env s in
  fst out = Ok tt /\
  (forall sid sess, JsMap.get sid (sessions s) = Some sess ->
     In (docker_rm (containerId sess)) (issued_calls s (snd out)) /\
     (accepts env (docker_rm (containerId sess)) ->
      JsMap.get sid (sessions (snd out)) = None)) /\
  ((forall sid sess, JsMap.get sid (sessions s) = Some sess ->
      accepts env (docker_rm (containerId sess))) ->
   sessions (snd out) = []) /\
  (JsMap.wf (sessions s) ->
   issued_calls s (snd out) = flat_map (fun kv => teardown (snd kv)) (sessions s)).
Proof.
  intros Hheard out.
  assert (Hrun : destroy env s = for_of (JsMap.keys (sessions s)) destroy_body env s)
    by reflexivity.
  subst out. rewrite Hrun.
  pose proof (fun s sid => destroy_body_heard env s sid Hheard) as Hreturns.
  destruct (teardown_loop env destroy_body (destroy_body_state env) Hreturns
              (JsMap.keys (sessions s)) s) as (Hok & Hin).
  destruct (teardown_loop_registry env destroy_body (destroy_body_state env)
              (JsMap.keys (sessions s)) s) as (_ & _ & Habsent).
  cbv zeta in Hok, Habsent, Hin.
  assert (Hkey : forall sid sess, JsMap.get sid (sessions s) = Some sess ->
            In sid (JsMap.keys (sessions s))).
  { intros sid sess H. apply JsMapFacts.get_In in H.
    now apply (in_map fst) in H. }
  split; [exact Hok|]. split; [|split].
  - intros sid sess H. exact (Hin sid sess (Hkey sid sess H) H).
  - intros Hall. apply get_nowhere_nil. intros k.
    destruct (JsMap.get k (sessions s)) as [sess|] eqn:H; [|now apply Habsent].
    exact (proj2 (Hin k sess (Hkey k sess H) H) (Hall k sess H)).
  - intros Hwf.
    apply (teardown_loop_calls env destroy_body (destroy_body_state env) Hreturns
             (sessions s) s Hwf).
    intros k x Hkx. now apply JsMapFacts.In_get.
Qed.

Lemma three_sessions_shut_down :
  let out := destroy Scenario.rm_c1_fails Scenario.three in
  error_listener Scenario.rm_c1_fails = true /\
  fst out = Ok tt /\
  (forall sid sess, JsMap.get sid (sessions Scenario.three) = Some sess ->
     In (docker_rm (containerId sess)) (issued_calls Scenario.three (snd out)) /\
     (accepts Scenario.rm_c1_fails (docker_rm (containerId sess)) ->
      JsMap.get sid (sessions (snd out)) = None)) /\
  ((forall sid sess, JsMap.get sid (sessions Scenario.three) = Some sess ->
      accepts Scenario.rm_c1_fails (docker_rm (containerId sess))) ->
   sessions (snd out) = []) /\
  (JsMap.wf (sessions Scenario.three) ->
   issued_calls Scenario.three (snd out) =
     [docker_stop "c1"; docker_rm "c1"; docker_stop "c2"; docker_rm "c2";
      docker_stop "c3"; docker_rm "c3"]).
Proof.
  split; [reflexivity|].
  exact (destroy_tears_down_every_session Scenario.rm_c1_fails Scenario.three
           eq_refl).
Defined.

(** [destroy] on a manager as it is constructed, with no listener for
    ['error']: it throws at the first session whose container cannot be
    removed, and the sessions after it are not torn down. *)
Example destroy_stops_at_first_failed_teardown :
  let env := without_error_listener Scenario.rm_c1_fails in
  let out := destroy env Scenario.three in
  let failure :=
    new_Error "Failed to remove container: Error: Command failed" in
  fst out =
    Throw (unhandled env
             (error_event "s1" None
                (unhandled env (error_event "s1" (Some "destroy") failure)))) /\
  issued_calls Scenario.three (snd out) = [docker_stop "c1"; docker_rm "c1"] /\
  JsMap.keys (sessions (snd out)) = ["s1"; "s2"; "s3"].
Proof. repeat split. Qed.

(** ** What executeCommand leaves behind *)

Lemma is_zero_js_or (v : JsVal) : is_zero (js_or v (VNum 1)) = false.
Proof.
  unfold js_or. destruct v as [| |n|str]; cbn; try reflexivity.
  - destruct n; reflexivity.
  - now destruct (String.eqb str "").
Qed.

(** The registry and the events after [executeCommand] on an active
    session. *)
Lemma executeCommand_after (env : Env) (s : State) (sid command : string)
    (options : ExecOptions) (sess : SandboxSession) :
  JsMap.get sid (sessions s) = Some sess ->
  isActive sess = true ->
  let out := executeCommand sid command options env s in
  sessions (snd out) =
    JsMap.set sid (set_lastActivityAt (Date_now env (ticks s)) sess) (sessions s) /\
  ticks (snd out) = S (S (S (S (ticks s)))) /\
  exists result,
    fst out = Ok result /\
    published s (snd out) =
      [if is_zero (exitCode result) then execution_completed sid result
       else execution_error sid result].
Proof.
  intros H Hact out.
  assert (Hout : out = executeCommand sid command options env s) by reflexivity.
  clearbody out.
  unfold executeCommand in Hout. unfold bind at 1 in Hout.
  rewrite validateSession_run, H, Hact in Hout.
  unfold executeInContainer in Hout. run. rewrite H in Hout. run.
  destruct (exec env _ _) as [o e|e o err|reason];
    try destruct (timer_first env _ _ _); run; subst out;
    (split; [reflexivity|]; split; [reflexivity|]; eexists;
     split; [reflexivity|]; apply published_app; cbn [exitCode is_zero]);
    try reflexivity.
  now rewrite is_zero_js_or.
Qed.

(** X9.  [executeCommand] publishes exactly one event, and the event carries the
    result it returns: [execution:completed] when the exit code is [0], and
    [execution:error] otherwise (the command failed, or the timer fired). *)
Theorem executeCommand_publishes_its_result
    (env : Env) (s : State) (sid command : string) (options : ExecOptions)
    (sess : SandboxSession) :
  JsMap.get sid (sessions s) = Some sess ->
  isActive sess = true ->
  let out := executeCommand sid command options env s in
  exists result,
    fst out = Ok result /\
    published s (snd out) =
      [if is_zero (exitCode result) then execution_completed sid result
       else execution_error sid result].
Proof.
  intros H Hact.
  exact (proj2 (proj2 (executeCommand_after env s sid command options sess H Hact))).
Qed.

Lemma killed_command_is_published_as_error :
  let out := executeCommand "s1" "sleep 600" Scenario.no_options
               Cases.killer Scenario.one in
  JsMap.get "s1" (sessions Scenario.one) = Some Scenario.session1 /\
  isActive Scenario.session1 = true /\
  exists result,
    fst out = Ok result /\
    published Scenario.one (snd out) =
      [if is_zero (exitCode result) then execution_completed "s1" result
       else execution_error "s1" result].
Proof.
  split; [reflexivity|]. split; [reflexivity|].
  exact (executeCommand_publishes_its_result Cases.killer Scenario.one "s1"
           "sleep 600" Scenario.no_options Scenario.session1 eq_refl eq_refl).
Defined.

Lemma is_timeout_spec (e : JsError) :
  is_timeout e = true <-> killed e = Some true \/ code e = VStr "ETIMEDOUT".
Proof.
  unfold is_timeout. rewrite orb_true_iff. split.
  - intros [Hk|Hc].
    + left. destruct (killed e) as [[|]|]; [reflexivity|discriminate|discriminate].
    + right. destruct (code e) as [| |n|c]; try discriminate.
      apply String.eqb_eq in Hc. now subst.
  - intros [Hk|Hc]; [rewrite Hk; now left|rewrite Hc; right]. apply String.eqb_refl.
Qed.

(** X10.  The result of [executeCommand] says [timedOut = true] exactly when the
    timer did not fire first and the runtime rejected the command with an
    error that is marked [killed] or has the code [ETIMEDOUT]; the result
    then carries the output captured by the runtime. *)
Theorem executeCommand_timedOut_iff_runtime_reports_it
    (env : Env) (s : State) (sid command : string) (options : ExecOptions)
    (sess : SandboxSession) (result : ExecutionResult) :
  JsMap.get sid (sessions s) = Some sess ->
  isActive sess = true ->
  fst (executeCommand sid command options env s) = Ok result ->
  let c := docker_exec (containerId sess) command in
  let n := S (S (ticks s)) in
  timedOut result = true <->
  timer_first env n c (timeoutMs sess) = false /\
  exists e out err,
    exec env n c = Rejected e out err /\
    (killed e = Some true \/ code e = VStr "ETIMEDOUT") /\
    stdout result = out.
Proof.
  intros H Hact Hres c n.
  rewrite (executeCommand_active env s sid command options sess H Hact) in Hres.
  fold c n in Hres. unfold command_result in Hres. injection Hres as <-.
  destruct (exec env n c) as [o e|e o err|reason];
    [destruct (timer_first env n c (timeoutMs sess))
    |destruct (timer_first env n c (timeoutMs sess))|]; cbn [timedOut stdout].
  - split; [discriminate|]. intros [Hf _]. discriminate.
  - split; [discriminate|]. intros [_ (e0 & o0 & err0 & Hrej & _)]. discriminate.
  - split; [discriminate|]. intros [Hf _]. discriminate.
  - rewrite is_timeout_spec. split.
    + intros Hk. split; [reflexivity|]. exists e, o, err. auto.
    + intros [_ (e0 & o0 & err0 & [= <- <- <-] & Hk & _)]. exact Hk.
  - split; [discriminate|]. intros [_ (e0 & o0 & err0 & Hrej & _)]. discriminate.
Qed.

Lemma killed_command_is_timed_out :
  let result :=
    {| exitCode := VNum 1; stdout := "partial output"; stderr := "Unknown error";
       durationMs := 2; timedOut := true |} in
  JsMap.get "s1" (sessions Scenario.one) = Some Scenario.session1 /\
  isActive Scenario.session1 = true /\
  fst (executeCommand "s1" "sleep 600" Scenario.no_options Cases.killer Scenario.one)
    = Ok result /\
  (timedOut result = true <->
   timer_first Cases.killer 2 (docker_exec "c1" "sleep 600") 300000 = false /\
   exists e out err,
     exec Cases.killer 2 (docker_exec "c1" "sleep 600") = Rejected e out err /\
     (killed e = Some true \/ code e = VStr "ETIMEDOUT") /\
     stdout result = out).
Proof.
  split; [reflexivity|]. split; [reflexivity|]. split; [reflexivity|].
  exact (executeCommand_timedOut_iff_runtime_reports_it Cases.killer Scenario.one
           "s1" "sleep 600" Scenario.no_options Scenario.session1 _
           eq_refl eq_refl eq_refl).
Defined.

(** ** What fileOperation leaves behind *)

(** The registry and the events after [fileOperation] on an active
    session, whatever the operation and its outcome. *)
Lemma fileOperation_after (env : Env) (s : State) (sid : string)
    (op : FileOperation) (sess : SandboxSession) :
  JsMap.get sid (sessions s) = Some sess ->
  isActive sess = true ->
  let out := fileOperation sid op env s in
  sessions (snd out) =
    JsMap.set sid (set_lastActivityAt (Date_now env (ticks s)) sess) (sessions s) /\
  published s (snd out) =
    match fst out with
    | Ok _ => []
    | Throw e => [file_operation_error sid op e]
    end.
Proof.
  intros H Hact out.
  assert (Hout : out = fileOperation sid op env s) by reflexivity.
  clearbody out.
  unfold fileOperation in Hout. unfold bind at 1 in Hout.
  rewrite validateSession_run, H, Hact in Hout.
  unfold readFileInContainer, writeFileInContainer, deleteFileInContainer,
    listFilesInContainer in Hout.
  run. rewrite H in Hout. run.
  destruct (type op); [| destruct (content op) as [text|];
                         [destruct (negb (truthy (VStr text)))|] | |];
    run;
    try (destruct (exec env _ _); run);
    subst out; (split; [reflexivity|]);
    apply published_app; cbn; rewrite ?app_nil_r; reflexivity.
Qed.

(** X11.  [fileOperation] publishes an event only when it throws: then exactly
    one [file-operation:error] event, with the operation and the error it
    throws.  A listing never throws, so it never publishes. *)
Theorem fileOperation_publishes_failures_only
    (env : Env) (s : State) (sid : string) (op : FileOperation)
    (sess : SandboxSession) :
  JsMap.get sid (sessions s) = Some sess ->
  isActive sess = true ->
  let out := fileOperation sid op env s in
  published s (snd out) =
    match fst out with
    | Ok _ => []
    | Throw e => [file_operation_error sid op e]
    end /\
  (type op = list_files -> exists l, fst out = Ok (FList l)).
Proof.
  intros H Hact out.
  split; [exact (proj2 (fileOperation_after env s sid op sess H Hact))|].
  intros Hty.
  assert (Hout : out = fileOperation sid op env s) by reflexivity.
  clearbody out.
  unfold fileOperation in Hout. unfold bind at 1 in Hout.
  rewrite validateSession_run, H, Hact in Hout.
  rewrite Hty in Hout. unfold listFilesInContainer in Hout.
  run. rewrite H in Hout. run.
  destruct (exec env _ _); run; subst out; eexists; reflexivity.
Qed.

Lemma failed_read_is_published :
  let op := {| type := read; path := "/missing.txt"; content := None;
               recursive := None |} in
  let out := fileOperation "s1" op Scenario.with_passwd Scenario.one in
  JsMap.get "s1" (sessions Scenario.one) = Some Scenario.session1 /\
  isActive Scenario.session1 = true /\
  published Scenario.one (snd out) =
    [file_operation_error "s1" op
       (promisified Scenario.failure "" "cat: No such file or directory")] /\
  (type op = list_files -> exists l, fst out = Ok (FList l)).
Proof.
  split; [reflexivity|]. split; [reflexivity|].
  exact (fileOperation_publishes_failures_only Scenario.with_passwd Scenario.one
           "s1" _ Scenario.session1 eq_refl eq_refl).
Defined.

(** ** Activity *)



(** The sweep leaves a session alone when it is not idle for too long. *)
Lemma sweep_keeps_recent (env : Env) (s : State) (sid : string)
    (sess : SandboxSession) :
  JsMap.wf (sessions s) ->
  JsMap.get sid (sessions s) = Some sess ->
  idle (Date_now env (ticks s)) sess <= maxSessionAge ->
  JsMap.get sid (sessions (snd (cleanupInactiveSessions env s))) = Some sess.
Proof.
  intros Hwf Hget Hrecent. rewrite cleanupInactiveSessions_run.
  set (ids := map fst (filter _ (sessions s))).
  destruct (teardown_loop_registry env sweep_body (sweep_body_state env)
              ids (tick s)) as (_ & Hout & _).
  cbv zeta in Hout. rewrite Hout; [exact Hget|].
  intros Hmem. apply in_map_iff in Hmem. destruct Hmem as ([k x] & Hk & Hkx).
  cbn [fst] in Hk. subst k. apply filter_In in Hkx. destruct Hkx as [Hkx Hold].
  cbn [snd] in Hold. apply Z.ltb_lt in Hold.
  rewrite (JsMapFacts.In_get sid x (sessions s) Hwf Hkx) in Hget.
  injection Hget as ->. lia.
Qed.

(** X13.  A command protects its session from the sweep, even when the command
    failed and however long the session had been idle before: if the
    sweep that follows [executeCommand] reads the clock at most the
    maximum age after the command was issued, the session is still
    registered after the sweep, with the stamp of the command. *)
Theorem a_command_protects_its_session_from_the_sweep
    (env : Env) (s : State) (sid command : string) (options : ExecOptions)
    (sess : SandboxSession) :
  JsMap.wf (sessions s) ->
  JsMap.get sid (sessions s) = Some sess ->
  isActive sess = true ->
  let s1 := snd (executeCommand sid command options env s) in
  Date_now env (ticks s1) - Date_now env (ticks s) <= maxSessionAge ->
  JsMap.get sid (sessions (snd (cleanupInactiveSessions env s1)))
    = Some (set_lastActivityAt (Date_now env (ticks s)) sess).
Proof.
  intros Hwf H Hact s1 Hclock.
  destruct (executeCommand_after env s sid command options sess H Hact)
    as (Hreg & _ & _).
  fold s1 in Hreg.
  apply sweep_keeps_recent.
  - rewrite Hreg. now apply JsMapFacts.wf_set.
  - rewrite Hreg. apply JsMapFacts.get_set_same.
  - unfold idle. cbn [lastActivityAt set_lastActivityAt]. exact Hclock.
Qed.

Lemma idle_session_saved_by_a_failed_command :
  let s1 := snd (executeCommand "s1" "exit 1" Scenario.no_options Cases.no_docker
                   Scenario.three) in
  JsMap.wf (sessions Scenario.three) /\
  JsMap.get "s1" (sessions Scenario.three) = Some Scenario.session1 /\
  isActive Scenario.session1 = true /\
  Date_now Cases.no_docker (ticks s1) - Date_now Cases.no_docker (ticks Scenario.three)
    <= maxSessionAge /\
  JsMap.get "s1" (sessions (snd (cleanupInactiveSessions Cases.no_docker s1)))
    = Some (set_lastActivityAt 2000000 Scenario.session1).
Proof.
  assert (Hwf : JsMap.wf (sessions Scenario.three)).
  { unfold JsMap.wf. cbn. repeat constructor; cbn; intuition discriminate. }
  assert (Hclock : Date_now Cases.no_docker
                     (ticks (snd (executeCommand "s1" "exit 1" Scenario.no_options
                                    Cases.no_docker Scenario.three)))
                   - Date_now Cases.no_docker (ticks Scenario.three)
                   <= maxSessionAge) by (cbn; discriminate).
  split; [exact Hwf|]. split; [reflexivity|]. split; [reflexivity|].
  split; [exact Hclock|].
  exact (a_command_protects_its_session_from_the_sweep Cases.no_docker
           Scenario.three "s1" "exit 1" Scenario.no_options Scenario.session1
           Hwf eq_refl eq_refl Hclock).
Defined.

(** ** Listing files *)

Lemma rev_string_acc (acc s : string) : rev_string acc s = rev_string "" s ++ acc.
Proof.
  revert acc. induction s as [|c s IH]; intros acc; cbn [rev_string].
  - reflexivity.
  - rewrite (IH (String c acc)), (IH (String c "")).
    clear IH. induction (rev_string "" s) as [|d t IHt]; cbn; [reflexivity|].
    now rewrite IHt.
Qed.

Lemma rev_string_snoc (s : string) (c : ascii) (acc : string) :
  rev_string acc (s ++ String c "") = String c (rev_string acc s).
Proof.
  revert acc. induction s as [|d s IH]; intros acc; cbn; [reflexivity|].
  apply IH.
Qed.

Lemma rev_string_involutive (s : string) : rev_string "" (rev_string "" s) = s.
Proof.
  induction s as [|c s IH]; cbn [rev_string]; [reflexivity|].
  rewrite (rev_string_acc (String c "")), rev_string_snoc. now rewrite IH.
Qed.

(** A piece without the separator, then the separator. *)
Lemma split_aux_piece (sep : ascii) (line rest cur : string) :
  ~ In sep (chars line) ->
  split_aux sep cur (line ++ String sep rest) =
    rev_string "" (rev_string cur line) :: split_aux sep "" rest.
Proof.
  revert cur. induction line as [|c line IH]; intros cur Hno; cbn.
  - now rewrite Ascii.eqb_refl.
  - destruct (Ascii.eqb_spec c sep) as [->|Hne].
    + exfalso. apply Hno. now left.
    + apply IH. intros Hin. apply Hno. now right.
Qed.

Lemma split_lines_unlines (lines : list string) :
  (forall line, In line lines -> ~ In newline (chars line)) ->
  split_lines (unlines lines) = (lines ++ [""])%list.
Proof.
  unfold split_lines, split. induction lines as [|line lines IH]; intros Hno.
  - reflexivity.
  - cbn [unlines fold_right]. rewrite split_aux_piece by (apply Hno; now left).
    rewrite rev_string_involutive. cbn [app]. f_equal.
    apply IH. intros l Hl. apply Hno. now right.
Qed.

Lemma strip_sandbox_prefix_added (p : string) :
  strip_sandbox_prefix ("/sandbox" ++ p) = p.
Proof.
  unfold strip_sandbox_prefix. cbn.
  assert (Hp : prefix "" p = true) by now destruct p.
  rewrite Hp, Nat.sub_0_r. clear Hp.
  induction p as [|c p IH]; cbn; [reflexivity|]. now rewrite IH.
Qed.

Lemma trimStart_snoc_nonempty (s : string) (c : ascii) :
  is_whitespace c = false -> trimStart (s ++ String c "") <> "".
Proof.
  intros Hc. induction s as [|d s IH]; cbn.
  - now rewrite Hc.
  - destruct (is_whitespace d); [exact IH|discriminate].
Qed.

Lemma rev_string_nonempty (s : string) : s <> "" -> rev_string "" s <> "".
Proof.
  destruct s as [|c s]; [contradiction|]. intros _. cbn [rev_string].
  rewrite rev_string_acc. now destruct (rev_string "" s).
Qed.

(** A line that starts with a visible character is not blank. *)
Lemma trim_nonblank (c : ascii) (s : string) :
  is_whitespace c = false -> trim (String c s) <> "".
Proof.
  intros Hc. unfold trim. cbn [trimStart]. rewrite Hc. cbn [rev_string].
  rewrite (rev_string_acc (String c "") s). apply rev_string_nonempty.
  now apply trimStart_snoc_nonempty.
Qed.

(** What [listFilesInContainer] makes of the output of [find]. *)
Lemma relative_paths (ps : list string) :
  (forall p, In p ps -> ~ In newline (chars p)) ->
  map strip_sandbox_prefix
    (filter (fun line => negb (trim line =? "")%string)
       (split_lines (unlines (map (fun p => "/sandbox" ++ p) ps)))) = ps.
Proof.
  intros Hno. rewrite split_lines_unlines.
  - rewrite filter_app. cbn [filter]. replace (negb (trim "" =? "")%string) with false
      by reflexivity.
    rewrite app_nil_r. clear Hno. induction ps as [|p ps IH]; [reflexivity|].
    cbn [map filter].
    destruct (String.eqb_spec (trim ("/sandbox" ++ p)) "") as [Hblank|_].
    + exfalso. revert Hblank. now apply trim_nonblank.
    + cbn [negb map]. now rewrite strip_sandbox_prefix_added, IH.
  - intros line Hin. apply in_map_iff in Hin. destruct Hin as (p & <- & Hp).
    cbn. intros Hin.
    repeat (destruct Hin as [Hin|Hin]; [discriminate|]).
    exact (Hno p Hp Hin).
Qed.

(** X14.  Listing undoes the prefix: when [find] prints the files of the
    directory as [/sandbox] followed by their paths, one per line,
    [fileOperation] returns exactly these paths, in the same order. *)
Theorem fileOperation_list_returns_the_paths_without_the_prefix
    (env : Env) (s : State) (sid : string) (op : FileOperation)
    (sess : SandboxSession) (ps : list string) (err : string) :
  JsMap.get sid (sessions s) = Some sess ->
  isActive sess = true ->
  type op = list_files ->
  (forall p, In p ps -> ~ In newline (chars p)) ->
  exec env (S (ticks s)) (docker_exec_find (containerId sess) ("/sandbox" ++ path op))
    = Resolved (unlines (map (fun p => "/sandbox" ++ p) ps)) err ->
  fst (fileOperation sid op env s) = Ok (FList ps).
Proof.
  intros H Hact Hty Hno Hexec.
  unfold fileOperation. unfold bind at 1. rewrite validateSession_run, H, Hact.
  rewrite Hty. unfold listFilesInContainer. run. rewrite H. run.
  rewrite Hexec. run. now rewrite relative_paths.
Qed.

Lemma two_files_listed :
  JsMap.get "s1" (sessions Scenario.one) = Some Scenario.session1 /\
  isActive Scenario.session1 = true /\
  type Cases.list_root = list_files /\
  (forall p, In p ["/a.txt"; "/dir/b.py"] -> ~ In newline (chars p)) /\
  exec Cases.two_files 1 (docker_exec_find "c1" ("/sandbox" ++ path Cases.list_root))
    = Resolved (unlines (map (fun p => "/sandbox" ++ p) ["/a.txt"; "/dir/b.py"])) "" /\
  fst (fileOperation "s1" Cases.list_root Cases.two_files Scenario.one)
    = Ok (FList ["/a.txt"; "/dir/b.py"]).
Proof.
  assert (Hno : forall p, In p ["/a.txt"; "/dir/b.py"] -> ~ In newline (chars p)).
  { intros p [<-|[<-|[]]]; cbn; intuition discriminate. }
  split; [reflexivity|]. split; [reflexivity|]. split; [reflexivity|].
  split; [exact Hno|]. split; [reflexivity|].
  exact (fileOperation_list_returns_the_paths_without_the_prefix Cases.two_files
           Scenario.one "s1" Cases.list_root Scenario.session1
           ["/a.txt"; "/dir/b.py"] "" eq_refl eq_refl eq_refl Hno eq_refl).
Defined.

(** ** What updateSessionLimits asks of the runtime *)

(** X15.  Only a new memory limit reaches the runtime.  On an active session,
    the calls made by [updateSessionLimits] are: one [docker update
    --memory] with the new limit when a non-empty memory limit is given,
    made after the session has been given its new limits; and none
    otherwise, so a new CPU limit or timeout is recorded and never applied
    to the container, and such an update always succeeds. *)
Theorem updateSessionLimits_only_sends_the_memory_limit
    (env : Env) (s : State) (sid : string) (limits : Limits)
    (sess : SandboxSession) :
  JsMap.get sid (sessions s) = Some sess ->
  isActive sess = true ->
  let out := updateSessionLimits sid limits env s in
  let updated := JsMap.set sid (with_limits limits sess) (sessions s) in
  match new_memoryLimit limits with
  | Some (String c m) =>
      issued s (snd out) =
        [(docker_update_memory (String c m) (containerId sess), updated)]
  | _ =>
      issued s (snd out) = [] /\ fst out = Ok tt
  end.
Proof.
  intros H Hact out updated.
  assert (Hout : out = updateSessionLimits sid limits env s) by reflexivity.
  clearbody out.
  rewrite (updateSessionLimits_run env s sid limits sess H Hact) in Hout.
  destruct (new_memoryLimit limits) as [[|c m]|]; run.
  - subst out. split; [|reflexivity]. apply issued_app. cbn. now rewrite app_nil_r.
  - cbn [truthy String.eqb negb] in Hout. run.
    destruct (exec env (ticks s) _); run; subst out; apply issued_app; reflexivity.
  - subst out. split; [|reflexivity]. apply issued_app. cbn. now rewrite app_nil_r.
Qed.

Lemma cpu_limit_never_reaches_the_runtime :
  let out := updateSessionLimits "s1" Cases.cpu_only Cases.no_docker Scenario.one in
  JsMap.get "s1" (sessions Scenario.one) = Some Scenario.session1 /\
  isActive Scenario.session1 = true /\
  issued Scenario.one (snd out) = [] /\ fst out = Ok tt.
Proof.
  split; [reflexivity|]. split; [reflexivity|].
  exact (updateSessionLimits_only_sends_the_memory_limit Cases.no_docker
           Scenario.one "s1" Cases.cpu_only Scenario.session1 eq_refl eq_refl).
Defined.

(** ** The health probe only looks *)

(** X16.  [getSessionHealth] on an active session makes one [docker stats] call
    and changes nothing else: the registry is the same (a probe is not
    activity: [lastActivityAt] is not stamped) and no event is published.
    The status is the healthy one exactly when the call succeeded and its
    output parsed to a value other than [null]; the three usage fields of
    a healthy status are never empty, a missing or empty one being
    replaced by its default. *)
Theorem getSessionHealth_only_looks
    (env : Env) (s : State) (sid : string) (sess : SandboxSession) :
  JsMap.get sid (sessions s) = Some sess ->
  isActive sess = true ->
  let out := getSessionHealth sid env s in
  sessions (snd out) = sessions s /\
  published s (snd out) = [] /\
  issued s (snd out) = [(docker_stats (containerId sess), sessions s)] /\
  (forall active created last mem cpu status,
     fst out = Ok (Healthy sid active created last mem cpu status) ->
     (exists o e M C S,
        exec env (ticks s) (docker_stats (containerId sess)) = Resolved o e /\
        JSON_parse env o = Ok (JObject M C S)) /\
     truthy mem = true /\ truthy cpu = true /\ truthy status = true).
Proof.
  intros H Hact out.
  assert (Hout : out = getSessionHealth sid env s) by reflexivity.
  clearbody out.
  unfold getSessionHealth in Hout. unfold bind at 1 in Hout.
  rewrite validateSession_run, H, Hact in Hout. run.
  assert (Hor : forall v d, truthy d = true -> truthy (js_or v d) = true).
  { intros v d Hd. unfold js_or. now destruct (truthy v) eqn:Hv. }
  destruct (exec env (ticks s) (docker_stats (containerId sess)))
    as [o e|e o err|reason]; run.
  - destruct (JSON_parse env o) as [[|M C S]|e0] eqn:Hparse; run; subst out;
      (split; [reflexivity|]; split; [apply published_app; cbn; now rewrite app_nil_r|];
       split; [apply issued_app; reflexivity|]);
      intros active created last mem cpu status Hs; try discriminate.
    injection Hs as _ _ _ <- <- <-.
    split; [exists o, e, M, C, S; now split|].
    repeat split; now apply Hor.
  - subst out. split; [reflexivity|].
    split; [apply published_app; cbn; now rewrite app_nil_r|].
    split; [apply issued_app; reflexivity|]. discriminate.
  - subst out. split; [reflexivity|].
    split; [apply published_app; cbn; now rewrite app_nil_r|].
    split; [apply issued_app; reflexivity|]. discriminate.
Qed.

Lemma probing_leaves_the_session_idle :
  let out := getSessionHealth "s1" Scenario.healthy Scenario.one in
  JsMap.get "s1" (sessions Scenario.one) = Some Scenario.session1 /\
  isActive Scenario.session1 = true /\
  sessions (snd out) = sessions Scenario.one /\
  published Scenario.one (snd out) = [] /\
  issued Scenario.one (snd out) = [(docker_stats "c1", sessions Scenario.one)] /\
  (forall active created last mem cpu status,
     fst out = Ok (Healthy "s1" active created last mem cpu status) ->
     (exists o e M C S,
        exec Scenario.healthy 0 (docker_stats "c1") = Resolved o e /\
        JSON_parse Scenario.healthy o = Ok (JObject M C S)) /\
     truthy mem = true /\ truthy cpu = true /\ truthy status = true).
Proof.
  split; [reflexivity|]. split; [reflexivity|].
  exact (getSessionHealth_only_looks Scenario.healthy Scenario.one "s1"
           Scenario.session1 eq_refl eq_refl).
Defined.

(** ** A sweep with nothing to do *)

(** X17.  When no registered session has been idle for more than the maximum
    age (in particular when the registry is empty), the sweep reads the
    clock and does nothing else: no call, no event, the same registry. *)
Theorem cleanupInactiveSessions_without_idle_sessions (env : Env) (s : State) :
  (forall sid sess, In (sid, sess) (sessions s) ->
     idle (Date_now env (ticks s)) sess <= maxSessionAge) ->
  cleanupInactiveSessions env s = (Ok tt, tick s).
Proof.
  intros Hrecent. rewrite cleanupInactiveSessions_run.
  assert (Hnone : filter (fun kv => maxSessionAge <?
                            idle (Date_now env (ticks s)) (snd kv)) (sessions s) = []).
  { induction (sessions s) as [|[k x] m IH]; [reflexivity|]. cbn [filter snd].
    destruct (Z.ltb_spec maxSessionAge (idle (Date_now env (ticks s)) x)) as [Hold|_].
    - specialize (Hrecent k x (or_introl eq_refl)). lia.
    - apply IH. intros sid sess Hin. apply (Hrecent sid sess). now right. }
  now rewrite Hnone.
Qed.

Lemma early_sweep_does_nothing :
  (forall sid sess, In (sid, sess) (sessions Scenario.three) ->
     idle (Date_now Cases.early (ticks Scenario.three)) sess <= maxSessionAge) /\
  cleanupInactiveSessions Cases.early Scenario.three = (Ok tt, tick Scenario.three).
Proof.
  assert (H : forall sid sess, In (sid, sess) (sessions Scenario.three) ->
            idle (Date_now Cases.early (ticks Scenario.three)) sess <= maxSessionAge).
  { intros sid sess [[= <- <-]|[[= <- <-]|[[= <- <-]|[]]]]; cbn; discriminate. }
  split; [exact H|].
  exact (cleanupInactiveSessions_without_idle_sessions Cases.early Scenario.three H).
Defined.

(** ** Listing sessions *)

Lemma delete_set (sid : string) (y : SandboxSession) (m : Registry) :
  JsMap.delete sid (JsMap.set sid y m) = JsMap.delete sid m.
Proof.
  unfold JsMap.delete. induction m as [|[k v] m IH]; cbn.
  - now rewrite String.eqb_refl.
  - destruct (String.eqb_spec sid k) as [->|Hne]; cbn.
    + now rewrite String.eqb_refl.
    + destruct (String.eqb_spec sid k); [contradiction|]. cbn. now rewrite IH.
Qed.

Lemma active_values_delete (sid : string) (m : Registry) :
  keyed m ->
  filter isActive (JsMap.values (JsMap.delete sid m)) =
    filter (fun x => negb (sessionId x =? sid)%string)
      (filter isActive (JsMap.values m)).
Proof.
  unfold JsMap.values, JsMap.delete. induction m as [|[k v] m IH]; intros Hk.
  - reflexivity.
  - assert (Hv : sessionId v = k) by (apply Hk; now left).
    assert (Hm : keyed m) by (intros k' x' Hin; apply Hk; now right).
    cbn [filter map fst snd]. rewrite (String.eqb_sym sid k), <- Hv.
    destruct (sessionId v =? sid)%string eqn:Heq; cbn [negb map snd filter];
      destruct (isActive v); cbn [filter]; rewrite ?Heq; cbn [negb];
      now rewrite IH.
Qed.

(** X18.  After [destroySession] has removed a session, [listSessions] returns
    the sessions it returned before, in the same order, without the one
    whose [sessionId] was destroyed. *)
Theorem listSessions_after_destroySession
    (env : Env) (s : State) (sid : string) (sess : SandboxSession)
    (out err : string) :
  keyed (sessions s) ->
  JsMap.get sid (sessions s) = Some sess ->
  exec env (S (ticks s)) (docker_rm (containerId sess)) = Resolved out err ->
  listSessions (snd (destroySession sid env s)) =
    filter (fun x => negb (sessionId x =? sid)%string) (listSessions s).
Proof.
  intros Hk H Hexec.
  destruct (destroySession_present env s sid sess H) as [_ Hrm].
  cbv zeta in Hrm. rewrite Hexec in Hrm. destruct Hrm as [_ Hreg].
  unfold listSessions. rewrite Hreg, delete_set.
  now apply active_values_delete.
Qed.

Lemma three_sessions_minus_one :
  keyed (sessions Scenario.three) /\
  JsMap.get "s2" (sessions Scenario.three) = Some Scenario.session2 /\
  exec Scenario.healthy 1 (docker_rm "c2") = Resolved "" "" /\
  listSessions (snd (destroySession "s2" Scenario.healthy Scenario.three)) =
    filter (fun x => negb (sessionId x =? "s2")%string) (listSessions Scenario.three).
Proof.
  assert (Hk : keyed (sessions Scenario.three)).
  { intros k x [[= <- <-]|[[= <- <-]|[[= <- <-]|[]]]]; reflexivity. }
  split; [exact Hk|]. split; [reflexivity|]. split; [reflexivity|].
  exact (listSessions_after_destroySession Scenario.healthy Scenario.three "s2"
           Scenario.session2 "" "" Hk eq_refl eq_refl).
Defined.

(** X19.  After [createSession] has registered a session under an identifier
    that was not in use, [listSessions] returns the sessions it returned
    before, followed by the new one. *)
Theorem listSessions_after_createSession
    (env : Env) (s : State) (out err : string) :
  let id := "sandbox_" ++ string_of_Z (Date_now env (ticks s)) ++ "_"
              ++ Math_random env (S (ticks s)) in
  JsMap.get id (sessions s) = None ->
  exec env (S (S (ticks s)))
    (docker_run "512m" "1" "claude-agent-sandbox:latest") = Resolved out err ->
  exists session,
    listSessions (snd (createSession env s)) = (listSessions s ++ [session])%list /\
    sessionId session = id /\ containerId session = trim out /\
    isActive session = true.
Proof.
  intros id Hfresh Hexec. rewrite createSession_run.
  change (docker_run baseMemoryLimit baseCpuLimit dockerImageName)
    with (docker_run "512m" "1" "claude-agent-sandbox:latest").
  rewrite Hexec. fold id. cbn [snd]. eexists. split.
  - unfold listSessions. cbn [sessions]. rewrite (set_absent _ _ _ Hfresh).
    unfold JsMap.values. rewrite map_app, filter_app. reflexivity.
  - repeat split.
Qed.

Lemma fourth_session_is_listed_last :
  JsMap.get "sandbox_2000000_k3j9x0q1z" (sessions Scenario.three) = None /\
  exec Scenario.healthy 2 (docker_run "512m" "1" "claude-agent-sandbox:latest")
    = Resolved "" "" /\
  exists session,
    listSessions (snd (createSession Scenario.healthy Scenario.three)) =
      (listSessions Scenario.three ++ [session])%list /\
    sessionId session = "sandbox_2000000_k3j9x0q1z" /\
    containerId session = trim "" /\
    isActive session = true.
Proof.
  split; [reflexivity|]. split; [reflexivity|].
  exact (listSessions_after_createSession Scenario.healthy Scenario.three "" ""
           eq_refl eq_refl).
Defined.

(** ** Session identifiers *)

Lemma digits_without_underscore (d : Decimal.uint) :
  ~ In "_"%char (chars (NilEmpty.string_of_uint d)).
Proof.
  induction d; cbn; intros H; try contradiction;
    (destruct H as [H|H]; [discriminate|now apply IHd]).
Qed.

Lemma decimal_without_underscore (d : Decimal.uint) :
  ~ In "_"%char (chars (NilZero.string_of_uint d)).
Proof.
  unfold NilZero.string_of_uint.
  destruct d; try apply digits_without_underscore.
  cbn. intuition discriminate.
Qed.

Lemma string_of_Z_without_underscore (n : Z) : ~ In "_"%char (chars (string_of_Z n)).
Proof.
  unfold string_of_Z, NilZero.string_of_int.
  destruct (Z.to_int n) as [d|d]; [apply decimal_without_underscore|].
  cbn [chars]. intros [H|H]; [discriminate|].
  exact (decimal_without_underscore d H).
Qed.

Lemma string_of_Z_inj (a b : Z) : string_of_Z a = string_of_Z b -> a = b.
Proof.
  unfold string_of_Z. intros H.
  assert (Hnz : forall n, Z.to_int n <> Decimal.Pos Decimal.Nil /\
                          Z.to_int n <> Decimal.Neg Decimal.Nil).
  { intros [|p|p]; cbn; split; try discriminate;
      intros [= Hp]; exact (DecimalPos.Unsigned.to_uint_nonnil p Hp). }
  apply (f_equal NilZero.int_of_string) in H.
  rewrite !NilZero.isi in H by apply Hnz.
  injection H as H. now apply DecimalZ.to_int_inj.
Qed.

(** Two strings that agree up to and after the first separator. *)
Lemma append_separator_inj (c : ascii) (a b r r' : string) :
  ~ In c (chars a) -> ~ In c (chars b) ->
  a ++ String c r = b ++ String c r' -> a = b /\ r = r'.
Proof.
  revert b. induction a as [|x a IH]; intros [|y b] Ha Hb; cbn.
  - intros [= ->]. now split.
  - intros [= <- _]. exfalso. apply Hb. now left.
  - intros [= -> _]. exfalso. apply Ha. now left.
  - intros [= <- H]. destruct (IH b) as [-> ->]; auto.
    + intros Hin. apply Ha. now right.
    + intros Hin. apply Hb. now right.
Qed.

(** X20.  Identifiers tell sessions apart: [generateSessionId] returns the same
    identifier twice only if it read the same time on the clock and drew
    the same random suffix both times.  So two sessions created at
    different milliseconds, or with different suffixes, never share an
    identifier. *)
Theorem generateSessionId_same_id_same_clock_and_suffix
    (env env' : Env) (s s' : State) :
  fst (generateSessionId env s) = fst (generateSessionId env' s') ->
  Date_now env (ticks s) = Date_now env' (ticks s') /\
  Math_random env (S (ticks s)) = Math_random env' (S (ticks s')).
Proof.
  unfold generateSessionId. run. intros [= H].
  apply append_separator_inj in H; try apply string_of_Z_without_underscore.
  destruct H as [Ht Hr]. split; [now apply string_of_Z_inj|exact Hr].
Qed.

Lemma same_id_on_the_same_run :
  fst (generateSessionId Scenario.healthy Scenario.fresh)
    = fst (generateSessionId Scenario.healthy Scenario.one) /\
  Date_now Scenario.healthy (ticks Scenario.fresh)
    = Date_now Scenario.healthy (ticks Scenario.one) /\
  Math_random Scenario.healthy (S (ticks Scenario.fresh))
    = Math_random Scenario.healthy (S (ticks Scenario.one)).
Proof.
  split; [reflexivity|].
  exact (generateSessionId_same_id_same_clock_and_suffix Scenario.healthy
           Scenario.healthy Scenario.fresh Scenario.one eq_refl).
Defined.

(** ** Sequences of calls *)

(** X21.  A session survives its failures: after [executeCommand] or
    [fileOperation] on an active session, whatever the outcome (a failed
    command, a timer that fired, an operation that threw), the session is
    still registered and active, and the next [executeCommand] on it
    returns a result. *)
Theorem session_stays_usable_after_a_failure
    (env : Env) (s : State) (sid : string) (sess : SandboxSession) :
  JsMap.get sid (sessions s) = Some sess ->
  isActive sess = true ->
  (forall command options command' options',
     let s1 := snd (executeCommand sid command options env s) in
     option_map isActive (JsMap.get sid (sessions s1)) = Some true /\
     exists result, fst (executeCommand sid command' options' env s1) = Ok result) /\
  (forall operation command' options',
     let s1 := snd (fileOperation sid operation env s) in
     option_map isActive (JsMap.get sid (sessions s1)) = Some true /\
     exists result, fst (executeCommand sid command' options' env s1) = Ok result).
Proof.
  intros H Hact.
  assert (Hnext : forall s1 command' options',
            sessions s1 =
              JsMap.set sid (set_lastActivityAt (Date_now env (ticks s)) sess)
                (sessions s) ->
            option_map isActive (JsMap.get sid (sessions s1)) = Some true /\
            exists result, fst (executeCommand sid command' options' env s1) = Ok result).
  { intros s1 command' options' Hreg.
    assert (Hget : JsMap.get sid (sessions s1)
                   = Some (set_lastActivityAt (Date_now env (ticks s)) sess))
      by (rewrite Hreg; apply JsMapFacts.get_set_same).
    split; [rewrite Hget; cbn; now rewrite Hact|].
    rewrite (executeCommand_active env s1 sid command' options' _ Hget Hact).
    eexists. reflexivity. }
  split.
  - intros command options command' options' s1. apply Hnext.
    exact (proj1 (executeCommand_after env s sid command options sess H Hact)).
  - intros operation command' options' s1. apply Hnext.
    exact (proj1 (fileOperation_after env s sid operation sess H Hact)).
Qed.

Lemma session_usable_after_a_timeout :
  JsMap.get "s1" (sessions Scenario.one) = Some Scenario.session1 /\
  isActive Scenario.session1 = true /\
  (forall command options command' options',
     let s1 := snd (executeCommand "s1" command options Scenario.slow Scenario.one) in
     option_map isActive (JsMap.get "s1" (sessions s1)) = Some true /\
     exists result,
       fst (executeCommand "s1" command' options' Scenario.slow s1) = Ok result) /\
  (forall operation command' options',
     let s1 := snd (fileOperation "s1" operation Scenario.slow Scenario.one) in
     option_map isActive (JsMap.get "s1" (sessions s1)) = Some true /\
     exists result,
       fst (executeCommand "s1" command' options' Scenario.slow s1) = Ok result).
Proof.
  split; [reflexivity|]. split; [reflexivity|].
  exact (session_stays_usable_after_a_failure Scenario.slow Scenario.one "s1"
           Scenario.session1 eq_refl eq_refl).
Defined.

(** The methods on an identifier that is not registered. *)
Lemma methods_on_unregistered (env : Env) (s : State) (sid : string) :
  JsMap.get sid (sessions s) = None ->
  let e := new_Error ("Session not found: " ++ sid) in
  destroySession sid env s = (Throw e, s) /\
  (forall command options, executeCommand sid command options env s = (Throw e, s)) /\
  (forall operation, fileOperation sid operation env s = (Throw e, s)) /\
  getSessionHealth sid env s = (Throw e, s) /\
  (forall limits, updateSessionLimits sid limits env s = (Throw e, s)).
Proof.
  intros H e.
  assert (Hrun : validateSession sid env s = (Throw e, s))
    by (rewrite validateSession_run; now rewrite H).
  split; [now apply destroySession_absent|].
  repeat split; intros.
  - unfold executeCommand. unfold bind at 1. now rewrite Hrun.
  - unfold fileOperation. unfold bind at 1. now rewrite Hrun.
  - unfold getSessionHealth. unfold bind at 1. now rewrite Hrun.
  - unfold updateSessionLimits. unfold bind at 1. now rewrite Hrun.
Qed.

(** X22.  Once [destroySession] has removed a session, its identifier is of no
    use: every method called with it, [destroySession] included, throws
    [Session not found] and changes nothing. *)
Theorem destroyed_session_is_not_found_by_any_method
    (env : Env) (s : State) (sid : string) (sess : SandboxSession)
    (out err : string) :
  JsMap.get sid (sessions s) = Some sess ->
  exec env (S (ticks s)) (docker_rm (containerId sess)) = Resolved out err ->
  let s1 := snd (destroySession sid env s) in
  let e := new_Error ("Session not found: " ++ sid) in
  destroySession sid env s1 = (Throw e, s1) /\
  (forall command options, executeCommand sid command options env s1 = (Throw e, s1)) /\
  (forall operation, fileOperation sid operation env s1 = (Throw e, s1)) /\
  getSessionHealth sid env s1 = (Throw e, s1) /\
  (forall limits, updateSessionLimits sid limits env s1 = (Throw e, s1)).
Proof.
  intros H Hexec s1 e. apply methods_on_unregistered.
  destruct (destroySession_present env s sid sess H) as [_ Hrm].
  cbv zeta in Hrm. rewrite Hexec in Hrm. destruct Hrm as [_ Hreg].
  subst s1. rewrite Hreg. apply JsMapFacts.get_delete_same.
Qed.

Lemma destroyed_s1_is_not_found :
  let s1 := snd (destroySession "s1" Scenario.healthy Scenario.one) in
  let e := new_Error ("Session not found: " ++ "s1") in
  JsMap.get "s1" (sessions Scenario.one) = Some Scenario.session1 /\
  exec Scenario.healthy 1 (docker_rm "c1") = Resolved "" "" /\
  destroySession "s1" Scenario.healthy s1 = (Throw e, s1) /\
  (forall command options,
     executeCommand "s1" command options Scenario.healthy s1 = (Throw e, s1)) /\
  (forall operation, fileOperation "s1" operation Scenario.healthy s1 = (Throw e, s1)) /\
  getSessionHealth "s1" Scenario.healthy s1 = (Throw e, s1) /\
  (forall limits, updateSessionLimits "s1" limits Scenario.healthy s1 = (Throw e, s1)).
Proof.
  split; [reflexivity|]. split; [reflexivity|].
  exact (destroyed_session_is_not_found_by_any_method Scenario.healthy Scenario.one
           "s1" Scenario.session1 "" "" eq_refl eq_refl).
Defined.

Lemma delete_absent (sid : string) (m : Registry) :
  JsMap.get sid m = None -> JsMap.delete sid m = m.
Proof.
  unfold JsMap.delete. induction m as [|[k v] m IH]; cbn; [reflexivity|].
  destruct (String.eqb_spec sid k); [discriminate|]. cbn.
  intros H. now rewrite IH.
Qed.

(** X23.  Creating a session and destroying it at once, on a runtime that starts
    and removes the container, leaves the registry exactly as it was
    (when the new identifier was not in use). *)
Theorem createSession_then_destroySession_restores_the_registry
    (env : Env) (s : State) (out err out' err' : string) :
  let id := "sandbox_" ++ string_of_Z (Date_now env (ticks s)) ++ "_"
              ++ Math_random env (S (ticks s)) in
  JsMap.get id (sessions s) = None ->
  exec env (S (S (ticks s)))
    (docker_run "512m" "1" "claude-agent-sandbox:latest") = Resolved out err ->
  exec env (S (S (S (S (S (S (ticks s))))))) (docker_rm (trim out))
    = Resolved out' err' ->
  let created := createSession env s in
  let destroyed := destroySession id env (snd created) in
  fst created = Ok id /\
  fst destroyed = Ok tt /\
  sessions (snd destroyed) = sessions s.
Proof.
  intros id Hfresh Hrun Hrm created destroyed.
  assert (Hc : created = createSession env s) by reflexivity. clearbody created.
  rewrite createSession_run in Hc.
  change (docker_run baseMemoryLimit baseCpuLimit dockerImageName)
    with (docker_run "512m" "1" "claude-agent-sandbox:latest") in Hc.
  rewrite Hrun in Hc. fold id in Hc.
  subst created destroyed. cbn [fst snd]. split; [reflexivity|].
  match goal with |- context [destroySession id env ?st] => set (s1 := st) end.
  pose (session :=
          {| sessionId := id; containerId := trim out;
             createdAt := Date_now env (S (S (S (ticks s))));
             lastActivityAt := Date_now env (S (S (S (S (ticks s)))));
             memoryLimit := "512m"; cpuLimit := "1"; diskLimit := "1gb";
             timeoutMs := 300000; isActive := true |}).
  assert (Hget : JsMap.get id (sessions s1) = Some session)
    by (cbn; apply JsMapFacts.get_set_same).
  destruct (destroySession_present env s1 id session Hget) as [_ Hdel].
  cbv zeta in Hdel. cbn [ticks s1 containerId session] in Hdel.
  rewrite Hrm in Hdel. destruct Hdel as [Hok Hreg].
  split; [exact Hok|]. rewrite Hreg. cbn [sessions s1].
  rewrite !delete_set. now apply delete_absent.
Qed.

Lemma fourth_session_comes_and_goes :
  let created := createSession Scenario.healthy Scenario.three in
  let destroyed :=
    destroySession "sandbox_2000000_k3j9x0q1z" Scenario.healthy (snd created) in
  JsMap.get "sandbox_2000000_k3j9x0q1z" (sessions Scenario.three) = None /\
  exec Scenario.healthy 2 (docker_run "512m" "1" "claude-agent-sandbox:latest")
    = Resolved "" "" /\
  exec Scenario.healthy 6 (docker_rm (trim "")) = Resolved "" "" /\
  fst created = Ok "sandbox_2000000_k3j9x0q1z" /\
  fst destroyed = Ok tt /\
  sessions (snd destroyed) = sessions Scenario.three.
Proof.
  split; [reflexivity|]. split; [reflexivity|]. split; [reflexivity|].
  exact (createSession_then_destroySession_restores_the_registry Scenario.healthy
           Scenario.three "" "" "" "" eq_refl eq_refl eq_refl).
Defined.
